(** * Accessibility compliance engine of the Storyblok AI assistant

    A shallow embedding of [lib/wcag-validator.tsx] (classes [WCAGValidator]
    and [ImageAnalyzer]) and of [lib/accessibility-checker] together with
    [lib/gemini-client] (classes [GeminiClient] and [AccessibilityChecker]),
    followed by the properties of the scoring, merging and suggestion code.

    Conventions of the embedding.
    - A JavaScript string is a [string]; each [ascii] stands for one UTF-16
      code unit below 256 (read as Latin-1), which covers the markup the
      patterns of the source look for.
    - JavaScript numbers that are indices, lengths or heading levels are
      [nat]; the score is a [Z]; the numbers returned by the [color] package
      are [Q].
    - A regular expression literal of the source is a term of [RegExp.re],
      run by a backtracking matcher with the priorities of ECMAScript.
    - Calls to the AI provider are steps on an abstract [World]: a call
      either resolves with a value or rejects with an error. *)

From Stdlib Require Import List String Ascii Bool Arith ZArith QArith Lia.
From Stdlib Require Import Qround DecimalString DecimalNat Permutation FinFun.
Import ListNotations.

Local Open Scope string_scope.
Local Open Scope list_scope.
Local Open Scope nat_scope.

(** Concatenation of strings, as in a template literal. *)
Infix "+++" := String.append (right associativity, at level 60).

(* ================================================================== *)
(** ** JavaScript strings *)
(* ================================================================== *)

Module JS.

Definition chars (s : string) : list ascii := list_ascii_of_string s.
Definition str (l : list ascii) : string := string_of_list_ascii l.

Definition code (c : ascii) : nat := nat_of_ascii c.

(** The double quote, written by its code. *)
Definition dquote : ascii := ascii_of_nat 34.
(** The single quote. *)
Definition squote : ascii := ascii_of_nat 39.
Definition newline : ascii := ascii_of_nat 10.
Definition creturn : ascii := ascii_of_nat 13.

Definition dq : string := String dquote EmptyString.

(** The right arrow U+2192 of a message of the source, in UTF-8. *)
Definition arrow : string :=
  String (ascii_of_nat 226)
    (String (ascii_of_nat 134) (String (ascii_of_nat 146) EmptyString)).

(** White space of [String.prototype.trim] and of [\s], below 256. *)
Definition isSpace (c : ascii) : bool :=
  let n := code c in
  ((9 <=? n) && (n <=? 13)) || (n =? 32) || (n =? 160).

Definition isUpper (c : ascii) : bool :=
  let n := code c in
  ((65 <=? n) && (n <=? 90))
  || ((192 <=? n) && (n <=? 222) && negb (n =? 215)).

Definition isLower (c : ascii) : bool :=
  let n := code c in
  ((97 <=? n) && (n <=? 122))
  || ((224 <=? n) && (n <=? 254) && negb (n =? 247)).

Definition lowerChar (c : ascii) : ascii :=
  if isUpper c then ascii_of_nat (code c + 32) else c.

Definition upperChar (c : ascii) : ascii :=
  if isLower c then ascii_of_nat (code c - 32) else c.

Definition toLowerCase (s : string) : string :=
  str (map lowerChar (chars s)).

Definition toUpperCase (s : string) : string :=
  str (map upperChar (chars s)).

Fixpoint dropSpaces (l : list ascii) : list ascii :=
  match l with
  | c :: l' => if isSpace c then dropSpaces l' else l
  | [] => []
  end.

Definition trimChars (l : list ascii) : list ascii :=
  rev (dropSpaces (rev (dropSpaces l))).

Definition trim (s : string) : string := str (trimChars (chars s)).

Definition isEmpty (s : string) : bool :=
  match s with EmptyString => true | _ => false end.

(** Truthiness of a string: the empty string is falsy. *)
Definition truthy (s : string) : bool := negb (isEmpty s).

(** Truthiness of an optional string ([undefined] is falsy). *)
Definition truthyOpt (o : option string) : bool :=
  match o with Some s => truthy s | None => false end.

(** [o || d] on an optional string. *)
Definition orElse (o : option string) (d : string) : string :=
  match o with
  | Some s => if truthy s then s else d
  | None => d
  end.

Definition startsWith (s p : string) : bool := String.prefix p s.

Definition endsWith (s p : string) : bool :=
  String.prefix (str (rev (chars p))) (str (rev (chars s))).

Fixpoint includesChars (fuel : nat) (s p : string) : bool :=
  String.prefix p s
  || match fuel, s with
     | S fuel', String _ s' => includesChars fuel' s' p
     | _, _ => false
     end.

Definition includes (s p : string) : bool :=
  includesChars (String.length s) s p.

(** [s.indexOf(c)] for a one-character needle; [None] stands for -1. *)
Fixpoint indexOfChar (c : ascii) (s : string) : option nat :=
  match s with
  | EmptyString => None
  | String x s' =>
      if Ascii.eqb x c then Some 0
      else option_map S (indexOfChar c s')
  end.

(** [s.substring(a, b)] with [a <= b]. *)
Definition substring (a b : nat) (s : string) : string :=
  String.substring a (b - a) s.

(** [s.substring(a)]. *)
Definition substringFrom (a : nat) (s : string) : string :=
  String.substring a (String.length s - a) s.

(** Decimal rendering of a number inside a template literal. *)
Definition ofNat (n : nat) : string :=
  NilEmpty.string_of_uint (Nat.to_uint n).

(** [s.split("\n")]. *)
Fixpoint splitLinesAux (cur : list ascii) (l : list ascii) : list string :=
  match l with
  | [] => [str (rev cur)]
  | c :: l' =>
      if Ascii.eqb c newline then str (rev cur) :: splitLinesAux [] l'
      else splitLinesAux (c :: cur) l'
  end.

Definition splitLines (s : string) : list string :=
  splitLinesAux [] (chars s).

(** [s.indexOf(needle)]; [None] stands for -1. *)
Fixpoint indexOfFrom (fuel : nat) (needle s : string) (pos : nat)
  : option nat :=
  if String.prefix needle s then Some pos
  else match fuel, s with
       | S fuel', String _ s' => indexOfFrom fuel' needle s' (S pos)
       | _, _ => None
       end.

Definition indexOf (s needle : string) : option nat :=
  indexOfFrom (String.length s) needle s 0.

(** [xs.includes(x)] on an array of strings. *)
Definition arrayIncludes (xs : list string) (x : string) : bool :=
  existsb (String.eqb x) xs.

End JS.

(* ================================================================== *)
(** ** Regular expressions *)
(* ================================================================== *)

Module RegExp.

(** Members of a character class. *)
Inductive item : Type :=
| IChar (c : ascii)
| IRange (lo hi : ascii)
| ISpace                      (* \s *)
| INonSpace.                  (* \S *)

Inductive re : Type :=
| Empty
| Char (c : ascii)
| Dot
| Class (negated : bool) (items : list item)
| Seq (r1 r2 : re)
| Alt (r1 r2 : re)
| Star (greedy : bool) (r : re)
| Group (n : nat) (r : re)
| Backref (n : nat).

Record flags : Type := { ignoreCase : bool; dotAll : bool }.

Definition flags_none := {| ignoreCase := false; dotAll := false |}.
Definition flags_i := {| ignoreCase := true; dotAll := false |}.
Definition flags_is := {| ignoreCase := true; dotAll := true |}.

(** Captures, most recent first. *)
Definition caps : Type := list (nat * list ascii).

Fixpoint capture (n : nat) (c : caps) : option (list ascii) :=
  match c with
  | [] => None
  | (m, w) :: c' => if Nat.eqb m n then Some w else capture n c'
  end.

Definition charEq (f : flags) (a x : ascii) : bool :=
  Ascii.eqb a x
  || (ignoreCase f && Ascii.eqb (JS.lowerChar a) (JS.lowerChar x)).

Definition inItem (x : ascii) (i : item) : bool :=
  match i with
  | IChar c => Ascii.eqb c x
  | IRange lo hi => (JS.code lo <=? JS.code x) && (JS.code x <=? JS.code hi)
  | ISpace => JS.isSpace x
  | INonSpace => negb (JS.isSpace x)
  end.

Definition inItems (f : flags) (x : ascii) (items : list item) : bool :=
  existsb (inItem x) items
  || (ignoreCase f
      && (existsb (inItem (JS.lowerChar x)) items
          || existsb (inItem (JS.upperChar x)) items)).

Definition isLineTerminator (x : ascii) : bool :=
  Ascii.eqb x JS.newline || Ascii.eqb x JS.creturn.

Fixpoint prefixEq (f : flags) (w s : list ascii) : bool :=
  match w, s with
  | [], _ => true
  | a :: w', x :: s' => charEq f a x && prefixEq f w' s'
  | _ :: _, [] => false
  end.

Definition cont : Type := list ascii -> caps -> option (list ascii * caps).

(** The iterations of a star.  [body] matches the starred pattern once;
    an iteration that consumes nothing is rejected, so [n], the length of
    the input where the star starts, bounds the iterations.  A greedy star
    tries one more iteration before it goes on, a lazy one goes on first. *)
Fixpoint starLoop (body : list ascii -> caps -> cont -> option (list ascii * caps))
  (greedy : bool) (k : cont) (n : nat) (s : list ascii) (c : caps)
  {struct n} : option (list ascii * caps) :=
  match n with
  | O => k s c
  | S n' =>
      let iter :=
        body s c
          (fun s' c' =>
             if List.length s' <? List.length s
             then starLoop body greedy k n' s' c' else None) in
      if greedy
      then match iter with Some x => Some x | None => k s c end
      else match k s c with Some x => Some x | None => iter end
  end.

(** The backtracking matcher: [run f r s c k] matches [r] at the head of
    [s] and hands the rest of the input to [k]; alternatives are tried in
    the order of ECMAScript (left branch first, greedy before lazy). *)
Fixpoint run (f : flags) (r : re) (s : list ascii) (c : caps) (k : cont)
  {struct r} : option (list ascii * caps) :=
  match r with
  | Empty => k s c
  | Char a =>
      match s with
      | x :: s' => if charEq f a x then k s' c else None
      | [] => None
      end
  | Dot =>
      match s with
      | x :: s' =>
          if dotAll f || negb (isLineTerminator x) then k s' c else None
      | [] => None
      end
  | Class neg items =>
      match s with
      | x :: s' =>
          if Bool.eqb (inItems f x items) (negb neg) then k s' c else None
      | [] => None
      end
  | Seq r1 r2 => run f r1 s c (fun s' c' => run f r2 s' c' k)
  | Alt r1 r2 =>
      match run f r1 s c k with
      | Some x => Some x
      | None => run f r2 s c k
      end
  | Star greedy r1 => starLoop (run f r1) greedy k (List.length s) s c
  | Group n r1 =>
      run f r1 s c
        (fun s' c' =>
           k s' ((n, firstn (List.length s - List.length s') s) :: c'))
  | Backref n =>
      match capture n c with
      | None => k s c
      | Some w =>
          if prefixEq f w s then k (skipn (List.length w) s) c else None
      end
  end.

(** One successful match. *)
Record result : Type := {
  index : nat;                 (* match.index *)
  text : list ascii;           (* match[0] *)
  groups : caps;               (* match[1], match[2], ... *)
  rest : list ascii            (* input after the match *)
}.

Definition group (n : nat) (m : result) : string :=
  match capture n (groups m) with
  | Some w => JS.str w
  | None => EmptyString
  end.

Definition whole (m : result) : string := JS.str (text m).

(** Leftmost match at or after the head of [s], which sits at [pos]. *)
Fixpoint execAt (f : flags) (r : re) (s : list ascii) (pos : nat)
  : option result :=
  match run f r s [] (fun s' c => Some (s', c)) with
  | Some (s', c) =>
      Some {| index := pos;
              text := firstn (List.length s - List.length s') s;
              groups := c;
              rest := s' |}
  | None =>
      match s with
      | [] => None
      | _ :: s' => execAt f r s' (S pos)
      end
  end.

(** [str.match(re)] and the first [re.exec(str)], without the g flag. *)
Definition exec (f : flags) (r : re) (s : string) : option result :=
  execAt f r (JS.chars s) 0.

(** [re.test(str)]. *)
Definition test (f : flags) (r : re) (s : string) : bool :=
  match exec f r s with Some _ => true | None => false end.

(** The matches of [while ((m = re.exec(str)) !== null)] with the g flag:
    each search resumes where the previous match ended.  Every pattern of
    the source starts with a literal character, so a match is never empty
    and the loop of the source ends; [fuel] bounds the number of matches
    by the length of the input. *)
Fixpoint execAllAux (fuel : nat) (f : flags) (r : re) (s : list ascii)
  (pos : nat) : list result :=
  match fuel with
  | O => []
  | S fuel' =>
      match execAt f r s pos with
      | None => []
      | Some m =>
          m :: execAllAux fuel' f r (rest m)
                 (index m + List.length (text m))
      end
  end.

Definition execAll (f : flags) (r : re) (s : string) : list result :=
  execAllAux (S (String.length s)) f r (JS.chars s) 0.

(** [str.replace(re, rep)] with the g flag. *)
Fixpoint replaceAllAux (fuel : nat) (f : flags) (r : re)
  (rep : list ascii) (s : list ascii) : list ascii :=
  match fuel with
  | O => s
  | S fuel' =>
      match execAt f r s 0 with
      | None => s
      | Some m =>
          firstn (index m) s ++ rep ++ replaceAllAux fuel' f r rep (rest m)
      end
  end.

Definition replaceAll (f : flags) (r : re) (rep : string) (s : string)
  : string :=
  JS.str (replaceAllAux (S (String.length s)) f r (JS.chars rep)
            (JS.chars s)).

(** A pattern that cannot match the empty string (a sufficient test): the
    loops over the matches of such a pattern advance at every turn. *)
Fixpoint nonEmpty (r : re) : bool :=
  match r with
  | Empty => false
  | Char _ | Dot | Class _ _ => true
  | Seq r1 r2 => nonEmpty r1 || nonEmpty r2
  | Alt r1 r2 => nonEmpty r1 && nonEmpty r2
  | Star _ _ => false
  | Group _ r1 => nonEmpty r1
  | Backref _ => false
  end.

(** [s'] is what is left of [s] after some prefix. *)
Definition suffixOf (s' s : list ascii) : Prop := exists p, s = p ++ s'.

(** Building blocks for writing the literals of the source. *)
Fixpoint lit (l : list ascii) : re :=
  match l with
  | [] => Empty
  | [c] => Char c
  | c :: l' => Seq (Char c) (lit l')
  end.

Definition word (s : string) : re := lit (JS.chars s).

Fixpoint seq (rs : list re) : re :=
  match rs with
  | [] => Empty
  | [r] => r
  | r :: rs' => Seq r (seq rs')
  end.

Fixpoint alt (rs : list re) : re :=
  match rs with
  | [] => Empty
  | [r] => r
  | r :: rs' => Alt r (alt rs')
  end.

Definition plus (r : re) : re := Seq r (Star true r).

Definition notOf (c : ascii) : re := Class true [IChar c].
Definition space : re := Class false [ISpace].
Definition quote : re := Class false [IChar JS.dquote; IChar JS.squote].

End RegExp.

(* ================================================================== *)
(** ** The [color] package *)
(* ================================================================== *)

(** The source imports the npm package [color]; its parser and its two
    measures are taken as given.  [Color s = None] stands for the exception
    the constructor throws on a literal it cannot parse. *)
Class ColorPackage : Type := {
  color : Type;
  Color : string -> option color;
  contrast : color -> color -> Q;
  luminosity : color -> Q;
  (** [Number.prototype.toFixed(2)] *)
  toFixed2 : Q -> string
}.

Definition Qlt_bool (x y : Q) : bool := negb (Qle_bool y x).

(* ================================================================== *)
(** ** Data model *)
(* ================================================================== *)

Inductive Severity : Type := high | medium | low.

Definition Severity_eqb (a b : Severity) : bool :=
  match a, b with
  | high, high | medium, medium | low, low => true
  | _, _ => false
  end.

(** [interface ValidationResult] of wcag-validator.tsx. *)
Record ValidationResult : Type := {
  ruleId : string;
  passed : bool;
  severity : Severity;
  element : option string;
  message : string;
  suggestion : string;
  autoFixable : bool
}.

(** An image descriptor, [{ src; alt?; data?; mimeType? }]. *)
Record Image : Type := {
  src : string;
  alt : option string;
  data : option string;
  mimeType : option string
}.

(** [array.forEach((x, index) => ...)] where the body pushes results:
    the pushes of every element, in order. *)
Fixpoint forEachFrom {A B : Type} (f : nat -> A -> list B) (index : nat)
  (xs : list A) : list B :=
  match xs with
  | [] => []
  | x :: xs' => f index x ++ forEachFrom f (S index) xs'
  end.

Definition forEach {A B : Type} (f : nat -> A -> list B) (xs : list A)
  : list B :=
  forEachFrom f 0 xs.

(* ================================================================== *)
(** ** [class WCAGValidator] *)
(* ================================================================== *)

Module WCAGValidator.

Definition genericTerms : list string :=
  [ "image"; "picture"; "photo"; "graphic"; "icon"; "logo"; "banner";
    "untitled"; "img"; "pic"; "screenshot" ].

Definition isGenericAltText (altText : string) : bool :=
  let lowerAlt := JS.trim (JS.toLowerCase altText) in
  existsb
    (fun term =>
       String.eqb lowerAlt term
       || JS.startsWith lowerAlt (term +++ " ")
       || JS.endsWith lowerAlt (" " +++ term))
    genericTerms.

Definition missingAlt (element : string) : ValidationResult :=
  {| ruleId := "1.1.1"; passed := false; severity := high;
     element := Some element;
     message := "Image is missing alt text";
     suggestion :=
       "Add descriptive alt text that conveys the purpose and content of the image";
     autoFixable := true |}.

Definition altTooLong (element : string) : ValidationResult :=
  {| ruleId := "1.1.1"; passed := false; severity := medium;
     element := Some element;
     message := "Alt text is too long (over 125 characters)";
     suggestion := "Shorten alt text while maintaining essential information";
     autoFixable := true |}.

Definition altGeneric (element : string) : ValidationResult :=
  {| ruleId := "1.1.1"; passed := false; severity := medium;
     element := Some element;
     message := "Alt text appears to be generic or non-descriptive";
     suggestion :=
       "Use more specific, descriptive alt text that explains the image content";
     autoFixable := true |}.

(** The body of the [forEach] of [validateImages]. *)
Definition validateImage (index : nat) (image : Image)
  : list ValidationResult :=
  let element :=
    "Image " +++ JS.ofNat (index + 1) +++ " (" +++ src image +++ ")" in
  match alt image with
  | None => [missingAlt element]
  | Some a =>
      if negb (JS.truthy a) || (String.length (JS.trim a) =? 0)
      then [missingAlt element]
      else if 125 <? String.length a then [altTooLong element]
      else if isGenericAltText a then [altGeneric element]
      else []
  end.

Definition validateImages (images : list Image) : list ValidationResult :=
  forEach validateImage images.

(** *** Headings *)

Record Heading : Type := { level : nat; text : string; index : nat }.

Definition digit16 : RegExp.re :=
  RegExp.Class false [RegExp.IRange "1"%char "6"%char].

(** [/<[^>]*>/g] *)
Definition tagRegex : RegExp.re :=
  RegExp.seq [RegExp.Char "<"%char;
              RegExp.Star true (RegExp.notOf ">"%char);
              RegExp.Char ">"%char].

(** [/<h([1-6])[^>]*>(.*?)<\/h[1-6]>/gi] *)
Definition headingRegex : RegExp.re :=
  RegExp.seq [RegExp.word "<h";
              RegExp.Group 1 digit16;
              RegExp.Star true (RegExp.notOf ">"%char);
              RegExp.Char ">"%char;
              RegExp.Group 2 (RegExp.Star false RegExp.Dot);
              RegExp.word "</h";
              digit16;
              RegExp.Char ">"%char].

(** [Number.parseInt] on a string of decimal digits. *)
Definition parseInt (s : string) : nat :=
  fold_left (fun acc c => 10 * acc + (JS.code c - 48)) (JS.chars s) 0.

Fixpoint headingsFrom (ms : list RegExp.result) (index : nat)
  : list Heading :=
  match ms with
  | [] => []
  | m :: ms' =>
      {| level := parseInt (RegExp.group 1 m);
         text :=
           JS.trim
             (RegExp.replaceAll RegExp.flags_none tagRegex EmptyString
                (RegExp.group 2 m));
         index := index |}
        :: headingsFrom ms' (S index)
  end.

Definition extractHeadings (content : string) : list Heading :=
  headingsFrom (RegExp.execAll RegExp.flags_i headingRegex content) 0.

Definition missingH1 : ValidationResult :=
  {| ruleId := "2.4.6"; passed := false; severity := high;
     element := None;
     message := "Page is missing an H1 heading";
     suggestion := "Add a main H1 heading that describes the page content";
     autoFixable := false |}.

Definition multipleH1 : ValidationResult :=
  {| ruleId := "2.4.6"; passed := false; severity := medium;
     element := None;
     message := "Page has multiple H1 headings";
     suggestion := "Use only one H1 heading per page";
     autoFixable := false |}.

Definition checkH1 (headings : list Heading) : list ValidationResult :=
  let h1Count := List.length (filter (fun h => level h =? 1) headings) in
  if h1Count =? 0 then [missingH1]
  else if 1 <? h1Count then [multipleH1]
  else [].

Definition levelSkip (i : nat) (previous current : Heading)
  : ValidationResult :=
  {| ruleId := "1.3.1"; passed := false; severity := medium;
     element := Some ("Heading " +++ JS.ofNat (i + 1));
     message :=
       "Heading level skips from H" +++ JS.ofNat (level previous)
         +++ " to H" +++ JS.ofNat (level current);
     suggestion :=
       "Use H" +++ JS.ofNat (level previous + 1) +++ " instead of H"
         +++ JS.ofNat (level current) +++ " to maintain proper hierarchy";
     autoFixable := true |}.

(** [for (let i = 1; i < headings.length; i++)], entered with
    [previous = headings[i - 1]] and [rest] the headings from [i] on. *)
Fixpoint checkHierarchyFrom (i : nat) (previous : Heading)
  (rest : list Heading) : list ValidationResult :=
  match rest with
  | [] => []
  | current :: rest' =>
      (if level previous + 1 <? level current
       then [levelSkip i previous current] else [])
        ++ checkHierarchyFrom (S i) current rest'
  end.

Definition checkHierarchy (headings : list Heading)
  : list ValidationResult :=
  match headings with
  | [] => []
  | h0 :: rest => checkHierarchyFrom 1 h0 rest
  end.

Definition emptyHeading (index : nat) : ValidationResult :=
  {| ruleId := "2.4.6"; passed := false; severity := high;
     element := Some ("Heading " +++ JS.ofNat (index + 1));
     message := "Heading is empty";
     suggestion := "Add descriptive text that explains the section content";
     autoFixable := false |}.

Definition shortHeading (index : nat) : ValidationResult :=
  {| ruleId := "2.4.6"; passed := false; severity := low;
     element := Some ("Heading " +++ JS.ofNat (index + 1));
     message := "Heading text is very short";
     suggestion := "Consider using more descriptive heading text";
     autoFixable := false |}.

Definition checkHeadingText (index : nat) (heading : Heading)
  : list ValidationResult :=
  if negb (JS.truthy (text heading)) || (String.length (text heading) =? 0)
  then [emptyHeading index]
  else if String.length (text heading) <? 3 then [shortHeading index]
  else [].

Definition validateHeadings (content : string) : list ValidationResult :=
  let headings := extractHeadings content in
  checkH1 headings
    ++ checkHierarchy headings
    ++ forEach checkHeadingText headings.

(** *** Colour contrast *)

(** [/style=\x22([^\x22]{0,})\x22/gi]: in these comments the double
    quote of the source is written [\x22], and a star that is followed by
    a closing parenthesis is written [{0,}]. *)
Definition styleRegex : RegExp.re :=
  RegExp.seq [RegExp.word "style=";
              RegExp.Char JS.dquote;
              RegExp.Group 1 (RegExp.Star true (RegExp.notOf JS.dquote));
              RegExp.Char JS.dquote].

(** [/color:\s*([^;]+)/i] *)
Definition colorDeclRegex : RegExp.re :=
  RegExp.seq [RegExp.word "color:";
              RegExp.Star true RegExp.space;
              RegExp.Group 1 (RegExp.plus (RegExp.notOf ";"%char))].

(** [/background-color:\s*([^;]+)/i] *)
Definition bgColorDeclRegex : RegExp.re :=
  RegExp.seq [RegExp.word "background-color:";
              RegExp.Star true RegExp.space;
              RegExp.Group 1 (RegExp.plus (RegExp.notOf ";"%char))].

Definition unparsableColor : ValidationResult :=
  {| ruleId := "1.4.3"; passed := false; severity := low;
     element := None;
     message := "Unable to parse color values for contrast checking";
     suggestion := "Use valid CSS color values";
     autoFixable := false |}.

Section Contrast.
Context `{ColorPackage}.

Definition lowContrast (ratio : Q) : ValidationResult :=
  {| ruleId := "1.4.3"; passed := false;
     severity := if Qlt_bool ratio 3 then high else medium;
     element := None;
     message :=
       "Color contrast ratio is " +++ toFixed2 ratio
         +++ ":1 (minimum required: 4.5:1)";
     suggestion := "Increase contrast between text and background colors";
     autoFixable := false |}.

(** The body of the [while] loop over the style attributes. *)
Definition checkStyle (m : RegExp.result) : list ValidationResult :=
  let style := RegExp.group 1 m in
  match RegExp.exec RegExp.flags_i colorDeclRegex style,
        RegExp.exec RegExp.flags_i bgColorDeclRegex style with
  | Some colorMatch, Some bgColorMatch =>
      match Color (JS.trim (RegExp.group 1 colorMatch)),
            Color (JS.trim (RegExp.group 1 bgColorMatch)) with
      | Some textColor, Some bgColor =>
          let ratio := contrast textColor bgColor in
          if Qlt_bool ratio (45 # 10) then [lowContrast ratio] else []
      | _, _ => [unparsableColor]
      end
  | _, _ => []
  end.

Definition validateColorContrast (content : string)
  : list ValidationResult :=
  flat_map checkStyle (RegExp.execAll RegExp.flags_i styleRegex content).

End Contrast.

(** *** Semantic structure *)

(** [/<(ul|ol)[^>]*>(.*?)<\/\1>/gis] *)
Definition listRegex : RegExp.re :=
  RegExp.seq [RegExp.Char "<"%char;
              RegExp.Group 1 (RegExp.Alt (RegExp.word "ul")
                                         (RegExp.word "ol"));
              RegExp.Star true (RegExp.notOf ">"%char);
              RegExp.Char ">"%char;
              RegExp.Group 2 (RegExp.Star false RegExp.Dot);
              RegExp.word "</";
              RegExp.Backref 1;
              RegExp.Char ">"%char].

(** [/<li[^>]*>.*?<\/li>/gi] *)
Definition listItemRegex : RegExp.re :=
  RegExp.seq [RegExp.word "<li";
              RegExp.Star true (RegExp.notOf ">"%char);
              RegExp.Char ">"%char;
              RegExp.Star false RegExp.Dot;
              RegExp.word "</li>"].

(** [/<table[^>]*>(.*?)<\/table>/gis] *)
Definition tableRegex : RegExp.re :=
  RegExp.seq [RegExp.word "<table";
              RegExp.Star true (RegExp.notOf ">"%char);
              RegExp.Char ">"%char;
              RegExp.Group 1 (RegExp.Star false RegExp.Dot);
              RegExp.word "</table>"].

(** [/<th[^>]*>/i] *)
Definition thRegex : RegExp.re :=
  RegExp.seq [RegExp.word "<th";
              RegExp.Star true (RegExp.notOf ">"%char);
              RegExp.Char ">"%char].

(** [/scope\s*=\s*[\x22'](?:col|row)[\x22']/i] *)
Definition scopeRegex : RegExp.re :=
  RegExp.seq [RegExp.word "scope";
              RegExp.Star true RegExp.space;
              RegExp.Char "="%char;
              RegExp.Star true RegExp.space;
              RegExp.quote;
              RegExp.Alt (RegExp.word "col") (RegExp.word "row");
              RegExp.quote].

Definition emptyList : ValidationResult :=
  {| ruleId := "1.3.1"; passed := false; severity := medium;
     element := None;
     message := "List element contains no list items";
     suggestion :=
       "Add <li> elements inside list containers or remove empty list";
     autoFixable := false |}.

Definition tableWithoutHeaders : ValidationResult :=
  {| ruleId := "1.3.1"; passed := false; severity := medium;
     element := None;
     message := "Table is missing proper headers";
     suggestion :=
       "Add <th> elements or scope attributes to identify table headers";
     autoFixable := false |}.

Definition checkList (m : RegExp.result) : list ValidationResult :=
  let listContent := RegExp.group 2 m in
  let listItems := RegExp.execAll RegExp.flags_i listItemRegex listContent in
  if List.length listItems =? 0 then [emptyList] else [].

Definition checkTable (m : RegExp.result) : list ValidationResult :=
  let tableContent := RegExp.group 1 m in
  let hasHeaders :=
    RegExp.test RegExp.flags_i thRegex tableContent
    || RegExp.test RegExp.flags_i scopeRegex tableContent in
  if negb hasHeaders then [tableWithoutHeaders] else [].

Definition validateSemanticStructure (content : string)
  : list ValidationResult :=
  flat_map checkList (RegExp.execAll RegExp.flags_is listRegex content)
    ++ flat_map checkTable
         (RegExp.execAll RegExp.flags_is tableRegex content).

(** *** ARIA *)

(** [/<(button|input|select|textarea)[^>]*>/gi] *)
Definition interactiveRegex : RegExp.re :=
  RegExp.seq [RegExp.Char "<"%char;
              RegExp.Group 1
                (RegExp.alt [RegExp.word "button"; RegExp.word "input";
                             RegExp.word "select"; RegExp.word "textarea"]);
              RegExp.Star true (RegExp.notOf ">"%char);
              RegExp.Char ">"%char].

(** [/aria-label\s*=/i] *)
Definition ariaLabelRegex : RegExp.re :=
  RegExp.seq [RegExp.word "aria-label";
              RegExp.Star true RegExp.space; RegExp.Char "="%char].

(** [/aria-labelledby\s*=/i] *)
Definition ariaLabelledbyRegex : RegExp.re :=
  RegExp.seq [RegExp.word "aria-labelledby";
              RegExp.Star true RegExp.space; RegExp.Char "="%char].

(** [/type\s*=\s*[\x22']submit[\x22']/i] *)
Definition typeSubmitRegex : RegExp.re :=
  RegExp.seq [RegExp.word "type";
              RegExp.Star true RegExp.space;
              RegExp.Char "="%char;
              RegExp.Star true RegExp.space;
              RegExp.quote;
              RegExp.word "submit";
              RegExp.quote].

(** [/value\s*=/i] *)
Definition valueRegex : RegExp.re :=
  RegExp.seq [RegExp.word "value";
              RegExp.Star true RegExp.space; RegExp.Char "="%char].

(** [new RegExp(escaped + "(.*?)</button>", "i")], where [escaped] is the
    opening tag with every syntax character escaped: the tag is matched
    literally. *)
Definition buttonContentRegex (openingTag : list ascii) : RegExp.re :=
  RegExp.seq [RegExp.lit openingTag;
              RegExp.Group 1 (RegExp.Star false RegExp.Dot);
              RegExp.word "</button>"].

(** [/aria-([a-z]+)\s*=/gi] *)
Definition ariaRegex : RegExp.re :=
  RegExp.seq [RegExp.word "aria-";
              RegExp.Group 1
                (RegExp.plus
                   (RegExp.Class false [RegExp.IRange "a"%char "z"%char]));
              RegExp.Star true RegExp.space;
              RegExp.Char "="%char].

Definition validAttributes : list string :=
  [ "label"; "labelledby"; "describedby"; "expanded"; "hidden"; "live";
    "atomic"; "busy"; "controls"; "current"; "details"; "disabled";
    "dropeffect"; "errormessage"; "flowto"; "grabbed"; "haspopup";
    "invalid"; "keyshortcuts"; "level"; "modal"; "multiline";
    "multiselectable"; "orientation"; "owns"; "placeholder"; "posinset";
    "pressed"; "readonly"; "relevant"; "required"; "roledescription";
    "rowcount"; "rowindex"; "rowspan"; "selected"; "setsize"; "sort";
    "valuemax"; "valuemin"; "valuenow"; "valuetext" ].

Definition isValidARIAAttribute (attribute : string) : bool :=
  JS.arrayIncludes validAttributes attribute.

Definition buttonWithoutName : ValidationResult :=
  {| ruleId := "4.1.2"; passed := false; severity := high;
     element := Some "Button element";
     message := "Button is missing accessible name";
     suggestion := "Add aria-label attribute or text content to button";
     autoFixable := false |}.

Definition inputWithoutName : ValidationResult :=
  {| ruleId := "4.1.2"; passed := false; severity := high;
     element := Some "Input element";
     message := "Input is missing accessible name";
     suggestion :=
       "Add aria-label, aria-labelledby, or associated label element";
     autoFixable := false |}.

Definition invalidAria (ariaAttribute : string) : ValidationResult :=
  {| ruleId := "4.1.2"; passed := false; severity := low;
     element := None;
     message := "Invalid ARIA attribute: aria-" +++ ariaAttribute;
     suggestion :=
       "Use valid ARIA attributes according to the specification";
     autoFixable := false |}.

(** The body of the [while] loop over the interactive elements. *)
Definition checkInteractive (content : string) (m : RegExp.result)
  : list ValidationResult :=
  let element := RegExp.whole m in
  let tagName := JS.toLowerCase (RegExp.group 1 m) in
  let hasLabel :=
    RegExp.test RegExp.flags_i ariaLabelRegex element
    || RegExp.test RegExp.flags_i ariaLabelledbyRegex element
    || (String.eqb tagName "input"
        && RegExp.test RegExp.flags_i typeSubmitRegex element)
    || (String.eqb tagName "input"
        && RegExp.test RegExp.flags_i valueRegex element) in
  (if negb hasLabel && String.eqb tagName "button"
   then
     match RegExp.exec RegExp.flags_i
             (buttonContentRegex (RegExp.text m)) content with
     | None => [buttonWithoutName]
     | Some buttonContent =>
         if negb (JS.truthy (JS.trim (RegExp.group 1 buttonContent)))
         then [buttonWithoutName] else []
     end
   else [])
    ++ (if negb hasLabel && String.eqb tagName "input"
        then [inputWithoutName] else []).

Definition checkAriaAttribute (m : RegExp.result) : list ValidationResult :=
  let ariaAttribute := RegExp.group 1 m in
  if negb (isValidARIAAttribute ariaAttribute)
  then [invalidAria ariaAttribute] else [].

Definition validateARIA (content : string) : list ValidationResult :=
  flat_map (checkInteractive content)
    (RegExp.execAll RegExp.flags_i interactiveRegex content)
    ++ flat_map checkAriaAttribute
         (RegExp.execAll RegExp.flags_i ariaRegex content).

(** *** The validator and its score *)

Section Validate.
Context `{ColorPackage}.

Definition validateContent (content : string) (images : list Image)
  : list ValidationResult :=
  validateImages images
    ++ validateHeadings content
    ++ validateColorContrast content
    ++ validateSemanticStructure content
    ++ validateARIA content.

End Validate.

Definition weights (s : Severity) : Z :=
  match s with
  | high => 15
  | medium => 10
  | low => 5
  end%Z.

Definition calculateScore (results : list ValidationResult) : Z :=
  let totalDeduction :=
    fold_left (fun sum result => (sum + weights (severity result))%Z)
      (filter (fun result => negb (passed result)) results) 0%Z in
  Z.max 0 (100 - totalDeduction).

End WCAGValidator.


(* ================================================================== *)
(** ** The AI provider *)
(* ================================================================== *)

(** A call to the provider settles one way or the other. *)
Inductive Outcome (A : Type) : Type :=
| Resolved (value : A)
| Rejected (error : string).

Arguments Resolved {A} value.
Arguments Rejected {A} error.

(** [interface ImageAnalysis] of wcag-validator.tsx. *)
Record Accessibility : Type := {
  hasText : bool;
  isComplex : bool;
  needsLongDescription : bool;
  suggestedLongDescription : option string
}.

Record ImageAnalysis : Type := {
  altText : string;
  confidence : string;
  description : string;
  context : string;
  decorative : bool;
  textContent : option string;
  accessibility : Accessibility
}.

Module IssueType.
Inductive t : Type := alt_text | contrast | heading | aria | semantic.

Definition eqb (a b : t) : bool :=
  match a, b with
  | alt_text, alt_text | contrast, contrast | heading, heading
  | aria, aria | semantic, semantic => true
  | _, _ => false
  end.

Definition toString (a : t) : string :=
  match a with
  | alt_text => "alt-text"
  | contrast => "contrast"
  | heading => "heading"
  | aria => "aria"
  | semantic => "semantic"
  end.
End IssueType.

(** [interface AccessibilityIssue] of accessibility-checker. *)
Module Issue.
Record t : Type := {
  id : string;
  type : IssueType.t;
  severity : Severity;
  element : string;
  description : string;
  recommendation : string;
  autoFixable : bool
}.
End Issue.

Abbreviation AccessibilityIssue := Issue.t (only parsing).

(** An entry of the array [issues] of the provider's JSON, read at the types
    of [AccessibilityIssue]; a field that is absent or falsy is [None]. *)
Module RawIssue.
Record t : Type := {
  type : option IssueType.t;
  severity : Severity;
  element : option string;
  description : option string;
  recommendation : option string;
  autoFixable : option bool
}.
End RawIssue.

(** The object [JSON.parse] gives for an image analysis, read at the types
    of [ImageAnalysis]; a field that is absent or falsy is [None].  An
    object that gives a field a value of another type (a truthy value that
    is not a string, such as an array, which [||] keeps as it is) has no
    counterpart here: what is stated of parsed replies is stated of replies
    whose fields have the declared types. *)
Module Parsed.
Record t : Type := {
  altText : option string;
  confidence : option string;
  description : option string;
  context : option string;
  decorative : option bool;
  textContent : option string;
  accessibility : option Accessibility
}.
End Parsed.

(** The value of [parseAccessibilityAnalysis]: [issues] is [None] when the
    field is absent, falsy or not an array. *)
Record AccessibilityAnalysis : Type := {
  issues : option (list RawIssue.t);
  recommendations : list string
}.

(** The built-in [JSON.parse], at the two places the source calls it.
    [None] stands for the [SyntaxError] it throws. *)
Class JSONPackage : Type := {
  parseImageAnalysis : string -> option Parsed.t;
  parseContentAnalysis : string -> option AccessibilityAnalysis
}.

(** The value [analyzeContentAccessibility] resolves with; a mock may leave
    [analysis] out. *)
Record ContentAnalysis : Type := {
  success : bool;
  analysis : option AccessibilityAnalysis;
  score : option Z;
  error : option string
}.

(** What [ImageAnalyzer] and [AccessibilityChecker] use of the client they
    are constructed with: the vision model, called with a prompt and an
    inline image, and the content analysis. *)
Record GeminiClient (World : Type) : Type := {
  visionModel :
    string -> string -> string -> World -> Outcome string * World;
  analyzeContentAccessibility :
    string -> World -> Outcome ContentAnalysis * World
}.

Arguments visionModel {World} _ _ _ _ _.
Arguments analyzeContentAccessibility {World} _ _ _.

(* ================================================================== *)
(** ** [class GeminiClient] *)
(* ================================================================== *)

Module Gemini.

Definition accessibilityPrompt (content : string) : string :=
  "Analyze this content for WCAG 2.1 Level AA accessibility compliance. Check for:
      1. Heading structure and hierarchy
      2. Link text descriptiveness  
      3. Text readability and structure
      4. Missing ARIA attributes
      
      Content: " +++ content +++ "
      
      Provide specific, actionable recommendations in JSON format with severity levels (high, medium, low).".

(** [/\{[\s\S]*\}/] *)
Definition jsonRegex : RegExp.re :=
  RegExp.seq [RegExp.Char "{"%char;
              RegExp.Star true
                (RegExp.Class false [RegExp.ISpace; RegExp.INonSpace]);
              RegExp.Char "}"%char].

Definition parseAccessibilityAnalysis `{JSONPackage} (text : string)
  : AccessibilityAnalysis :=
  match RegExp.exec RegExp.flags_none jsonRegex text with
  | Some jsonMatch =>
      match parseContentAnalysis (RegExp.whole jsonMatch) with
      | Some parsed => parsed
      | None =>
          {| issues := Some [];
             recommendations := ["Unable to parse accessibility analysis"] |}
      end
  | None =>
      {| issues := Some [];
         recommendations :=
           filter (fun line => JS.truthy (JS.trim line)) (JS.splitLines text) |}
  end.

(** [s.split(keyword).length - 1]: the occurrences of [keyword] in [s],
    counted from the left without overlap. *)
Fixpoint countOccurrences (fuel : nat) (keyword s : string) : nat :=
  match fuel with
  | O => 0
  | S fuel' =>
      match s with
      | EmptyString => 0
      | String _ s' =>
          if String.prefix keyword s
          then S (countOccurrences fuel' keyword
                    (JS.substringFrom (String.length keyword) s))
          else countOccurrences fuel' keyword s'
      end
  end.

Definition issueKeywords : list string :=
  ["error"; "missing"; "invalid"; "poor"; "fail"].

Definition calculateAccessibilityScore (analysis : string) : Z :=
  let issueCount :=
    fold_left
      (fun count keyword =>
         count
         + countOccurrences (S (String.length analysis)) keyword
             (JS.toLowerCase analysis))
      issueKeywords 0 in
  Z.max 0 (100 - Z.of_nat issueCount * 10).

Section Client.
Context {World : Type} `{JSONPackage}.

(** [textModel.generateContent(prompt)] followed by [response.text()]. *)
Variable textModel : string -> World -> Outcome string * World.
Variable vision : string -> string -> string -> World -> Outcome string * World.

Definition analyze (content : string) (w : World)
  : Outcome ContentAnalysis * World :=
  match textModel (accessibilityPrompt content) w with
  | (Resolved text, w') =>
      (Resolved {| success := true;
                   analysis := Some (parseAccessibilityAnalysis text);
                   score := Some (calculateAccessibilityScore text);
                   error := None |}, w')
  | (Rejected message, w') =>
      (Resolved {| success := false;
                   analysis := None;
                   score := None;
                   error := Some message |}, w')
  end.

(** The client the application constructs. *)
Definition client : GeminiClient World :=
  {| visionModel := vision; analyzeContentAccessibility := analyze |}.

End Client.

End Gemini.

(* ================================================================== *)
(** ** [class ImageAnalyzer] *)
(* ================================================================== *)

Module ImageAnalyzer.

Definition quoted (s : string) : string := JS.dq +++ s +++ JS.dq.

Definition nl : string := String JS.newline EmptyString.

Definition buildAnalysisPrompt (context : string) : string :=
  "Analyze this image comprehensively and provide the following information in JSON format:

    {
      " +++ quoted "altText" +++ ": "
        +++ quoted "Concise alt text (under 125 characters)" +++ ",
      " +++ quoted "confidence" +++ ": " +++ quoted "high|medium|low" +++ ",
      " +++ quoted "description" +++ ": "
        +++ quoted "Detailed description of the image" +++ ",
      " +++ quoted "context" +++ ": "
        +++ quoted "How this image relates to the content context" +++ ",
      " +++ quoted "decorative" +++ ": true/false,
      " +++ quoted "textContent" +++ ": "
        +++ quoted "Any text visible in the image (if any)" +++ ",
      " +++ quoted "accessibility" +++ ": {
        " +++ quoted "hasText" +++ ": true/false,
        " +++ quoted "isComplex" +++ ": true/false,
        " +++ quoted "needsLongDescription" +++ ": true/false,
        " +++ quoted "suggestedLongDescription" +++ ": "
          +++ quoted "Detailed description if complex" +++ "
      }
    }

    " +++ (if JS.truthy context then "Content context: " +++ context
           else EmptyString) +++ "

    Focus on accessibility and ensure the alt text is meaningful for screen reader users.".

Definition getFallbackAnalysis : ImageAnalysis :=
  {| altText := "Image description not available";
     confidence := "low";
     description := "Unable to analyze image";
     context := "Analysis failed";
     decorative := false;
     textContent := None;
     accessibility :=
       {| hasText := false;
          isComplex := false;
          needsLongDescription := false;
          suggestedLongDescription := None |} |}.

(** [/['\x22]/g] *)
Definition quoteRegex : RegExp.re := RegExp.quote.

Definition extractValue (lines : list string) (key : string)
  : option string :=
  match
    find (fun l => JS.includes (JS.toLowerCase l) (JS.toLowerCase key)) lines
  with
  | Some line =>
      match JS.indexOfChar ":"%char line with
      | Some colonIndex =>
          Some (RegExp.replaceAll RegExp.flags_none quoteRegex EmptyString
                  (JS.trim (JS.substringFrom (colonIndex + 1) line)))
      | None => None
      end
  | None => None
  end.

(** [extractValue(lines, key) === "true"] *)
Definition isTrue (o : option string) : bool :=
  match o with
  | Some s => String.eqb s "true"
  | None => false
  end.

Definition parseTextResponse (responseText : string) : ImageAnalysis :=
  let lines :=
    filter (fun line => JS.truthy (JS.trim line))
      (JS.splitLines responseText) in
  {| altText :=
       JS.orElse (extractValue lines "alt") "Image description not available";
     confidence := JS.orElse (extractValue lines "confidence") "medium";
     description :=
       JS.orElse (extractValue lines "description") "No description available";
     context := JS.orElse (extractValue lines "context") "No context provided";
     decorative := isTrue (extractValue lines "decorative");
     textContent := extractValue lines "text";
     accessibility :=
       {| hasText := isTrue (extractValue lines "hasText");
          isComplex := isTrue (extractValue lines "complex");
          needsLongDescription :=
            isTrue (extractValue lines "longDescription");
          suggestedLongDescription := None |} |}.

Definition defaultAccessibility : Accessibility :=
  {| hasText := false;
     isComplex := false;
     needsLongDescription := false;
     suggestedLongDescription := None |}.

Definition ofParsed (parsed : Parsed.t) : ImageAnalysis :=
  {| altText :=
       JS.orElse (Parsed.altText parsed) "Image description not available";
     confidence := JS.orElse (Parsed.confidence parsed) "medium";
     description :=
       JS.orElse (Parsed.description parsed) "No description available";
     context := JS.orElse (Parsed.context parsed) "No context provided";
     decorative :=
       match Parsed.decorative parsed with Some b => b | None => false end;
     textContent := Parsed.textContent parsed;
     accessibility :=
       match Parsed.accessibility parsed with
       | Some a => a
       | None => defaultAccessibility
       end |}.

Definition parseAnalysisResponse `{JSONPackage} (responseText : string)
  : ImageAnalysis :=
  match RegExp.exec RegExp.flags_none Gemini.jsonRegex responseText with
  | Some jsonMatch =>
      match parseImageAnalysis (RegExp.whole jsonMatch) with
      | Some parsed => ofParsed parsed
      | None => getFallbackAnalysis
      end
  | None => parseTextResponse responseText
  end.

Section Analyzer.
Context {World : Type} `{JSONPackage}.
Variable geminiClient : GeminiClient World.

(** [async analyzeImage(imageData, mimeType, context?)]: the [try] block
    awaits the vision model, the [catch] block returns the fallback. *)
Definition analyzeImage (imageData mimeType context : string) (w : World)
  : ImageAnalysis * World :=
  let analysisPrompt := buildAnalysisPrompt context in
  match visionModel geminiClient analysisPrompt imageData mimeType w with
  | (Resolved analysisText, w') => (parseAnalysisResponse analysisText, w')
  | (Rejected _, w') => (getFallbackAnalysis, w')
  end.

End Analyzer.

End ImageAnalyzer.

(* ================================================================== *)
(** ** [class AccessibilityChecker] *)
(* ================================================================== *)

(** A [Set<string>]: it keeps its elements in the order of their first
    insertion, and [Array.from] lists them in that order. *)
Module StringSet.
Definition t : Type := list string.
Definition empty : t := [].
Definition has (s : t) (x : string) : bool := existsb (String.eqb x) s.
Definition add (x : string) (s : t) : t := if has s x then s else s ++ [x].
Definition toArray (s : t) : list string := s.
End StringSet.

(** An entry [{ src, analysis }] of [imageAnalyses]. *)
Module ImageEntry.
Record t : Type := { src : string; analysis : ImageAnalysis }.
End ImageEntry.

(** The value [checkContent] resolves with. *)
Module Report.
Record t : Type := {
  score : Z;
  issues : list AccessibilityIssue;
  suggestions : list string;
  imageAnalyses : list ImageEntry.t
}.
End Report.

Module AccessibilityChecker.

Definition mapWCAGRuleToType (ruleId : string) : IssueType.t :=
  if String.eqb ruleId "1.1.1" then IssueType.alt_text
  else if String.eqb ruleId "1.4.3" then IssueType.contrast
  else if String.eqb ruleId "1.3.1" then IssueType.semantic
  else if String.eqb ruleId "2.4.6" then IssueType.heading
  else if String.eqb ruleId "4.1.2" then IssueType.aria
  else IssueType.semantic.

(** The body of [wcagResults.forEach((result, index) => ...)]. *)
Definition convertResult (index : nat) (result : ValidationResult)
  : list AccessibilityIssue :=
  if negb (passed result)
  then [ {| Issue.id :=
              "wcag-" +++ ruleId result +++ "-" +++ JS.ofNat index;
            Issue.type := mapWCAGRuleToType (ruleId result);
            Issue.severity := severity result;
            Issue.element := JS.orElse (element result) "Content element";
            Issue.description := message result;
            Issue.recommendation := suggestion result;
            Issue.autoFixable := autoFixable result |} ]
  else [].

Definition convertResults (wcagResults : list ValidationResult)
  : list AccessibilityIssue :=
  forEach convertResult wcagResults.

(** *** The context of an image *)

(** [new RegExp(`<img[^>]*src=[\x22']${escaped}[\x22'][^>]*>`, "i")], where
    [escaped] is the source of the image with every syntax character
    escaped. *)
Definition imgRegex (imageSrc : string) : RegExp.re :=
  RegExp.seq [RegExp.word "<img";
              RegExp.Star true (RegExp.notOf ">"%char);
              RegExp.word "src=";
              RegExp.quote;
              RegExp.word imageSrc;
              RegExp.quote;
              RegExp.Star true (RegExp.notOf ">"%char);
              RegExp.Char ">"%char].

Definition extractImageContext (content imageSrc : string) : string :=
  match RegExp.exec RegExp.flags_i (imgRegex imageSrc) content with
  | Some m =>
      let imgIndex :=
        match JS.indexOf content (RegExp.whole m) with
        | Some i => i
        | None => 0
        end in
      let contextStart := imgIndex - 200 in
      let contextEnd :=
        Nat.min (String.length content)
          (imgIndex + String.length (RegExp.whole m) + 200) in
      JS.trim
        (RegExp.replaceAll RegExp.flags_none WCAGValidator.tagRegex " "
           (JS.substring contextStart contextEnd content))
  | None => EmptyString
  end.

Definition hasTextAlternative (content imageSrc : string) : bool :=
  50 <? String.length (extractImageContext content imageSrc).

(** *** Issues derived from the analysis of an image *)

Definition aiAltText (index : nat) (analysis : ImageAnalysis)
  : AccessibilityIssue :=
  {| Issue.id := "ai-alt-text-" +++ JS.ofNat index;
     Issue.type := IssueType.alt_text;
     Issue.severity := high;
     Issue.element := "Image " +++ JS.ofNat (index + 1);
     Issue.description :=
       "Image missing alt text (AI analysis suggests it's informative)";
     Issue.recommendation :=
       "Suggested alt text: " +++ JS.dq +++ altText analysis +++ JS.dq;
     Issue.autoFixable := true |}.

Definition textInImage (index : nat) (analysis : ImageAnalysis)
  : AccessibilityIssue :=
  {| Issue.id := "text-in-image-" +++ JS.ofNat index;
     Issue.type := IssueType.alt_text;
     Issue.severity := high;
     Issue.element := "Image " +++ JS.ofNat (index + 1);
     Issue.description :=
       "Image contains text but no text alternative is provided";
     Issue.recommendation :=
       "Provide text alternative: " +++ JS.dq
         +++ match textContent analysis with
             | Some t => t
             | None => "undefined"
             end
         +++ JS.dq;
     Issue.autoFixable := true |}.

Definition complexImage (index : nat) (analysis : ImageAnalysis)
  : AccessibilityIssue :=
  {| Issue.id := "complex-image-" +++ JS.ofNat index;
     Issue.type := IssueType.alt_text;
     Issue.severity := medium;
     Issue.element := "Image " +++ JS.ofNat (index + 1);
     Issue.description := "Complex image may need long description";
     Issue.recommendation :=
       JS.orElse (suggestedLongDescription (accessibility analysis))
         "Consider adding a detailed description";
     Issue.autoFixable := false |}.

(** The three [if]s that follow [imageAnalyses.push]. *)
Definition imageIssues (content : string) (index : nat) (image : Image)
  (analysis : ImageAnalysis) : list AccessibilityIssue :=
  (if negb (JS.truthyOpt (alt image)) && negb (decorative analysis)
   then [aiAltText index analysis] else [])
    ++ (if hasText (accessibility analysis)
           && negb (hasTextAlternative content (src image))
        then [textInImage index analysis] else [])
    ++ (if needsLongDescription (accessibility analysis)
        then [complexImage index analysis] else []).

(** [image.data && image.mimeType] *)
Definition hasImageData (image : Image) : bool :=
  JS.truthyOpt (data image) && JS.truthyOpt (mimeType image).

(** *** The checker's own heading and contrast checks *)

Definition headingSkip (i : nat) (previous current : WCAGValidator.Heading)
  : AccessibilityIssue :=
  {| Issue.id := "heading-skip-" +++ JS.ofNat i;
     Issue.type := IssueType.heading;
     Issue.severity := medium;
     Issue.element := "Heading " +++ JS.ofNat (i + 1);
     Issue.description :=
       "Heading level skips from h"
         +++ JS.ofNat (WCAGValidator.level previous)
         +++ " to h" +++ JS.ofNat (WCAGValidator.level current);
     Issue.recommendation :=
       "Use h" +++ JS.ofNat (WCAGValidator.level previous + 1)
         +++ " instead of h" +++ JS.ofNat (WCAGValidator.level current);
     Issue.autoFixable := true |}.

Fixpoint headingSkipsFrom (i : nat) (previous : WCAGValidator.Heading)
  (rest : list WCAGValidator.Heading) : list AccessibilityIssue :=
  match rest with
  | [] => []
  | current :: rest' =>
      (if WCAGValidator.level previous + 1 <? WCAGValidator.level current
       then [headingSkip i previous current] else [])
        ++ headingSkipsFrom (S i) current rest'
  end.

Definition headingSkips (headings : list WCAGValidator.Heading)
  : list AccessibilityIssue :=
  match headings with
  | [] => []
  | h0 :: rest => headingSkipsFrom 1 h0 rest
  end.

Definition headingEmpty (index : nat) (heading : WCAGValidator.Heading)
  : list AccessibilityIssue :=
  if negb (JS.truthy (WCAGValidator.text heading))
     || (String.length (WCAGValidator.text heading) =? 0)
  then [ {| Issue.id := "heading-empty-" +++ JS.ofNat index;
            Issue.type := IssueType.heading;
            Issue.severity := high;
            Issue.element := "Heading " +++ JS.ofNat (index + 1);
            Issue.description := "Heading is empty";
            Issue.recommendation := "Add descriptive text to the heading";
            Issue.autoFixable := false |} ]
  else [].

Definition checkHeadingStructure (content : string)
  : list AccessibilityIssue :=
  let headings := WCAGValidator.extractHeadings content in
  headingSkips headings ++ forEach headingEmpty headings.

(** [/style=\x22[^\x22]*color:\s*([^;]+)[^\x22]*\x22/gi] *)
Definition colorRegex : RegExp.re :=
  RegExp.seq [RegExp.word "style=";
              RegExp.Char JS.dquote;
              RegExp.Star true (RegExp.notOf JS.dquote);
              RegExp.word "color:";
              RegExp.Star true RegExp.space;
              RegExp.Group 1 (RegExp.plus (RegExp.notOf ";"%char));
              RegExp.Star true (RegExp.notOf JS.dquote);
              RegExp.Char JS.dquote].

Definition contrastIssue (index : nat) : AccessibilityIssue :=
  {| Issue.id := "contrast-" +++ JS.ofNat index;
     Issue.type := IssueType.contrast;
     Issue.severity := medium;
     Issue.element := "Text element";
     Issue.description := "Potential color contrast issue detected";
     Issue.recommendation :=
       "Verify color contrast meets WCAG AA standards (4.5:1 ratio)";
     Issue.autoFixable := false |}.

Section Contrast.
Context `{ColorPackage}.

(** The [while] loop of [checkColorContrast]; [index] counts the issues
    pushed so far. *)
Fixpoint contrastIssuesFrom (ms : list RegExp.result) (index : nat)
  : list AccessibilityIssue :=
  match ms with
  | [] => []
  | m :: ms' =>
      match Color (JS.trim (RegExp.group 1 m)) with
      | Some c =>
          if Qlt_bool (luminosity c) (3 # 10)
          then contrastIssue index :: contrastIssuesFrom ms' (S index)
          else contrastIssuesFrom ms' index
      | None => contrastIssuesFrom ms' index
      end
  end.

Definition checkColorContrast (content : string) : list AccessibilityIssue :=
  contrastIssuesFrom (RegExp.execAll RegExp.flags_i colorRegex content) 0.

End Contrast.

(** *** Issues of the content analysis *)

Definition convertGeminiIssue (index : nat) (issue : RawIssue.t)
  : list AccessibilityIssue :=
  [ {| Issue.id := "gemini-" +++ JS.ofNat index;
       Issue.type :=
         match RawIssue.type issue with
         | Some t => t
         | None => IssueType.semantic
         end;
       Issue.severity := RawIssue.severity issue;
       Issue.element := JS.orElse (RawIssue.element issue) "Content element";
       Issue.description :=
         JS.orElse (RawIssue.description issue) "Accessibility issue detected";
       Issue.recommendation :=
         JS.orElse (RawIssue.recommendation issue)
           "Review and fix accessibility issue";
       Issue.autoFixable :=
         match RawIssue.autoFixable issue with
         | Some b => b
         | None => false
         end |} ].

Definition convertGeminiAnalysisToIssues (a : AccessibilityAnalysis)
  : list AccessibilityIssue :=
  match issues a with
  | Some raw => forEach convertGeminiIssue raw
  | None => []
  end.

(** *** Suggestions *)

Definition hasType (issues : list AccessibilityIssue) (t : IssueType.t)
  : bool :=
  existsb (fun issue => IssueType.eqb (Issue.type issue) t) issues.

Definition addRecommendations (issues : list AccessibilityIssue)
  (suggestions : StringSet.t) : StringSet.t :=
  fold_left (fun s issue => StringSet.add (Issue.recommendation issue) s)
    issues suggestions.

Definition decorativeNote (n : nat) : string :=
  JS.ofNat n
    +++ " image(s) appear decorative - consider using empty alt text (alt="
    +++ JS.dq +++ JS.dq +++ ")".

Definition altTextAdvice : string :=
  "Use AI-generated alt text as a starting point, then refine for your specific context".

Definition contrastAdvice : string :=
  "Use a color contrast checker tool to verify all text meets WCAG AA standards".

Definition headingAdvice : string :=
  "Structure headings hierarchically (H1 " +++ JS.arrow +++ " H2 "
    +++ JS.arrow +++ " H3) to create a logical document outline".

Definition textInImagesAdvice : string :=
  "Consider replacing text-in-images with actual HTML text for better accessibility".

Definition complexImagesAdvice : string :=
  "Complex images (charts, diagrams) should include detailed descriptions or data tables".

Definition generateEnhancedSuggestions (issues : list AccessibilityIssue)
  (imageAnalyses : list ImageEntry.t) : list string :=
  let s0 := addRecommendations issues StringSet.empty in
  let s1 :=
    if hasType issues IssueType.alt_text
    then
      let s := StringSet.add altTextAdvice s0 in
      let decorativeImages :=
        filter (fun img => decorative (ImageEntry.analysis img))
          imageAnalyses in
      if 0 <? List.length decorativeImages
      then StringSet.add (decorativeNote (List.length decorativeImages)) s
      else s
    else s0 in
  let s2 :=
    if hasType issues IssueType.contrast
    then StringSet.add contrastAdvice s1 else s1 in
  let s3 :=
    if hasType issues IssueType.heading
    then StringSet.add headingAdvice s2 else s2 in
  let textInImages :=
    filter (fun img => hasText (accessibility (ImageEntry.analysis img)))
      imageAnalyses in
  let s4 :=
    if 0 <? List.length textInImages
    then StringSet.add textInImagesAdvice s3 else s3 in
  let complexImages :=
    filter
      (fun img =>
         needsLongDescription (accessibility (ImageEntry.analysis img)))
      imageAnalyses in
  let s5 :=
    if 0 <? List.length complexImages
    then StringSet.add complexImagesAdvice s4 else s4 in
  StringSet.toArray s5.

(** *** [checkContent] *)

Section Checker.
Context {World : Type} `{ColorPackage} `{JSONPackage}.
Variable geminiClient : GeminiClient World.

(** The body of [for (const [index, image] of images.entries())]: the
    entries pushed to [imageAnalyses] and the issues pushed to [issues]. *)
Definition analyzeEntry (content : string) (index : nat) (image : Image)
  (w : World) : list ImageEntry.t * list AccessibilityIssue * World :=
  match data image, mimeType image with
  | Some imageData, Some mime =>
      if JS.truthy imageData && JS.truthy mime
      then
        let '(analysis, w') :=
          ImageAnalyzer.analyzeImage geminiClient imageData mime
            (extractImageContext content (src image)) w in
        ([ {| ImageEntry.src := src image;
              ImageEntry.analysis := analysis |} ],
         imageIssues content index image analysis, w')
      else ([], [], w)
  | _, _ => ([], [], w)
  end.

Fixpoint analyzeImagesFrom (content : string) (index : nat)
  (images : list Image) (w : World)
  : list ImageEntry.t * list AccessibilityIssue * World :=
  match images with
  | [] => ([], [], w)
  | image :: rest =>
      let '(entries1, issues1, w1) := analyzeEntry content index image w in
      let '(entries2, issues2, w2) :=
        analyzeImagesFrom content (S index) rest w1 in
      (entries1 ++ entries2, issues1 ++ issues2, w2)
  end.

(** [if (images) { for ... }] *)
Definition analyzeImages (content : string) (images : option (list Image))
  (w : World) : list ImageEntry.t * list AccessibilityIssue * World :=
  match images with
  | Some l => analyzeImagesFrom content 0 l w
  | None => ([], [], w)
  end.

(** The [try] block around the content analysis: a rejected call, an
    unsuccessful analysis or an analysis without issues adds nothing. *)
Definition analyzeContent (content : string) (w : World)
  : list AccessibilityIssue * World :=
  match analyzeContentAccessibility geminiClient content w with
  | (Resolved geminiAnalysis, w') =>
      if success geminiAnalysis
      then match analysis geminiAnalysis with
           | Some a => (convertGeminiAnalysisToIssues a, w')
           | None => ([], w')
           end
      else ([], w')
  | (Rejected _, w') => ([], w')
  end.

Definition checkContent (content : string) (images : option (list Image))
  (w : World) : Report.t * World :=
  let wcagResults :=
    WCAGValidator.validateContent content
      (match images with Some l => l | None => [] end) in
  let wcagIssues := convertResults wcagResults in
  let '(imageAnalyses, aiImageIssues, w1) := analyzeImages content images w in
  let headingIssues := checkHeadingStructure content in
  let contrastIssues := checkColorContrast content in
  let '(geminiIssues, w2) := analyzeContent content w1 in
  let issues :=
    wcagIssues ++ aiImageIssues ++ headingIssues ++ contrastIssues
      ++ geminiIssues in
  let score := WCAGValidator.calculateScore wcagResults in
  let suggestions := generateEnhancedSuggestions issues imageAnalyses in
  ({| Report.score := score;
      Report.issues := issues;
      Report.suggestions := suggestions;
      Report.imageAnalyses := imageAnalyses |}, w2).

(** The parts of a run of [checkContent], named for the statements below:
    the issues converted from the validator's results, the issues and the
    world the loop over the images leaves, and the issues of the content
    analysis, which runs in that world. *)
Definition ruleIssues (content : string) (images : option (list Image))
  : list AccessibilityIssue :=
  convertResults
    (WCAGValidator.validateContent content
       (match images with Some l => l | None => [] end)).

Definition aiImageIssues (content : string) (images : option (list Image))
  (w : World) : list AccessibilityIssue :=
  snd (fst (analyzeImages content images w)).

Definition worldAfterImages (content : string)
  (images : option (list Image)) (w : World) : World :=
  snd (analyzeImages content images w).

Definition aiContentIssues (content : string)
  (images : option (list Image)) (w : World) : list AccessibilityIssue :=
  fst (analyzeContent content (worldAfterImages content images w)).

End Checker.

End AccessibilityChecker.

(* ================================================================== *)
(** ** Calls that do not settle *)
(* ================================================================== *)

(** The source awaits each call of the provider without a timer of its own
    ([await this.geminiClient.visionModel.generateContent(...)] in
    [analyzeImage], [await this.imageAnalyzer.analyzeImage(...)] and
    [await this.geminiClient.analyzeContentAccessibility(...)] in
    [checkContent]).  An [await] ends when the promise settles, and a
    [catch] block sees a rejection only.  In this module a call may also
    stay pending, which is [None]; an [async] function that awaits a
    pending call stays pending itself and returns nothing. *)
Module Awaiting.

Record Provider (World : Type) : Type := {
  awaitVisionModel :
    string -> string -> string -> World -> option (Outcome string * World);
  awaitContentAnalysis :
    string -> World -> option (Outcome ContentAnalysis * World)
}.

Arguments awaitVisionModel {World} _ _ _ _ _.
Arguments awaitContentAnalysis {World} _ _ _.

(** A client all of whose calls settle. *)
Definition settling {World : Type} (client : GeminiClient World)
  : Provider World :=
  {| awaitVisionModel :=
       fun prompt imageData mime w =>
         Some (visionModel client prompt imageData mime w);
     awaitContentAnalysis :=
       fun content w => Some (analyzeContentAccessibility client content w) |}.

Section Checker.
Context {World : Type} `{ColorPackage} `{JSONPackage}.
Variable provider : Provider World.

(** [async analyzeImage(imageData, mimeType, context?)] *)
Definition analyzeImage (imageData mime context : string) (w : World)
  : option (ImageAnalysis * World) :=
  let analysisPrompt := ImageAnalyzer.buildAnalysisPrompt context in
  match awaitVisionModel provider analysisPrompt imageData mime w with
  | Some (Resolved analysisText, w') =>
      Some (ImageAnalyzer.parseAnalysisResponse analysisText, w')
  | Some (Rejected _, w') => Some (ImageAnalyzer.getFallbackAnalysis, w')
  | None => None
  end.

(** The body of [for (const [index, image] of images.entries())]. *)
Definition analyzeEntry (content : string) (index : nat) (image : Image)
  (w : World)
  : option (list ImageEntry.t * list AccessibilityIssue * World) :=
  match data image, mimeType image with
  | Some imageData, Some mime =>
      if JS.truthy imageData && JS.truthy mime
      then
        match analyzeImage imageData mime
                (AccessibilityChecker.extractImageContext content
                   (src image)) w with
        | Some (analysis, w') =>
            Some ([ {| ImageEntry.src := src image;
                       ImageEntry.analysis := analysis |} ],
                  AccessibilityChecker.imageIssues content index image
                    analysis, w')
        | None => None
        end
      else Some ([], [], w)
  | _, _ => Some ([], [], w)
  end.

Fixpoint analyzeImagesFrom (content : string) (index : nat)
  (images : list Image) (w : World)
  : option (list ImageEntry.t * list AccessibilityIssue * World) :=
  match images with
  | [] => Some ([], [], w)
  | image :: rest =>
      match analyzeEntry content index image w with
      | Some (entries1, issues1, w1) =>
          match analyzeImagesFrom content (S index) rest w1 with
          | Some (entries2, issues2, w2) =>
              Some (entries1 ++ entries2, issues1 ++ issues2, w2)
          | None => None
          end
      | None => None
      end
  end.

(** [if (images) { for ... }] *)
Definition analyzeImages (content : string) (images : option (list Image))
  (w : World)
  : option (list ImageEntry.t * list AccessibilityIssue * World) :=
  match images with
  | Some l => analyzeImagesFrom content 0 l w
  | None => Some ([], [], w)
  end.

(** The [try] block around the content analysis. *)
Definition analyzeContent (content : string) (w : World)
  : option (list AccessibilityIssue * World) :=
  match awaitContentAnalysis provider content w with
  | Some (Resolved geminiAnalysis, w') =>
      if success geminiAnalysis
      then match analysis geminiAnalysis with
           | Some a =>
               Some (AccessibilityChecker.convertGeminiAnalysisToIssues a, w')
           | None => Some ([], w')
           end
      else Some ([], w')
  | Some (Rejected _, w') => Some ([], w')
  | None => None
  end.

(** [async checkContent(content, images?)]: [None] when it never returns. *)
Definition checkContent (content : string) (images : option (list Image))
  (w : World) : option (Report.t * World) :=
  let wcagResults :=
    WCAGValidator.validateContent content
      (match images with Some l => l | None => [] end) in
  let wcagIssues := AccessibilityChecker.convertResults wcagResults in
  match analyzeImages content images w with
  | Some (imageAnalyses, aiImageIssues, w1) =>
      let headingIssues :=
        AccessibilityChecker.checkHeadingStructure content in
      let contrastIssues := AccessibilityChecker.checkColorContrast content in
      match analyzeContent content w1 with
      | Some (geminiIssues, w2) =>
          let issues :=
            wcagIssues ++ aiImageIssues ++ headingIssues ++ contrastIssues
              ++ geminiIssues in
          let score := WCAGValidator.calculateScore wcagResults in
          let suggestions :=
            AccessibilityChecker.generateEnhancedSuggestions issues
              imageAnalyses in
          Some ({| Report.score := score;
                   Report.issues := issues;
                   Report.suggestions := suggestions;
                   Report.imageAnalyses := imageAnalyses |}, w2)
      | None => None
      end
  | None => None
  end.

End Checker.

End Awaiting.

(* ================================================================== *)
(** ** Reference definitions for the statements *)
(* ================================================================== *)

Module Spec.

(** The severity weights as the specification gives them. *)
Definition weight (s : Severity) : Z :=
  match s with
  | high => 15
  | medium => 10
  | low => 5
  end%Z.

(** The sum of the weights over the results with [passed = false]. *)
Fixpoint deduction (results : list ValidationResult) : Z :=
  match results with
  | [] => 0
  | r :: rest =>
      ((if passed r then 0 else weight (severity r)) + deduction rest)
  end%Z.

(** The sum of the weights over a list of issues, and the score that a
    deduction over the merged issue list would give. *)
Fixpoint issueDeduction (issues : list AccessibilityIssue) : Z :=
  match issues with
  | [] => 0
  | i :: rest => (weight (Issue.severity i) + issueDeduction rest)
  end%Z.

Definition mergedScore (issues : list AccessibilityIssue) : Z :=
  Z.max 0 (100 - issueDeduction issues).

(** A sequence of strings with every repetition dropped: each string stays
    at the place of its first occurrence. *)
Fixpoint firstOccurrences (l : list string) : list string :=
  match l with
  | [] => []
  | x :: l' =>
      x :: filter (fun y => negb (String.eqb y x)) (firstOccurrences l')
  end.

(** The strings [generateEnhancedSuggestions] inserts after the
    recommendations of the issues, in the order of the insertions. *)
Definition generalSuggestions (issues : list AccessibilityIssue)
  (imageAnalyses : list ImageEntry.t) : list string :=
  let analyses := map ImageEntry.analysis imageAnalyses in
  let decorativeCount := List.length (filter decorative analyses) in
  (if AccessibilityChecker.hasType issues IssueType.alt_text
   then AccessibilityChecker.altTextAdvice
          :: (if 0 <? decorativeCount
              then [AccessibilityChecker.decorativeNote decorativeCount]
              else [])
   else [])
    ++ (if AccessibilityChecker.hasType issues IssueType.contrast
        then [AccessibilityChecker.contrastAdvice] else [])
    ++ (if AccessibilityChecker.hasType issues IssueType.heading
        then [AccessibilityChecker.headingAdvice] else [])
    ++ (if existsb (fun a => hasText (accessibility a)) analyses
        then [AccessibilityChecker.textInImagesAdvice] else [])
    ++ (if existsb (fun a => needsLongDescription (accessibility a)) analyses
        then [AccessibilityChecker.complexImagesAdvice] else []).

(** The three image checks of the validator, as predicates on an image. *)
Definition altMissing (image : Image) : bool :=
  match alt image with
  | None => true
  | Some a => (String.length a =? 0) || (String.length (JS.trim a) =? 0)
  end.

Definition altOver125 (image : Image) : bool :=
  match alt image with
  | None => false
  | Some a => 125 <? String.length a
  end.

Definition altGenericTerm (image : Image) : bool :=
  match alt image with
  | None => false
  | Some a => WCAGValidator.isGenericAltText a
  end.

Definition imageElement (index : nat) (image : Image) : string :=
  "Image " +++ JS.ofNat (index + 1) +++ " (" +++ src image +++ ")".

(** An image descriptor without its [data] and [mimeType]. *)
Definition withoutData (image : Image) : Image :=
  {| src := src image; alt := alt image; data := None; mimeType := None |}.

End Spec.

(* ================================================================== *)
(** ** Stand-ins for the environment, used to run the code *)
(* ================================================================== *)

Module Fixtures.

(** [mockGeminiClient] of tests/accessibility-checker.test.tsx: it has no
    vision model and its [analyzeContentAccessibility] is a bare mock, so
    each use of it throws inside the [try] block that makes the call. *)
Definition mockGeminiClient : GeminiClient unit :=
  {| visionModel := fun _ _ _ w => (Rejected "TypeError", w);
     analyzeContentAccessibility := fun _ w => (Rejected "TypeError", w) |}.

(** A client whose vision model answers from a script, one outcome for each
    call, and whose content analysis answers with [reply]. *)
Definition scriptedClient (reply : Outcome ContentAnalysis)
  : GeminiClient (list (Outcome string)) :=
  {| visionModel :=
       fun _ _ _ w =>
         match w with
         | [] => (Rejected "no reply", [])
         | o :: w' => (o, w')
         end;
     analyzeContentAccessibility := fun _ w => (reply, w) |}.

(** Two decimals of a non-negative rational, rounded half up. *)
Definition twoDecimals (q : Q) : string :=
  let n := Z.to_nat (Qfloor (q * 100 + (1 # 2))) in
  let frac := n mod 100 in
  JS.ofNat (n / 100) +++ "."
    +++ (if frac <? 10 then "0" else EmptyString) +++ JS.ofNat frac.

(** The [color] package restricted to black and white, whose relative
    luminances are 0 and 1 and whose contrast ratio is 21. *)
Definition blackAndWhite : ColorPackage :=
  {| color := bool;
     Color :=
       fun s =>
         let l := JS.toLowerCase s in
         if String.eqb l "white" || String.eqb l "#fff"
            || String.eqb l "#ffffff"
         then Some true
         else if String.eqb l "black" || String.eqb l "#000"
                 || String.eqb l "#000000"
         then Some false
         else None;
     contrast := fun a b => if Bool.eqb a b then 1%Q else 21%Q;
     luminosity := fun a => if a then 1%Q else 0%Q;
     toFixed2 := twoDecimals |}.

(** [JSON.parse] restricted to the empty object. *)
Definition emptyObjectJSON : JSONPackage :=
  {| parseImageAnalysis :=
       fun s =>
         if String.eqb s "{}"
         then Some {| Parsed.altText := None; Parsed.confidence := None;
                      Parsed.description := None; Parsed.context := None;
                      Parsed.decorative := None; Parsed.textContent := None;
                      Parsed.accessibility := None |}
         else None;
     parseContentAnalysis :=
       fun s =>
         if String.eqb s "{}"
         then Some {| issues := None; recommendations := [] |}
         else None |}.

(** [checkContent] in this environment. *)
Definition checkContent {World : Type} (client : GeminiClient World)
  (content : string) (images : option (list Image)) (w : World)
  : Report.t :=
  fst (@AccessibilityChecker.checkContent World blackAndWhite
         emptyObjectJSON client content images w).

(** An image descriptor with only a source, and one with inline data. *)
Definition bare (source : string) : Image :=
  {| src := source; alt := None; data := None; mimeType := None |}.

Definition inline (source : string) (altText : option string) : Image :=
  {| src := source; alt := altText;
     data := Some "iVBORw0KGgo="; mimeType := Some "image/png" |}.

(** A failed result of each severity. *)
Definition failure (s : Severity) : ValidationResult :=
  {| ruleId := "1.1.1"; passed := false; severity := s; element := None;
     message := "failed"; suggestion := "fix"; autoFixable := false |}.

(** [<img src="a.jpg">] *)
Definition imgMarkup : string :=
  "<img src=" +++ JS.dq +++ "a.jpg" +++ JS.dq +++ ">".

Definition skipMarkup : string := "<h1>Title</h1><h3>Sub</h3>".

(** A provider whose vision model answers from a script, one entry for
    each call, where the entry [None] is a call that never settles; its
    content analysis answers with [reply]. *)
Definition scriptedProvider (reply : Outcome ContentAnalysis)
  : Awaiting.Provider (list (option (Outcome string))) :=
  {| Awaiting.awaitVisionModel :=
       fun _ _ _ w =>
         match w with
         | [] => Some (Rejected "no reply", [])
         | Some o :: w' => Some (o, w')
         | None :: _ => None
         end;
     Awaiting.awaitContentAnalysis := fun _ w => Some (reply, w) |}.

(** A reply of the content analysis with one issue, which the provider
    gives the type heading. *)
Definition headingReply : Outcome ContentAnalysis :=
  Resolved
    {| success := true;
       analysis :=
         Some {| issues :=
                   Some [ {| RawIssue.type := Some IssueType.heading;
                             RawIssue.severity := low;
                             RawIssue.element := Some "h3";
                             RawIssue.description :=
                               Some "Heading text is not descriptive";
                             RawIssue.recommendation := None;
                             RawIssue.autoFixable := None |} ];
                 recommendations := [] |};
       score := None;
       error := None |}.

End Fixtures.

(* ================================================================== *)
(** ** Patterns anchored at the start or at the end *)
(* ================================================================== *)

Module Anchored.

(** The continuation of a pattern that ends in [$]. *)
Definition atEnd : RegExp.cont :=
  fun s c => match s with [] => Some (s, c) | _ :: _ => None end.

(** A pattern that starts with [^], without the m flag: it matches at the
    start of the input or nowhere. *)
Definition execStart (f : RegExp.flags) (r : RegExp.re) (s : string)
  : option RegExp.result :=
  let l := JS.chars s in
  match RegExp.run f r l [] (fun s' c => Some (s', c)) with
  | Some (s', c) =>
      Some {| RegExp.index := 0;
              RegExp.text := firstn (List.length l - List.length s') l;
              RegExp.groups := c;
              RegExp.rest := s' |}
  | None => None
  end.

(** A pattern that ends in [$]: the leftmost match that reaches the end of
    the input. *)
Fixpoint execEndAt (f : RegExp.flags) (r : RegExp.re) (s : list ascii)
  (pos : nat) : option RegExp.result :=
  match RegExp.run f r s [] atEnd with
  | Some (s', c) =>
      Some {| RegExp.index := pos;
              RegExp.text := s;
              RegExp.groups := c;
              RegExp.rest := s' |}
  | None =>
      match s with
      | [] => None
      | _ :: s' => execEndAt f r s' (S pos)
      end
  end.

Definition execEnd (f : RegExp.flags) (r : RegExp.re) (s : string)
  : option RegExp.result :=
  execEndAt f r (JS.chars s) 0.

(** [s.replace(re, EmptyString)] for a pattern anchored at the start. *)
Definition removeStart (f : RegExp.flags) (r : RegExp.re) (s : string)
  : string :=
  match execStart f r s with
  | Some m => JS.str (RegExp.rest m)
  | None => s
  end.

(** [s.replace(re, EmptyString)] for a pattern anchored at the end. *)
Definition removeEnd (f : RegExp.flags) (r : RegExp.re) (s : string)
  : string :=
  match execEnd f r s with
  | Some m => JS.str (firstn (RegExp.index m) (JS.chars s))
  | None => s
  end.

End Anchored.

(* ================================================================== *)
(** ** [class ImageAnalyzer], the other operations *)
(* ================================================================== *)

Module ImageAnalyzerOps.

(** [.replace(/^[\x22']|[\x22']$/g, EmptyString)]: the first alternative can
    match at the start only, the second one at the end only, and the search
    for the second goes on after a match of the first. *)
Definition removeOuterQuotes (s : string) : string :=
  Anchored.removeEnd RegExp.flags_none RegExp.quote
    (Anchored.removeStart RegExp.flags_none RegExp.quote s).

(** [/^alt text:?\s*/i] *)
Definition altTextPrefix : RegExp.re :=
  RegExp.seq [RegExp.word "alt text";
              RegExp.Alt (RegExp.Char ":"%char) RegExp.Empty;
              RegExp.Star true RegExp.space].

(** [/\.$/] *)
Definition finalPeriod : RegExp.re := RegExp.Char "."%char.

Definition cleanAltText (altText : string) : string :=
  JS.substring 0 125
    (Anchored.removeEnd RegExp.flags_none finalPeriod
       (Anchored.removeStart RegExp.flags_i altTextPrefix
          (removeOuterQuotes (JS.trim altText)))).

(** The type of the parameter [imageContext]. *)
Inductive ImageContext : Type := decorativeImage | informative | functional.

Definition contextName (c : ImageContext) : string :=
  match c with
  | decorativeImage => "decorative"
  | informative => "informative"
  | functional => "functional"
  end.

Definition contextInstructions (c : ImageContext) : string :=
  match c with
  | decorativeImage =>
      "This image is decorative. Generate very brief alt text or suggest empty alt text if purely decorative."
  | informative =>
      "This image conveys important information. Generate descriptive alt text that captures the essential information."
  | functional =>
      "This image serves a functional purpose (like navigation or interaction). Focus on the function in the alt text."
  end.

Definition buildContextualPrompt (surroundingContent : string)
  (imageContext : ImageContext) : string :=
  ("Generate alt text for this image in the context of the following content:

    "
    +++ JS.dq)
    +++ surroundingContent +++ (JS.dq
    +++ "

    Image context: ")
    +++ contextName imageContext +++ "
    Instructions: "
    +++ contextInstructions imageContext +++ "

    Provide only the alt text, nothing else. Keep it under 125 characters and make it meaningful for screen readers.".

Definition textDetectionPrompt : string :=
  ("Analyze this image and extract any text content you can see. 
      If there is text, provide the exact text content. 
      If there is no readable text, respond with "
    +++ JS.dq
    +++ "NO_TEXT_FOUND"
    +++ JS.dq
    +++ ".
      Also indicate your confidence level in the text extraction (0-100).").

Definition decorativePrompt (context : string) : string :=
  ("Analyze this image in the context of the following content: "
    +++ JS.dq)
    +++ context +++ (JS.dq
    +++ "
      
      Determine if this image is:
      1. Decorative (purely aesthetic, doesn't add information)
      2. Informative (conveys important information)
      3. Functional (serves a specific purpose like navigation)
      
      Respond with only "
    +++ JS.dq
    +++ "DECORATIVE"
    +++ JS.dq
    +++ ", "
    +++ JS.dq
    +++ "INFORMATIVE"
    +++ JS.dq
    +++ ", or "
    +++ JS.dq
    +++ "FUNCTIONAL"
    +++ JS.dq
    +++ ".").

(** The value of [detectTextInImage]. *)
Module TextDetection.
Record t : Type := {
  hasText : bool;
  extractedText : option string;
  confidence : nat
}.
End TextDetection.

Definition digit : RegExp.re :=
  RegExp.Class false [RegExp.IRange "0"%char "9"%char].

Definition colonOrSpace : RegExp.re :=
  RegExp.Class false [RegExp.IChar ":"%char; RegExp.ISpace].

(** [/confidence[:\s]*(\d+)/i] *)
Definition confidenceRegex : RegExp.re :=
  RegExp.seq [RegExp.word "confidence";
              RegExp.Star true colonOrSpace;
              RegExp.Group 1 (RegExp.plus digit)].

(** [/confidence[:\s]*\d+/i] *)
Definition confidencePhrase : RegExp.re :=
  RegExp.seq [RegExp.word "confidence";
              RegExp.Star true colonOrSpace;
              RegExp.plus digit].

(** [str.replace(re, EmptyString)] without the g flag: the first match. *)
Definition removeFirst (f : RegExp.flags) (r : RegExp.re) (s : string)
  : string :=
  match RegExp.exec f r s with
  | Some m =>
      JS.str (firstn (RegExp.index m) (JS.chars s) ++ RegExp.rest m)
  | None => s
  end.

Section Operations.
Context {World : Type}.
Variable geminiClient : GeminiClient World.

Definition generateContextualAltText (imageData mimeType : string)
  (surroundingContent : string) (imageContext : ImageContext) (w : World)
  : string * World :=
  let prompt := buildContextualPrompt surroundingContent imageContext in
  match visionModel geminiClient prompt imageData mimeType w with
  | (Resolved responseText, w') => (cleanAltText responseText, w')
  | (Rejected _, w') => ("Image description not available", w')
  end.

Definition detectTextInImage (imageData mimeType : string) (w : World)
  : TextDetection.t * World :=
  match visionModel geminiClient textDetectionPrompt imageData mimeType w with
  | (Resolved responseText, w') =>
      if JS.includes responseText "NO_TEXT_FOUND"
      then ({| TextDetection.hasText := false;
               TextDetection.extractedText := None;
               TextDetection.confidence := 90 |}, w')
      else
        let confidence :=
          match RegExp.exec RegExp.flags_i confidenceRegex responseText with
          | Some confidenceMatch =>
              WCAGValidator.parseInt (RegExp.group 1 confidenceMatch)
          | None => 75
          end in
        ({| TextDetection.hasText := true;
            TextDetection.extractedText :=
              Some (JS.trim
                      (removeFirst RegExp.flags_i confidencePhrase
                         responseText));
            TextDetection.confidence := confidence |}, w')
  | (Rejected _, w') =>
      ({| TextDetection.hasText := false;
          TextDetection.extractedText := None;
          TextDetection.confidence := 0 |}, w')
  end.

Definition isImageDecorative (imageData mimeType context : string)
  (w : World) : bool * World :=
  match
    visionModel geminiClient (decorativePrompt context) imageData mimeType w
  with
  | (Resolved responseText, w') =>
      (String.eqb (JS.toUpperCase (JS.trim responseText)) "DECORATIVE", w')
  | (Rejected _, w') => (false, w')
  end.

End Operations.

End ImageAnalyzerOps.

(* ================================================================== *)
(** ** [class GeminiClient], alt text and content suggestions *)
(* ================================================================== *)

Module GeminiAltText.

Definition altTextPrompt : string :=
  "Analyze this image and generate a concise, descriptive alt text that would be helpful for screen readers. Focus on the main subject, important details, and context. Keep it under 125 characters.".

(** The value [generateAltText] resolves with. *)
Record AltTextResult : Type := {
  ok : bool;                        (* success *)
  generated : option string;        (* altText *)
  certainty : option string;        (* confidence *)
  failure : option string;          (* error *)
  fallback : option string
}.

(** An element of the value of [parseContentSuggestions]. *)
Module Suggestion.
Record t : Type := {
  id : string;
  content : string;
  type : string;
  confidence : string
}.
End Suggestion.

(** The body of [lines.map((line, index) => ...)]. *)
Definition suggestionOf (index : nat) (line : string) : list Suggestion.t :=
  [ {| Suggestion.id := "suggestion-" +++ JS.ofNat index;
       Suggestion.content := JS.trim line;
       Suggestion.type := "text";
       Suggestion.confidence := "medium" |} ].

Definition parseContentSuggestions (text : string) : list Suggestion.t :=
  let lines :=
    filter (fun line => JS.truthy (JS.trim line)) (JS.splitLines text) in
  forEach suggestionOf lines.

Section Client.
Context {World : Type}.
Variable vision : string -> string -> string -> World -> Outcome string * World.

(** [async generateAltText(imageData, mimeType)] of the client. *)
Definition generateAltText (imageData mimeType : string) (w : World)
  : Outcome AltTextResult * World :=
  match vision altTextPrompt imageData mimeType w with
  | (Resolved responseText, w') =>
      (Resolved {| ok := true;
                   generated := Some (JS.trim responseText);
                   certainty := Some "high";
                   failure := None;
                   fallback := None |}, w')
  | (Rejected message, w') =>
      (Resolved {| ok := false;
                   generated := None;
                   certainty := None;
                   failure := Some message;
                   fallback := Some "Image description not available" |}, w')
  end.

End Client.

(** [async generateAltText(imageData, mimeType)] of [AccessibilityChecker],
    over the method of the client it is constructed with.  [None] stands
    for a rejection and for the [undefined] a successful result without
    [altText] gives. *)
Definition checkerGenerateAltText {World : Type}
  (clientGenerateAltText :
     string -> string -> World -> Outcome AltTextResult * World)
  (imageData mimeType : string) (w : World) : option string * World :=
  match clientGenerateAltText imageData mimeType w with
  | (Resolved result, w') =>
      if ok result then (generated result, w')
      else (Some "Image description not available", w')
  | (Rejected _, w') => (None, w')
  end.

End GeminiAltText.

(* ================================================================== *)
(** ** The command-line tool *)
(* ================================================================== *)

Module CLI.

Definition notQuote : RegExp.re :=
  RegExp.Class true [RegExp.IChar JS.dquote; RegExp.IChar JS.squote].

(** [(?:alt=[\x22']([^\x22']{0,})[\x22'])?] *)
Definition altAttribute : RegExp.re :=
  RegExp.Alt
    (RegExp.seq [RegExp.word "alt=";
                 RegExp.quote;
                 RegExp.Group 2 (RegExp.Star true notQuote);
                 RegExp.quote])
    RegExp.Empty.

(** The end of the pattern, from the [[^>]*] that follows the source. *)
Definition imgTail : RegExp.re :=
  RegExp.seq [RegExp.Star true (RegExp.notOf ">"%char);
              altAttribute;
              RegExp.Star true (RegExp.notOf ">"%char);
              RegExp.Char ">"%char].

(** [/<img[^>]+src=[\x22']([^\x22']+)[\x22'][^>]*(?:alt=[\x22']([^\x22']{0,})[\x22'])?[^>]*>/gi] *)
Definition imgRegex : RegExp.re :=
  RegExp.seq [RegExp.word "<img";
              RegExp.plus (RegExp.notOf ">"%char);
              RegExp.word "src=";
              RegExp.quote;
              RegExp.Group 1 (RegExp.plus notQuote);
              RegExp.quote;
              imgTail].

(** The body of the [while] loop of [extractImages]:
    [{ src: match[1], alt: match[2] || EmptyString }]. *)
Definition imageOf (m : RegExp.result) : Image :=
  {| src := RegExp.group 1 m;
     alt := Some (RegExp.group 2 m);
     data := None;
     mimeType := None |}.

Definition extractImages (content : string) : list Image :=
  map imageOf (RegExp.execAll RegExp.flags_i imgRegex content).

End CLI.

(* ================================================================== *)
(** ** Further reference definitions *)
(* ================================================================== *)

Module Facts.

(** The rule ids of the validator. *)
Definition ruleIds : list string :=
  ["1.1.1"; "1.4.3"; "1.3.1"; "2.4.6"; "4.1.2"].

(** A result of the validator: failed, under the rule [rule]. *)
Definition failedUnder (rule : string) (r : ValidationResult) : Prop :=
  passed r = false /\ ruleId r = rule.

(** A pattern has no group at all. *)
Fixpoint groupFree (r : RegExp.re) : bool :=
  match r with
  | RegExp.Seq r1 r2 | RegExp.Alt r1 r2 => groupFree r1 && groupFree r2
  | RegExp.Star _ r1 => groupFree r1
  | RegExp.Group _ _ => false
  | _ => true
  end.

(** The continuation of a search: the match ends where the pattern ends. *)
Definition done : RegExp.cont := fun s c => Some (s, c).

(** A pattern has no group [n]. *)
Fixpoint noGroup (n : nat) (r : RegExp.re) : bool :=
  match r with
  | RegExp.Seq r1 r2 | RegExp.Alt r1 r2 => noGroup n r1 && noGroup n r2
  | RegExp.Star _ r1 => noGroup n r1
  | RegExp.Group m r1 => negb (Nat.eqb m n) && noGroup n r1
  | _ => true
  end.

Definition isDigit (c : ascii) : bool :=
  (48 <=? JS.code c) && (JS.code c <=? 57).

(** An identifier is a prefix that ends in a hyphen followed by digits. *)
Definition endsWithHyphen (p : string) : Prop :=
  exists q, p = q +++ "-".

(** The prefix and the number of the AI issue of an image that is missing
    its alt text when the provider is out. *)
Definition outageIssues (index : nat) (image : Image)
  : list AccessibilityIssue :=
  if AccessibilityChecker.hasImageData image
     && negb (JS.truthyOpt (alt image))
  then [AccessibilityChecker.aiAltText index ImageAnalyzer.getFallbackAnalysis]
  else [].

(** Identifiers.  Every identifier of an issue is a prefix, a hyphen and
    a number; [family] tells the eight kinds of prefixes apart. *)
Definition hasHyphen (s : string) : bool :=
  existsb (Ascii.eqb "-"%char) (JS.chars s).

Definition render (k : string * nat) : string :=
  fst k +++ "-" +++ JS.ofNat (snd k).

Definition family (p : string) : nat :=
  if String.prefix "wcag-" p then 0
  else if String.eqb p "ai-alt-text" then 1
  else if String.eqb p "text-in-image" then 2
  else if String.eqb p "complex-image" then 3
  else if String.eqb p "heading-skip" then 4
  else if String.eqb p "heading-empty" then 5
  else if String.eqb p "contrast" then 6
  else if String.eqb p "gemini" then 7
  else 8.

(** The issues pushed for one index: identifiers with distinct prefixes of
    the families [lo] to [hi] and the number [i]. *)
Definition block (lo hi i : nat) (l : list AccessibilityIssue) : Prop :=
  exists ks,
    map Issue.id l = map render ks
    /\ NoDup ks
    /\ Forall (fun k => lo <= family (fst k) <= hi /\ snd k = i) ks.

(** The issues of one loop: distinct (prefix, number) pairs of the families
    [lo] to [hi] with numbers from [i] on. *)
Definition segment (lo hi i : nat) (l : list AccessibilityIssue) : Prop :=
  exists ks,
    map Issue.id l = map render ks
    /\ NoDup ks
    /\ Forall (fun k => lo <= family (fst k) <= hi /\ i <= snd k) ks.

(** A result of the validator and an issue of the checker's own heading
    check that report the same finding. *)
Definition mirrors (r : ValidationResult) (i : AccessibilityIssue) : Prop :=
  element r = Some (Issue.element i)
  /\ severity r = Issue.severity i
  /\ autoFixable r = Issue.autoFixable i.

Definition isEmptyHeadingResult (r : ValidationResult) : bool :=
  String.eqb (message r) "Heading is empty".

(** The entry of [imageAnalyses] for an image whose analysis failed. *)
Definition fallbackEntry (image : Image) : ImageEntry.t :=
  {| ImageEntry.src := src image;
     ImageEntry.analysis := ImageAnalyzer.getFallbackAnalysis |}.

(** A client whose vision model rejects every call. *)
Definition visionDown {World : Type} (client : GeminiClient World) : Prop :=
  forall prompt imageData mime w,
    exists message w',
      visionModel client prompt imageData mime w = (Rejected message, w').

(** The end of the image pattern of the command-line tool, after its first
    [[^>]{0,}]: the optional alt attribute, [[^>]{0,}] and [>]. *)
Definition afterStar : RegExp.re :=
  RegExp.Seq CLI.altAttribute
    (RegExp.Seq (RegExp.Star true (RegExp.notOf ">"%char))
       (RegExp.Char ">"%char)).

(** What follows an iteration of that first [[^>]{0,}]. *)
Definition next : RegExp.cont :=
  fun s' c' => RegExp.run RegExp.flags_i afterStar s' c' done.

End Facts.

(* ================================================================== *)
(** ** Properties of the matcher *)
(* ================================================================== *)

Section Matcher.
Import RegExp.

Lemma suffixOf_refl (s : list ascii) : suffixOf s s.
Proof. exists []. reflexivity. Qed.

Lemma suffixOf_trans (s1 s2 s3 : list ascii) :
  suffixOf s1 s2 -> suffixOf s2 s3 -> suffixOf s1 s3.
Proof.
  intros [p ->] [q ->]. exists (q ++ p). apply app_assoc.
Qed.

Lemma suffixOf_tail (x : ascii) (s : list ascii) : suffixOf s (x :: s).
Proof. exists [x]. reflexivity. Qed.

Lemma suffixOf_skipn (n : nat) (s : list ascii) : suffixOf (skipn n s) s.
Proof. exists (firstn n s). symmetry. apply firstn_skipn. Qed.

Lemma suffixOf_length (s' s : list ascii) :
  suffixOf s' s -> List.length s' <= List.length s.
Proof. intros [p ->]. rewrite length_app. lia. Qed.

(** If every successful iteration ends in a call of its continuation on
    what is left of the input, so does the star. *)
Lemma starLoop_continues
  (body : list ascii -> caps -> cont -> option (list ascii * caps))
  (greedy : bool) (k : cont) :
  (forall s c k' res,
      body s c k' = Some res ->
      exists s1 c1, suffixOf s1 s /\ k' s1 c1 = Some res) ->
  forall n s c res,
    starLoop body greedy k n s c = Some res ->
    exists s1 c1, suffixOf s1 s /\ k s1 c1 = Some res.
Proof.
  intros Hbody.
  induction n as [|n IHn]; intros s c res Hloop; simpl in Hloop.
  - exists s, c. split; [apply suffixOf_refl | exact Hloop].
  - assert (Hiter : forall x,
      body s c
        (fun s' c' =>
           if List.length s' <? List.length s
           then starLoop body greedy k n s' c' else None) = Some x ->
      exists s1 c1, suffixOf s1 s /\ k s1 c1 = Some x).
    { intros x Hx. apply Hbody in Hx.
      destruct Hx as (s1 & c1 & Hs1 & Hx).
      destruct (List.length s1 <? List.length s); [|discriminate].
      apply IHn in Hx. destruct Hx as (s2 & c2 & Hs2 & Hk).
      exists s2, c2.
      split; [eapply suffixOf_trans; eassumption | exact Hk]. }
    destruct greedy.
    + destruct (body s c _) as [x|] eqn:Hit.
      * injection Hloop as ->. apply Hiter. reflexivity.
      * exists s, c. split; [apply suffixOf_refl | exact Hloop].
    + destruct (k s c) as [x|] eqn:Hk.
      * exists s, c. split; [apply suffixOf_refl|].
        rewrite Hk. exact Hloop.
      * apply Hiter. exact Hloop.
Qed.

(** A successful run ends in a successful call of the continuation on
    what is left of the input. *)
Lemma run_continues (f : flags) (r : re) :
  forall s c k res,
    run f r s c k = Some res ->
    exists s1 c1, suffixOf s1 s /\ k s1 c1 = Some res.
Proof.
  induction r as [ | a | | neg items | r1 IH1 r2 IH2 | r1 IH1 r2 IH2
                 | greedy r1 IH1 | n r1 IH1 | n ];
    intros s c k res Hrun; simpl in Hrun.
  - exists s, c. split; [apply suffixOf_refl | exact Hrun].
  - destruct s as [|x s']; [discriminate|].
    destruct (charEq f a x); [|discriminate].
    exists s', c. split; [apply suffixOf_tail | exact Hrun].
  - destruct s as [|x s']; [discriminate|].
    destruct (dotAll f || negb (isLineTerminator x)); [|discriminate].
    exists s', c. split; [apply suffixOf_tail | exact Hrun].
  - destruct s as [|x s']; [discriminate|].
    destruct (Bool.eqb (inItems f x items) (negb neg)); [|discriminate].
    exists s', c. split; [apply suffixOf_tail | exact Hrun].
  - apply IH1 in Hrun. destruct Hrun as (s1 & c1 & Hs1 & Hrun).
    apply IH2 in Hrun. destruct Hrun as (s2 & c2 & Hs2 & Hk).
    exists s2, c2. split; [eapply suffixOf_trans; eassumption | exact Hk].
  - destruct (run f r1 s c k) as [x|] eqn:Hleft.
    + apply (IH1 s c k). rewrite Hleft. exact Hrun.
    + apply (IH2 s c k). exact Hrun.
  - apply (starLoop_continues (run f r1) greedy k IH1) in Hrun.
    exact Hrun.
  - apply IH1 in Hrun. destruct Hrun as (s1 & c1 & Hs1 & Hk).
    exists s1, ((n, firstn (List.length s - List.length s1) s) :: c1).
    split; assumption.
  - destruct (capture n c) as [w|].
    + destruct (prefixEq f w s); [|discriminate].
      exists (skipn (List.length w) s), c.
      split; [apply suffixOf_skipn | exact Hrun].
    + exists s, c. split; [apply suffixOf_refl | exact Hrun].
Qed.

(** The result of a run depends on its continuation only through what the
    continuation does on what is left of the input. *)
Lemma starLoop_ext
  (body : list ascii -> caps -> cont -> option (list ascii * caps))
  (greedy : bool) :
  (forall s c k1 k2,
      (forall s1 c1, suffixOf s1 s -> k1 s1 c1 = k2 s1 c1) ->
      body s c k1 = body s c k2) ->
  forall n s c k1 k2,
    (forall s1 c1, suffixOf s1 s -> k1 s1 c1 = k2 s1 c1) ->
    starLoop body greedy k1 n s c = starLoop body greedy k2 n s c.
Proof.
  intros Hbody.
  induction n as [|n IHn]; intros s c k1 k2 Hk; simpl.
  - apply Hk, suffixOf_refl.
  - rewrite (Hk s c (suffixOf_refl s)).
    rewrite (Hbody s c
               (fun s' c' =>
                  if List.length s' <? List.length s
                  then starLoop body greedy k1 n s' c' else None)
               (fun s' c' =>
                  if List.length s' <? List.length s
                  then starLoop body greedy k2 n s' c' else None)).
    + reflexivity.
    + intros s1 c1 Hs1.
      destruct (List.length s1 <? List.length s); [|reflexivity].
      apply IHn. intros s2 c2 Hs2. apply Hk.
      eapply suffixOf_trans; eassumption.
Qed.

Lemma run_ext (f : flags) (r : re) :
  forall s c k1 k2,
    (forall s1 c1, suffixOf s1 s -> k1 s1 c1 = k2 s1 c1) ->
    run f r s c k1 = run f r s c k2.
Proof.
  induction r as [ | a | | neg items | r1 IH1 r2 IH2 | r1 IH1 r2 IH2
                 | greedy r1 IH1 | n r1 IH1 | n ];
    intros s c k1 k2 Hk; simpl.
  - apply Hk, suffixOf_refl.
  - destruct s as [|x s']; [reflexivity|].
    destruct (charEq f a x); [apply Hk, suffixOf_tail | reflexivity].
  - destruct s as [|x s']; [reflexivity|].
    destruct (dotAll f || negb (isLineTerminator x));
      [apply Hk, suffixOf_tail | reflexivity].
  - destruct s as [|x s']; [reflexivity|].
    destruct (Bool.eqb (inItems f x items) (negb neg));
      [apply Hk, suffixOf_tail | reflexivity].
  - apply IH1. intros s1 c1 Hs1. apply IH2. intros s2 c2 Hs2.
    apply Hk. eapply suffixOf_trans; eassumption.
  - rewrite (IH1 s c k1 k2 Hk), (IH2 s c k1 k2 Hk). reflexivity.
  - apply starLoop_ext; [exact IH1 | exact Hk].
  - apply IH1. intros s1 c1 Hs1. apply Hk. exact Hs1.
  - destruct (capture n c) as [w|]; [|apply Hk, suffixOf_refl].
    destruct (prefixEq f w s); [apply Hk, suffixOf_skipn | reflexivity].
Qed.

(** The bound on the iterations of a star is never reached: one more
    iteration than the length of the input changes nothing. *)
Lemma starLoop_fuel (f : flags) (r : re) (greedy : bool) (k : cont) :
  forall n s c,
    List.length s <= n ->
    starLoop (run f r) greedy k (S n) s c
    = starLoop (run f r) greedy k n s c.
Proof.
  induction n as [|n IHn]; intros s c Hlen.
  - destruct s as [|x s]; [|simpl in Hlen; lia]. simpl.
    destruct (run f r [] c (fun _ _ => None)) as [res|] eqn:Hrun.
    + apply run_continues in Hrun. destruct Hrun as (s1 & c1 & _ & Hrun).
      discriminate Hrun.
    + destruct greedy; [reflexivity|]. destruct (k [] c); reflexivity.
  - change (starLoop (run f r) greedy k (S (S n)) s c)
      with (let iter :=
              run f r s c
                (fun s' c' =>
                   if List.length s' <? List.length s
                   then starLoop (run f r) greedy k (S n) s' c' else None) in
            if greedy
            then match iter with Some x => Some x | None => k s c end
            else match k s c with Some x => Some x | None => iter end).
    change (starLoop (run f r) greedy k (S n) s c)
      with (let iter :=
              run f r s c
                (fun s' c' =>
                   if List.length s' <? List.length s
                   then starLoop (run f r) greedy k n s' c' else None) in
            if greedy
            then match iter with Some x => Some x | None => k s c end
            else match k s c with Some x => Some x | None => iter end).
    cbv zeta.
    rewrite (run_ext f r s c
               (fun s' c' =>
                  if List.length s' <? List.length s
                  then starLoop (run f r) greedy k (S n) s' c' else None)
               (fun s' c' =>
                  if List.length s' <? List.length s
                  then starLoop (run f r) greedy k n s' c' else None)).
    + reflexivity.
    + intros s1 c1 _.
      destruct (List.length s1 <? List.length s) eqn:Hlt; [|reflexivity].
      apply Nat.ltb_lt in Hlt. apply IHn. lia.
Qed.

(** A pattern that passes [nonEmpty] consumes at least one character. *)
Lemma run_consumes (f : flags) (r : re) :
  nonEmpty r = true ->
  forall s c k res,
    run f r s c k = Some res ->
    exists s1 c1,
      suffixOf s1 s /\ List.length s1 < List.length s /\ k s1 c1 = Some res.
Proof.
  induction r as [ | a | | neg items | r1 IH1 r2 IH2 | r1 IH1 r2 IH2
                 | greedy r1 IH1 | n r1 IH1 | n ];
    intros Hne s c k res Hrun; simpl in Hne; try discriminate Hne;
    simpl in Hrun.
  - destruct s as [|x s']; [discriminate|].
    destruct (charEq f a x); [|discriminate].
    exists s', c. split; [apply suffixOf_tail | split; [simpl; lia|exact Hrun]].
  - destruct s as [|x s']; [discriminate|].
    destruct (dotAll f || negb (isLineTerminator x)); [|discriminate].
    exists s', c. split; [apply suffixOf_tail | split; [simpl; lia|exact Hrun]].
  - destruct s as [|x s']; [discriminate|].
    destruct (Bool.eqb (inItems f x items) (negb neg)); [|discriminate].
    exists s', c. split; [apply suffixOf_tail | split; [simpl; lia|exact Hrun]].
  - destruct (nonEmpty r1) eqn:Hr1.
    + apply (IH1 eq_refl) in Hrun.
      destruct Hrun as (s1 & c1 & Hs1 & Hlt & Hrun).
      apply run_continues in Hrun. destruct Hrun as (s2 & c2 & Hs2 & Hk).
      exists s2, c2. split; [eapply suffixOf_trans; eassumption|].
      split; [apply suffixOf_length in Hs2; lia | exact Hk].
    + simpl in Hne.
      apply run_continues in Hrun. destruct Hrun as (s1 & c1 & Hs1 & Hrun).
      apply (IH2 Hne) in Hrun.
      destruct Hrun as (s2 & c2 & Hs2 & Hlt & Hk).
      exists s2, c2. split; [eapply suffixOf_trans; eassumption|].
      split; [apply suffixOf_length in Hs1; lia | exact Hk].
  - apply andb_prop in Hne. destruct Hne as [Hr1 Hr2].
    destruct (run f r1 s c k) as [x|] eqn:Hleft.
    + apply (IH1 Hr1 s c k). rewrite Hleft. exact Hrun.
    + apply (IH2 Hr2 s c k). exact Hrun.
  - apply (IH1 Hne) in Hrun. destruct Hrun as (s1 & c1 & Hs1 & Hlt & Hk).
    exists s1, ((n, firstn (List.length s - List.length s1) s) :: c1).
    repeat split; assumption.
Qed.

(** A match of such a pattern leaves less input than the search had. *)
Lemma execAt_rest (f : flags) (r : re) :
  nonEmpty r = true ->
  forall s pos m,
    execAt f r s pos = Some m -> List.length (rest m) < List.length s.
Proof.
  intros Hne.
  induction s as [|x s IH]; intros pos m Hexec; simpl in Hexec.
  - destruct (run f r [] [] (fun s' c => Some (s', c))) as [[s' c]|] eqn:Hrun;
      [|discriminate].
    apply (run_consumes f r Hne) in Hrun.
    destruct Hrun as (s1 & c1 & _ & Hlt & _). simpl in Hlt. lia.
  - destruct (run f r (x :: s) [] (fun s' c => Some (s', c)))
      as [[s' c]|] eqn:Hrun.
    + injection Hexec as <-. simpl.
      apply (run_consumes f r Hne) in Hrun.
      destruct Hrun as (s1 & c1 & _ & Hlt & Hk).
      injection Hk as -> _. exact Hlt.
    + apply IH in Hexec. simpl. lia.
Qed.

(** The loop over the matches does not run out of fuel: any fuel above the
    length of the input gives the same matches. *)
Lemma execAllAux_fuel (f : flags) (r : re) :
  nonEmpty r = true ->
  forall fuel1 fuel2 s pos,
    List.length s < fuel1 -> List.length s < fuel2 ->
    execAllAux fuel1 f r s pos = execAllAux fuel2 f r s pos.
Proof.
  intros Hne.
  induction fuel1 as [|fuel1 IH]; intros fuel2 s pos H1 H2; [lia|].
  destruct fuel2 as [|fuel2]; [lia|]. simpl.
  destruct (execAt f r s pos) as [m|] eqn:Hexec; [|reflexivity].
  pose proof (execAt_rest f r Hne s pos m Hexec) as Hlt.
  f_equal. apply IH; lia.
Qed.

Lemma chars_length (s : string) :
  List.length (JS.chars s) = String.length s.
Proof.
  induction s as [|a s IH]; simpl; [reflexivity | rewrite IH; reflexivity].
Qed.

Lemma execAll_fuel (f : flags) (r : re) (s : string) (fuel : nat) :
  nonEmpty r = true ->
  String.length s < fuel ->
  execAllAux fuel f r (JS.chars s) 0 = execAll f r s.
Proof.
  intros Hne Hfuel. unfold execAll.
  apply execAllAux_fuel; [exact Hne | |]; rewrite chars_length; lia.
Qed.

(** The same for the replacement of every match. *)
Lemma replaceAllAux_fuel (f : flags) (r : re) (rep : list ascii) :
  nonEmpty r = true ->
  forall fuel1 fuel2 s,
    List.length s < fuel1 -> List.length s < fuel2 ->
    replaceAllAux fuel1 f r rep s = replaceAllAux fuel2 f r rep s.
Proof.
  intros Hne.
  induction fuel1 as [|fuel1 IH]; intros fuel2 s H1 H2; [lia|].
  destruct fuel2 as [|fuel2]; [lia|]. simpl.
  destruct (execAt f r s 0) as [m|] eqn:Hexec; [|reflexivity].
  pose proof (execAt_rest f r Hne s 0 m Hexec) as Hlt.
  do 2 f_equal. apply IH; lia.
Qed.

(** Every pattern the source loops over passes the test. *)
Lemma loop_patterns_nonEmpty :
  forallb nonEmpty
    [ WCAGValidator.headingRegex; WCAGValidator.tagRegex;
      WCAGValidator.styleRegex; WCAGValidator.listRegex;
      WCAGValidator.listItemRegex; WCAGValidator.tableRegex;
      WCAGValidator.interactiveRegex; WCAGValidator.ariaRegex;
      AccessibilityChecker.colorRegex; ImageAnalyzer.quoteRegex ]
  = true.
Proof. reflexivity. Qed.

End Matcher.

(* ================================================================== *)
(** ** Properties of the score *)
(* ================================================================== *)

Lemma weights_weight (s : Severity) :
  WCAGValidator.weights s = Spec.weight s.
Proof. destruct s; reflexivity. Qed.

Lemma weight_pos (s : Severity) : (0 < Spec.weight s)%Z.
Proof. destruct s; reflexivity. Qed.

Lemma deduction_nonneg (results : list ValidationResult) :
  (0 <= Spec.deduction results)%Z.
Proof.
  induction results as [|r rest IH]; simpl; [lia|].
  destruct (passed r); [lia|].
  pose proof (weight_pos (severity r)); lia.
Qed.

(** The [reduce] of the source, started from any sum. *)
Lemma reduce_deduction (results : list ValidationResult) (acc : Z) :
  fold_left
    (fun sum result => (sum + WCAGValidator.weights (severity result))%Z)
    (filter (fun result => negb (passed result)) results) acc
  = (acc + Spec.deduction results)%Z.
Proof.
  revert acc.
  induction results as [|r rest IH]; intros acc; simpl.
  - lia.
  - destruct (passed r); simpl.
    + rewrite IH. lia.
    + rewrite IH, weights_weight. lia.
Qed.

Lemma calculateScore_deduction (results : list ValidationResult) :
  WCAGValidator.calculateScore results
  = Z.max 0 (100 - Spec.deduction results).
Proof.
  unfold WCAGValidator.calculateScore.
  rewrite reduce_deduction. reflexivity.
Qed.

Lemma calculateScore_range (results : list ValidationResult) :
  (0 <= WCAGValidator.calculateScore results <= 100)%Z.
Proof.
  rewrite calculateScore_deduction.
  pose proof (deduction_nonneg results). lia.
Qed.

Lemma deduction_all_passed (results : list ValidationResult) :
  filter (fun result => negb (passed result)) results = [] ->
  Spec.deduction results = 0%Z.
Proof.
  induction results as [|r rest IH]; simpl; [reflexivity|].
  destruct (passed r); simpl; [exact IH | discriminate].
Qed.

(** C1.  [calculateScore] returns max(0, 100 - d), where d is the sum of
    the severity weights (high 15, medium 10, low 5) over exactly the
    results with [passed = false].  In particular a list without failed
    results scores 100, a single high-severity failure scores 85, and two
    high failures with one medium failure score 60. *)
Theorem calculateScore_formula :
  (forall results,
      WCAGValidator.calculateScore results
      = Z.max 0 (100 - Spec.deduction results))
  /\ (forall results,
         filter (fun result => negb (passed result)) results = [] ->
         WCAGValidator.calculateScore results = 100%Z)
  /\ (forall r,
         passed r = false -> severity r = high ->
         WCAGValidator.calculateScore [r] = 85%Z)
  /\ (forall r1 r2 r3,
         passed r1 = false -> passed r2 = false -> passed r3 = false ->
         severity r1 = high -> severity r2 = high -> severity r3 = medium ->
         WCAGValidator.calculateScore [r1; r2; r3] = 60%Z).
Proof.
  repeat split.
  - exact calculateScore_deduction.
  - intros results Hnone.
    rewrite calculateScore_deduction, (deduction_all_passed _ Hnone).
    reflexivity.
  - intros r Hp Hs.
    rewrite calculateScore_deduction. simpl. rewrite Hp, Hs. reflexivity.
  - intros r1 r2 r3 Hp1 Hp2 Hp3 Hs1 Hs2 Hs3.
    rewrite calculateScore_deduction. simpl.
    rewrite Hp1, Hp2, Hp3, Hs1, Hs2, Hs3. reflexivity.
Qed.

(** The three cases of C1 on concrete results. *)
Lemma calculateScore_formula_witness :
  WCAGValidator.calculateScore [] = 100%Z
  /\ WCAGValidator.calculateScore [Fixtures.failure high] = 85%Z
  /\ WCAGValidator.calculateScore
       [Fixtures.failure high; Fixtures.failure high;
        Fixtures.failure medium] = 60%Z.
Proof.
  destruct calculateScore_formula as [_ [Hnone [Hone Hthree]]].
  split; [|split].
  - apply Hnone. reflexivity.
  - apply Hone; reflexivity.
  - apply Hthree; reflexivity.
Defined.

(* ================================================================== *)
(** ** The parts of a report *)
(* ================================================================== *)

Section ReportParts.
Context {World : Type} {CP : ColorPackage} {JP : JSONPackage}.
Variable client : GeminiClient World.

Lemma checkContent_score content images w :
  Report.score (fst (AccessibilityChecker.checkContent client content images w))
  = WCAGValidator.calculateScore
      (WCAGValidator.validateContent content
         (match images with Some l => l | None => [] end)).
Proof.
  unfold AccessibilityChecker.checkContent.
  destruct (AccessibilityChecker.analyzeImages client content images w)
    as [[entries imgIssues] w1].
  destruct (AccessibilityChecker.analyzeContent client content w1)
    as [gemini w2].
  reflexivity.
Qed.

Lemma checkContent_issues content images w :
  Report.issues (fst (AccessibilityChecker.checkContent client content images w))
  = AccessibilityChecker.ruleIssues content images
      ++ AccessibilityChecker.aiImageIssues client content images w
      ++ AccessibilityChecker.checkHeadingStructure content
      ++ AccessibilityChecker.checkColorContrast content
      ++ AccessibilityChecker.aiContentIssues client content images w.
Proof.
  unfold AccessibilityChecker.checkContent,
    AccessibilityChecker.aiContentIssues,
    AccessibilityChecker.worldAfterImages,
    AccessibilityChecker.aiImageIssues, AccessibilityChecker.ruleIssues.
  destruct (AccessibilityChecker.analyzeImages client content images w)
    as [[entries imgIssues] w1].
  simpl.
  destruct (AccessibilityChecker.analyzeContent client content w1)
    as [gemini w2].
  reflexivity.
Qed.

Lemma checkContent_imageAnalyses content images w :
  Report.imageAnalyses
    (fst (AccessibilityChecker.checkContent client content images w))
  = fst (fst (AccessibilityChecker.analyzeImages client content images w)).
Proof.
  unfold AccessibilityChecker.checkContent.
  destruct (AccessibilityChecker.analyzeImages client content images w)
    as [[entries imgIssues] w1].
  destruct (AccessibilityChecker.analyzeContent client content w1)
    as [gemini w2].
  reflexivity.
Qed.

Lemma checkContent_suggestions content images w :
  let r := fst (AccessibilityChecker.checkContent client content images w) in
  Report.suggestions r
  = AccessibilityChecker.generateEnhancedSuggestions (Report.issues r)
      (Report.imageAnalyses r).
Proof.
  unfold AccessibilityChecker.checkContent.
  destruct (AccessibilityChecker.analyzeImages client content images w)
    as [[entries imgIssues] w1].
  destruct (AccessibilityChecker.analyzeContent client content w1)
    as [gemini w2].
  reflexivity.
Qed.

End ReportParts.

(** C2.  The score of the report [checkContent] returns is an integer
    between 0 and 100, whatever the content, the images and the answers of
    the provider. *)
Theorem checkContent_score_range :
  forall (World : Type) (CP : ColorPackage) (JP : JSONPackage)
         (client : GeminiClient World) content images w,
    (0 <= Report.score
            (fst (AccessibilityChecker.checkContent client content images w))
     <= 100)%Z.
Proof.
  intros. rewrite checkContent_score. apply calculateScore_range.
Qed.

(** C3, as the code has it.  The score of the report is the score of the
    validator's results alone: it is max(0, 100 - d) with d the sum of the
    weights of the failed results of [validateContent], and two runs on the
    same content and images have the same score whatever their providers
    answer, so no issue derived from the AI path enters the deduction. *)
Theorem checkContent_score_from_validator :
  forall (World1 World2 : Type) (CP : ColorPackage) (JP : JSONPackage)
         (client1 : GeminiClient World1) (client2 : GeminiClient World2)
         content images w1 w2,
    let results :=
      WCAGValidator.validateContent content
        (match images with Some l => l | None => [] end) in
    Report.score
      (fst (AccessibilityChecker.checkContent client1 content images w1))
    = Z.max 0 (100 - Spec.deduction results)
    /\ Report.score
         (fst (AccessibilityChecker.checkContent client1 content images w1))
       = Report.score
           (fst (AccessibilityChecker.checkContent client2 content images w2)).
Proof.
  intros. subst results.
  rewrite !checkContent_score, calculateScore_deduction.
  split; reflexivity.
Qed.

(** C3, as stated, fails.  The image has a descriptive alt text and the
    provider answers that it needs a long description: the only issue of the
    report is the AI-derived [complex-image-0] of severity medium, a
    deduction over the merged list would give 90, and the score is 100. *)
Lemma score_not_from_merged_issues :
  let r :=
    Fixtures.checkContent
      (Fixtures.scriptedClient (Rejected "unavailable"))
      "<h1>Title</h1>"
      (Some [Fixtures.inline "a.jpg" (Some "A red bicycle against a wall")])
      [Resolved "needsLongDescription: true"] in
  map Issue.id (Report.issues r) = ["complex-image-0"]
  /\ map Issue.severity (Report.issues r) = [medium]
  /\ Spec.mergedScore (Report.issues r) = 90%Z
  /\ Report.score r = 100%Z
  /\ Report.score r <> Spec.mergedScore (Report.issues r).
Proof.
  vm_compute. repeat split; discriminate.
Qed.

(* ================================================================== *)
(** ** The order of the issues *)
(* ================================================================== *)

Lemma forEachFrom_app {A B : Type} (f : nat -> A -> list B)
  (xs ys : list A) (i : nat) :
  forEachFrom f i (xs ++ ys)
  = forEachFrom f i xs ++ forEachFrom f (i + List.length xs) ys.
Proof.
  revert i.
  induction xs as [|x xs IH]; intros i; simpl.
  - rewrite Nat.add_0_r. reflexivity.
  - rewrite IH, <- app_assoc. do 3 f_equal. lia.
Qed.

Section ImageLoop.
Context {World : Type} {JP : JSONPackage}.
Variable client : GeminiClient World.

(** The loop over [pre ++ post] is the loop over [pre] followed by the loop
    over [post], which starts in the world the first one leaves. *)
Lemma analyzeImagesFrom_app content (pre post : list Image) i w :
  AccessibilityChecker.analyzeImagesFrom client content i (pre ++ post) w
  = let '(e1, i1, w1) :=
      AccessibilityChecker.analyzeImagesFrom client content i pre w in
    let '(e2, i2, w2) :=
      AccessibilityChecker.analyzeImagesFrom client content
        (i + List.length pre) post w1 in
    (e1 ++ e2, i1 ++ i2, w2).
Proof.
  revert i w.
  induction pre as [|image pre IH]; intros i w; simpl.
  - rewrite Nat.add_0_r.
    destruct (AccessibilityChecker.analyzeImagesFrom client content i post w)
      as [[e2 i2] w2].
    reflexivity.
  - destruct (AccessibilityChecker.analyzeEntry client content i image w)
      as [[e0 i0] w0].
    rewrite IH.
    destruct (AccessibilityChecker.analyzeImagesFrom client content (S i) pre w0)
      as [[e1 i1] w1].
    replace (i + S (List.length pre)) with (S i + List.length pre) by lia.
    destruct (AccessibilityChecker.analyzeImagesFrom client content
                (S i + List.length pre) post w1) as [[e2 i2] w2].
    rewrite <- !app_assoc. reflexivity.
Qed.

End ImageLoop.

(** C4, as the code has it.  The issues of the report are five contiguous
    segments in a fixed order: the issues converted from the validator's
    results (images, headings, contrast, semantic structure, ARIA, numbered
    through), the AI-derived issues of the images in the order of the image
    list, the checker's own heading issues, the checker's own contrast
    issues, and the issues of the AI content analysis in the order the
    provider lists them. *)
Theorem checkContent_issue_order :
  forall (World : Type) (CP : ColorPackage) (JP : JSONPackage)
         (client : GeminiClient World) content images w,
    let l := match images with Some l => l | None => [] end in
    let r1 := WCAGValidator.validateImages l in
    let r2 := WCAGValidator.validateHeadings content in
    let r3 := WCAGValidator.validateColorContrast content in
    let r4 := WCAGValidator.validateSemanticStructure content in
    let r5 := WCAGValidator.validateARIA content in
    let n1 := List.length r1 in
    let n2 := n1 + List.length r2 in
    let n3 := n2 + List.length r3 in
    let n4 := n3 + List.length r4 in
    Report.issues
      (fst (AccessibilityChecker.checkContent client content images w))
    = AccessibilityChecker.ruleIssues content images
        ++ AccessibilityChecker.aiImageIssues client content images w
        ++ AccessibilityChecker.checkHeadingStructure content
        ++ AccessibilityChecker.checkColorContrast content
        ++ AccessibilityChecker.aiContentIssues client content images w
    /\ AccessibilityChecker.ruleIssues content images
       = forEachFrom AccessibilityChecker.convertResult 0 r1
           ++ forEachFrom AccessibilityChecker.convertResult n1 r2
           ++ forEachFrom AccessibilityChecker.convertResult n2 r3
           ++ forEachFrom AccessibilityChecker.convertResult n3 r4
           ++ forEachFrom AccessibilityChecker.convertResult n4 r5
    /\ (forall pre post,
           AccessibilityChecker.aiImageIssues client content
             (Some (pre ++ post)) w
           = AccessibilityChecker.aiImageIssues client content (Some pre) w
               ++ snd (fst (AccessibilityChecker.analyzeImagesFrom client
                              content (List.length pre) post
                              (AccessibilityChecker.worldAfterImages client
                                 content (Some pre) w))))
    /\ (forall raw1 raw2,
           AccessibilityChecker.convertGeminiAnalysisToIssues
             {| issues := Some (raw1 ++ raw2); recommendations := [] |}
           = AccessibilityChecker.convertGeminiAnalysisToIssues
               {| issues := Some raw1; recommendations := [] |}
               ++ forEachFrom AccessibilityChecker.convertGeminiIssue
                    (List.length raw1) raw2).
Proof.
  intros. repeat split.
  - apply checkContent_issues.
  - unfold AccessibilityChecker.ruleIssues,
      AccessibilityChecker.convertResults, forEach,
      WCAGValidator.validateContent.
    fold l r1 r2 r3 r4 r5.
    rewrite !forEachFrom_app. simpl. subst n4 n3 n2 n1.
    reflexivity.
  - intros pre post.
    unfold AccessibilityChecker.aiImageIssues,
      AccessibilityChecker.worldAfterImages,
      AccessibilityChecker.analyzeImages.
    rewrite analyzeImagesFrom_app.
    destruct (AccessibilityChecker.analyzeImagesFrom client content 0 pre w)
      as [[e1 i1] w1].
    simpl.
    destruct (AccessibilityChecker.analyzeImagesFrom client content
                (List.length pre) post w1) as [[e2 i2] w2].
    reflexivity.
  - intros raw1 raw2.
    unfold AccessibilityChecker.convertGeminiAnalysisToIssues, forEach.
    simpl. rewrite forEachFrom_app. reflexivity.
Qed.

(** C4, as stated, fails.  With a heading skip in the content and an image
    with inline data and no alt text, the checker's own heading issue
    [heading-skip-1] comes after the AI-derived [ai-alt-text-0]: the list is
    not the validator's issues, then the AI image issues, then the AI
    content issues. *)
Lemma issues_not_three_segments :
  let client := Fixtures.mockGeminiClient in
  let content := Fixtures.skipMarkup in
  let images := Some [Fixtures.inline "a.jpg" None] in
  let r := Fixtures.checkContent client content images tt in
  map Issue.id (Report.issues r)
  = ["wcag-1.1.1-0"; "wcag-1.3.1-1"; "ai-alt-text-0"; "heading-skip-1"]
  /\ map Issue.id
       (@AccessibilityChecker.aiImageIssues unit Fixtures.emptyObjectJSON
          client content images tt)
     = ["ai-alt-text-0"]
  /\ Report.issues r
     <> @AccessibilityChecker.ruleIssues Fixtures.blackAndWhite content images
          ++ @AccessibilityChecker.aiImageIssues unit Fixtures.emptyObjectJSON
               client content images tt
          ++ @AccessibilityChecker.aiContentIssues unit
               Fixtures.emptyObjectJSON client content images tt.
Proof.
  vm_compute. split; [reflexivity | split; [reflexivity | discriminate]].
Qed.

(* ================================================================== *)
(** ** Failures of the provider *)
(* ================================================================== *)

Section Failures.
Context {World : Type} {CP : ColorPackage} {JP : JSONPackage}.
Variable client : GeminiClient World.

Lemma analyzeImage_rejected imageData mime context error w w' :
  visionModel client (ImageAnalyzer.buildAnalysisPrompt context)
    imageData mime w = (Rejected error, w') ->
  ImageAnalyzer.analyzeImage client imageData mime context w
  = (ImageAnalyzer.getFallbackAnalysis, w').
Proof.
  intros Hcall. unfold ImageAnalyzer.analyzeImage.
  rewrite Hcall. reflexivity.
Qed.

Lemma analyzeEntry_rejected content index image imageData mime error w w' :
  data image = Some imageData ->
  mimeType image = Some mime ->
  JS.truthy imageData = true ->
  JS.truthy mime = true ->
  visionModel client
    (ImageAnalyzer.buildAnalysisPrompt
       (AccessibilityChecker.extractImageContext content (src image)))
    imageData mime w = (Rejected error, w') ->
  AccessibilityChecker.analyzeEntry client content index image w
  = ([ {| ImageEntry.src := src image;
          ImageEntry.analysis := ImageAnalyzer.getFallbackAnalysis |} ],
     AccessibilityChecker.imageIssues content index image
       ImageAnalyzer.getFallbackAnalysis,
     w').
Proof.
  intros Hdata Hmime Htd Htm Hcall.
  unfold AccessibilityChecker.analyzeEntry.
  rewrite Hdata, Hmime, Htd, Htm. simpl andb. cbv iota.
  rewrite (analyzeImage_rejected _ _ _ _ _ _ Hcall).
  reflexivity.
Qed.

End Failures.

(** *** Calls that settle *)

Section Settling.
Context {World : Type} {CP : ColorPackage} {JP : JSONPackage}.
Variable client : GeminiClient World.

(** Where every call settles, the functions of [Awaiting] return what the
    functions above return. *)
Lemma settling_analyzeImage imageData mime context0 w :
  Awaiting.analyzeImage (Awaiting.settling client) imageData mime context0 w
  = Some (ImageAnalyzer.analyzeImage client imageData mime context0 w).
Proof.
  unfold Awaiting.analyzeImage, ImageAnalyzer.analyzeImage,
    Awaiting.settling.
  cbn [Awaiting.awaitVisionModel].
  destruct (visionModel client (ImageAnalyzer.buildAnalysisPrompt context0)
              imageData mime w) as [[analysisText | message] w'];
    reflexivity.
Qed.

Lemma settling_analyzeEntry content index image w :
  Awaiting.analyzeEntry (Awaiting.settling client) content index image w
  = Some (AccessibilityChecker.analyzeEntry client content index image w).
Proof.
  unfold Awaiting.analyzeEntry, AccessibilityChecker.analyzeEntry.
  destruct (data image) as [imageData|]; [|reflexivity].
  destruct (mimeType image) as [mime|]; [|reflexivity].
  destruct (JS.truthy imageData && JS.truthy mime); [|reflexivity].
  rewrite settling_analyzeImage.
  destruct (ImageAnalyzer.analyzeImage client imageData mime
              (AccessibilityChecker.extractImageContext content (src image))
              w) as [a w'].
  reflexivity.
Qed.

Lemma settling_analyzeImagesFrom content (images : list Image) :
  forall index w,
    Awaiting.analyzeImagesFrom (Awaiting.settling client) content index
      images w
    = Some (AccessibilityChecker.analyzeImagesFrom client content index
              images w).
Proof.
  induction images as [|image rest IH]; intros index w; [reflexivity|].
  cbn [Awaiting.analyzeImagesFrom AccessibilityChecker.analyzeImagesFrom].
  rewrite settling_analyzeEntry.
  destruct (AccessibilityChecker.analyzeEntry client content index image w)
    as [[entries1 issues1] w1].
  rewrite IH.
  destruct (AccessibilityChecker.analyzeImagesFrom client content (S index)
              rest w1) as [[entries2 issues2] w2].
  reflexivity.
Qed.

Lemma settling_analyzeContent content w :
  Awaiting.analyzeContent (Awaiting.settling client) content w
  = Some (AccessibilityChecker.analyzeContent client content w).
Proof.
  unfold Awaiting.analyzeContent, AccessibilityChecker.analyzeContent,
    Awaiting.settling.
  cbn [Awaiting.awaitContentAnalysis].
  destruct (analyzeContentAccessibility client content w)
    as [[geminiAnalysis | message] w']; [|reflexivity].
  destruct (success geminiAnalysis); [|reflexivity].
  destruct (analysis geminiAnalysis); reflexivity.
Qed.

Lemma settling_checkContent content images w :
  Awaiting.checkContent (Awaiting.settling client) content images w
  = Some (AccessibilityChecker.checkContent client content images w).
Proof.
  unfold Awaiting.checkContent, AccessibilityChecker.checkContent.
  assert (Himages :
    Awaiting.analyzeImages (Awaiting.settling client) content images w
    = Some (AccessibilityChecker.analyzeImages client content images w)).
  { destruct images as [l|]; [apply settling_analyzeImagesFrom|].
    reflexivity. }
  rewrite Himages.
  destruct (AccessibilityChecker.analyzeImages client content images w)
    as [[entries imgIssues] w1].
  rewrite settling_analyzeContent.
  destruct (AccessibilityChecker.analyzeContent client content w1)
    as [gemini w2].
  reflexivity.
Qed.

End Settling.

(** C5.  When the call of the vision model for an image rejects (the
    analysis fails by an exception), [analyzeImage] returns the placeholder
    (not decorative, the generic alt text, confidence low) instead of
    throwing.  The images before it are analysed
    as they are on their own, the images after it are analysed as they are
    from the world the rejected call leaves, the content analysis runs after
    them, and [checkContent] returns a report with an entry for the failed
    image, all five segments of issues and the validator's score; it
    returns whenever each call it awaits settles, resolved or rejected. *)
Theorem analyzeImage_failure_isolated :
  forall (World : Type) (CP : ColorPackage) (JP : JSONPackage)
         (client : GeminiClient World) content pre image post
         imageData mime error w w1 w2 entriesPre issuesPre,
    data image = Some imageData ->
    mimeType image = Some mime ->
    JS.truthy imageData = true ->
    JS.truthy mime = true ->
    AccessibilityChecker.analyzeImagesFrom client content 0 pre w
    = (entriesPre, issuesPre, w1) ->
    visionModel client
      (ImageAnalyzer.buildAnalysisPrompt
         (AccessibilityChecker.extractImageContext content (src image)))
      imageData mime w1 = (Rejected error, w2) ->
    let fallback := ImageAnalyzer.getFallbackAnalysis in
    let images := Some (pre ++ image :: post) in
    let postRun :=
      AccessibilityChecker.analyzeImagesFrom client content
        (S (List.length pre)) post w2 in
    let r :=
      fst (AccessibilityChecker.checkContent client content images w) in
    ImageAnalyzer.analyzeImage client imageData mime
      (AccessibilityChecker.extractImageContext content (src image)) w1
    = (fallback, w2)
    /\ decorative fallback = false
    /\ altText fallback = "Image description not available"
    /\ confidence fallback = "low"
    /\ Report.imageAnalyses r
       = entriesPre
           ++ {| ImageEntry.src := src image;
                 ImageEntry.analysis := fallback |}
           :: fst (fst postRun)
    /\ AccessibilityChecker.aiImageIssues client content images w
       = issuesPre
           ++ AccessibilityChecker.imageIssues content (List.length pre)
                image fallback
           ++ snd (fst postRun)
    /\ AccessibilityChecker.aiContentIssues client content images w
       = fst (AccessibilityChecker.analyzeContent client content (snd postRun))
    /\ Report.issues r
       = AccessibilityChecker.ruleIssues content images
           ++ AccessibilityChecker.aiImageIssues client content images w
           ++ AccessibilityChecker.checkHeadingStructure content
           ++ AccessibilityChecker.checkColorContrast content
           ++ AccessibilityChecker.aiContentIssues client content images w
    /\ Report.score r
       = WCAGValidator.calculateScore
           (WCAGValidator.validateContent content (pre ++ image :: post))
    /\ Awaiting.checkContent (Awaiting.settling client) content images w
       = Some (AccessibilityChecker.checkContent client content images w).
Proof.
  intros World CP JP client content pre image post imageData mime error
    w w1 w2 entriesPre issuesPre Hdata Hmime Htd Htm Hpre Hcall
    fallback images postRun r.
  assert (Hloop :
    AccessibilityChecker.analyzeImages client content images w
    = (entriesPre
         ++ {| ImageEntry.src := src image;
               ImageEntry.analysis := fallback |} :: fst (fst postRun),
       issuesPre
         ++ AccessibilityChecker.imageIssues content (List.length pre)
              image fallback ++ snd (fst postRun),
       snd postRun)).
  { unfold images, AccessibilityChecker.analyzeImages.
    rewrite analyzeImagesFrom_app, Hpre. simpl.
    rewrite (analyzeEntry_rejected client content (List.length pre) image
               imageData mime error w1 w2 Hdata Hmime Htd Htm Hcall).
    fold postRun.
    destruct postRun as [[e2 i2] w3]. reflexivity. }
  split; [exact (analyzeImage_rejected client _ _ _ _ _ _ Hcall)|].
  split; [reflexivity|]. split; [reflexivity|]. split; [reflexivity|].
  split; [unfold r; rewrite checkContent_imageAnalyses, Hloop; reflexivity|].
  split; [unfold AccessibilityChecker.aiImageIssues; rewrite Hloop;
          reflexivity|].
  split; [unfold AccessibilityChecker.aiContentIssues,
            AccessibilityChecker.worldAfterImages; rewrite Hloop;
          reflexivity|].
  split; [apply checkContent_issues|].
  split; [apply checkContent_score | apply settling_checkContent].
Qed.

(** C5 on three images with inline data, where the call for the second one
    rejects: it gets the placeholder, the first and the third keep the
    analyses the provider gave, and the report is complete. *)
Lemma analyzeImage_failure_isolated_witness :
  let client := Fixtures.scriptedClient (Rejected "unavailable") in
  let content := "<h1>Title</h1>" in
  let a := Fixtures.inline "a.jpg" (Some "A red bicycle against a wall") in
  let b := Fixtures.inline "b.jpg" None in
  let c := Fixtures.inline "c.jpg" (Some "Sales by quarter") in
  let w2 := [Resolved "needsLongDescription: true"] in
  let w1 := Rejected "timeout" :: w2 in
  let w := Resolved "hasText: true" :: w1 in
  let r := Fixtures.checkContent client content (Some ([a] ++ b :: [c])) w in
  @ImageAnalyzer.analyzeImage _ Fixtures.emptyObjectJSON client
    "iVBORw0KGgo=" "image/png"
    (AccessibilityChecker.extractImageContext content "b.jpg") w1
  = (ImageAnalyzer.getFallbackAnalysis, w2)
  /\ map (fun e => (ImageEntry.src e, confidence (ImageEntry.analysis e)))
       (Report.imageAnalyses r)
     = [("a.jpg", "medium"); ("b.jpg", "low"); ("c.jpg", "medium")]
  /\ map Issue.id (Report.issues r)
     = ["wcag-1.1.1-0"; "text-in-image-0"; "ai-alt-text-1";
        "complex-image-2"]
  /\ Report.score r = 85%Z.
Proof.
  intros client content a b c w2 w1 w r.
  destruct
    (analyzeImage_failure_isolated _ Fixtures.blackAndWhite
       Fixtures.emptyObjectJSON client content [a] b [c]
       "iVBORw0KGgo=" "image/png" "timeout" w w1 w2
       (fst (fst (@AccessibilityChecker.analyzeImagesFrom _
                    Fixtures.emptyObjectJSON client content 0 [a] w)))
       (snd (fst (@AccessibilityChecker.analyzeImagesFrom _
                    Fixtures.emptyObjectJSON client content 0 [a] w)))
       eq_refl eq_refl eq_refl eq_refl eq_refl eq_refl)
    as (Hfallback & _ & _ & _ & Hentries & _ & _ & _ & Hscore & _).
  split; [exact Hfallback|].
  split; [unfold r, Fixtures.checkContent; rewrite Hentries; reflexivity|].
  split; [reflexivity|].
  unfold r, Fixtures.checkContent. rewrite Hscore. reflexivity.
Defined.

(** C5, as stated, fails for a timeout.  The code sets no timer: when the
    call of the vision model for the second of three images never settles,
    [analyzeImage] returns no placeholder for it and [checkContent] returns
    no report, although the calls for the other two images would
    resolve. *)
Lemma pending_call_no_report :
  let provider := Fixtures.scriptedProvider (Rejected "unavailable") in
  let content := "<h1>Title</h1>" in
  let a := Fixtures.inline "a.jpg" (Some "A red bicycle against a wall") in
  let b := Fixtures.inline "b.jpg" None in
  let c := Fixtures.inline "c.jpg" (Some "Sales by quarter") in
  let w1 := [None; Some (Resolved "needsLongDescription: true")] in
  let w := Some (Resolved "hasText: true") :: w1 in
  @Awaiting.analyzeImage _ Fixtures.emptyObjectJSON provider
    "iVBORw0KGgo=" "image/png"
    (AccessibilityChecker.extractImageContext content "b.jpg") w1
  = None
  /\ @Awaiting.checkContent _ Fixtures.blackAndWhite Fixtures.emptyObjectJSON
       provider content (Some [a; b; c]) w
     = None
  /\ ~ (exists report w',
           @Awaiting.checkContent _ Fixtures.blackAndWhite
             Fixtures.emptyObjectJSON provider content (Some [a; b; c]) w
           = Some (report, w')).
Proof.
  intros provider content a b c w1 w.
  assert (Hnone :
    @Awaiting.checkContent _ Fixtures.blackAndWhite Fixtures.emptyObjectJSON
      provider content (Some [a; b; c]) w = None)
    by (vm_compute; reflexivity).
  split; [vm_compute; reflexivity|]. split; [exact Hnone|].
  intros (report & w' & Hsome). rewrite Hnone in Hsome. discriminate Hsome.
Qed.

(* ================================================================== *)
(** ** Two inputs of the specification *)
(* ================================================================== *)

(** C6, as the code has it.  For the content [<img src=a.jpg>] (the source
    in double quotes) and the one image descriptor with that source and no
    alt text, the report holds exactly one alt-text issue, of severity high
    and auto-fixable, followed by the validator's issue for the missing H1
    heading (type heading, severity high, not auto-fixable), followed by
    whatever the AI content analysis adds; no AI analysis of the image is
    made.  With a provider that adds nothing there are exactly these two
    issues, and the score is 70. *)
Theorem missing_alt_report :
  forall (World : Type) (CP : ColorPackage) (JP : JSONPackage)
         (client : GeminiClient World) w,
    let images := Some [Fixtures.bare "a.jpg"] in
    let r :=
      fst (AccessibilityChecker.checkContent client Fixtures.imgMarkup
             images w) in
    let altIssue :=
      {| Issue.id := "wcag-1.1.1-0";
         Issue.type := IssueType.alt_text;
         Issue.severity := high;
         Issue.element := "Image 1 (a.jpg)";
         Issue.description := "Image is missing alt text";
         Issue.recommendation :=
           "Add descriptive alt text that conveys the purpose and content of the image";
         Issue.autoFixable := true |} in
    let h1Issue :=
      {| Issue.id := "wcag-2.4.6-1";
         Issue.type := IssueType.heading;
         Issue.severity := high;
         Issue.element := "Content element";
         Issue.description := "Page is missing an H1 heading";
         Issue.recommendation :=
           "Add a main H1 heading that describes the page content";
         Issue.autoFixable := false |} in
    Report.issues r
    = altIssue :: h1Issue
        :: fst (AccessibilityChecker.analyzeContent client
                  Fixtures.imgMarkup w)
    /\ Report.imageAnalyses r = []
    /\ Report.score r = 70%Z
    /\ Report.issues
         (Fixtures.checkContent Fixtures.mockGeminiClient Fixtures.imgMarkup
            images tt)
       = [altIssue; h1Issue].
Proof.
  intros World CP JP client w images r altIssue h1Issue.
  unfold r.
  rewrite checkContent_issues, checkContent_imageAnalyses,
    checkContent_score.
  repeat split.
Qed.

(** C6, as stated, fails: with the mock client of the tests, which adds no
    AI issue, the report for this input has two issues, so it is not a
    single alt-text issue. *)
Lemma missing_alt_not_single_issue :
  let r :=
    Fixtures.checkContent Fixtures.mockGeminiClient Fixtures.imgMarkup
      (Some [Fixtures.bare "a.jpg"]) tt in
  List.length (Report.issues r) = 2
  /\ map Issue.id (Report.issues r) = ["wcag-1.1.1-0"; "wcag-2.4.6-1"]
  /\ ~ (exists i,
           Report.issues r = [i]
           /\ Issue.type i = IssueType.alt_text
           /\ Issue.severity i = high
           /\ Issue.autoFixable i = true).
Proof.
  vm_compute. split; [reflexivity | split; [reflexivity|]].
  intros [i [Hone _]]. discriminate Hone.
Qed.

(** C7.  For the content [<h1>Title</h1><h3>Sub</h3>] with no images, the
    issues of type heading in the report are one issue of the checker's own
    heading check, of severity medium, whose message is about the skip
    from heading level 1 to heading level 3, followed by the issues to
    which the AI content analysis gave the type heading.  So there is
    exactly one when the content analysis returns none of that type.  (The
    validator's result for the same skip is converted to an issue of type
    semantic.) *)
Theorem heading_skip_report :
  forall (World : Type) (CP : ColorPackage) (JP : JSONPackage)
         (client : GeminiClient World) images w,
    images = None \/ images = Some [] ->
    let r :=
      fst (AccessibilityChecker.checkContent client Fixtures.skipMarkup
             images w) in
    let headings :=
      filter (fun i => IssueType.eqb (Issue.type i) IssueType.heading) in
    let fromAnalysis :=
      headings
        (fst (AccessibilityChecker.analyzeContent client Fixtures.skipMarkup
                w)) in
    exists issue,
      headings (Report.issues r) = issue :: fromAnalysis
      /\ Issue.id issue = "heading-skip-1"
      /\ Issue.severity issue = medium
      /\ Issue.description issue = "Heading level skips from h1 to h3"
      /\ Issue.recommendation issue = "Use h2 instead of h3"
      /\ (fromAnalysis = [] -> headings (Report.issues r) = [issue]).
Proof.
  intros World CP JP client images w Himages r headings fromAnalysis.
  exists (AccessibilityChecker.headingSkip 1
            {| WCAGValidator.level := 1; WCAGValidator.text := "Title";
               WCAGValidator.index := 0 |}
            {| WCAGValidator.level := 3; WCAGValidator.text := "Sub";
               WCAGValidator.index := 1 |}).
  assert (Hcontent :
    AccessibilityChecker.aiContentIssues client Fixtures.skipMarkup images w
    = fst (AccessibilityChecker.analyzeContent client Fixtures.skipMarkup w)).
  { destruct Himages as [-> | ->]; reflexivity. }
  assert (Hall :
    headings (Report.issues r)
    = AccessibilityChecker.headingSkip 1
        {| WCAGValidator.level := 1; WCAGValidator.text := "Title";
           WCAGValidator.index := 0 |}
        {| WCAGValidator.level := 3; WCAGValidator.text := "Sub";
           WCAGValidator.index := 1 |} :: fromAnalysis).
  { unfold r, headings, fromAnalysis. rewrite checkContent_issues.
    rewrite !filter_app, Hcontent.
    destruct Himages as [-> | ->]; reflexivity. }
  split; [exact Hall|]. do 4 (split; [reflexivity|]).
  intros Hnone. rewrite Hall, Hnone. reflexivity.
Qed.

(** C7 with the mock client of the tests and no image list: the content
    analysis adds nothing, and the heading issue is the only one. *)
Lemma heading_skip_report_witness :
  exists issue,
    filter (fun i => IssueType.eqb (Issue.type i) IssueType.heading)
      (Report.issues
         (Fixtures.checkContent Fixtures.mockGeminiClient
            Fixtures.skipMarkup None tt))
    = [issue]
    /\ Issue.id issue = "heading-skip-1"
    /\ Issue.severity issue = medium
    /\ Issue.description issue = "Heading level skips from h1 to h3"
    /\ Issue.recommendation issue = "Use h2 instead of h3".
Proof.
  destruct (heading_skip_report unit Fixtures.blackAndWhite
              Fixtures.emptyObjectJSON Fixtures.mockGeminiClient None tt
              (or_introl eq_refl))
    as (issue & Hall & Hid & Hseverity & Hdescription & Hrecommendation & _).
  exists issue.
  split; [exact Hall|]. split; [exact Hid|]. split; [exact Hseverity|].
  split; [exact Hdescription | exact Hrecommendation].
Defined.

(** C7, as stated, fails: when the content analysis of the provider returns
    an issue of type heading, the report for this input has two heading
    issues, the checker's own and the provider's. *)
Lemma heading_issues_not_one :
  let r :=
    Fixtures.checkContent (Fixtures.scriptedClient Fixtures.headingReply)
      Fixtures.skipMarkup None [] in
  let headings :=
    filter (fun i => IssueType.eqb (Issue.type i) IssueType.heading)
      (Report.issues r) in
  map Issue.id headings = ["heading-skip-1"; "gemini-0"]
  /\ map Issue.description headings
     = ["Heading level skips from h1 to h3";
        "Heading text is not descriptive"]
  /\ ~ (exists issue, headings = [issue]).
Proof.
  vm_compute. split; [reflexivity | split; [reflexivity|]].
  intros [issue Hone]. discriminate Hone.
Qed.

(* ================================================================== *)
(** ** Suggestions *)
(* ================================================================== *)

Lemma has_In (s : StringSet.t) (x : string) :
  StringSet.has s x = true <-> In x s.
Proof.
  unfold StringSet.has. rewrite existsb_exists. split.
  - intros [y [Hin Heq]]. apply String.eqb_eq in Heq. subst. exact Hin.
  - intros Hin. exists x. split; [exact Hin | apply String.eqb_refl].
Qed.

Lemma has_filter_other (s : StringSet.t) (x y : string) :
  x <> y ->
  StringSet.has (filter (fun z => negb (String.eqb z y)) s) x
  = StringSet.has s x.
Proof.
  intros Hneq. unfold StringSet.has.
  induction s as [|z s IH]; simpl; [reflexivity|].
  destruct (String.eqb_spec z y) as [-> | Hzy]; simpl.
  - rewrite IH. destruct (String.eqb_spec x y); [contradiction|reflexivity].
  - rewrite IH. reflexivity.
Qed.

Lemma filter_add_same (s : StringSet.t) (y : string) :
  filter (fun z => negb (String.eqb z y)) (StringSet.add y s)
  = filter (fun z => negb (String.eqb z y)) s.
Proof.
  unfold StringSet.add.
  destruct (StringSet.has s y); [reflexivity|].
  rewrite filter_app. simpl. rewrite String.eqb_refl. simpl.
  apply app_nil_r.
Qed.

(** Adding to a set built by first occurrences is appending to the
    sequence of insertions. *)
Lemma add_firstOccurrences (l : list string) (x : string) :
  StringSet.add x (Spec.firstOccurrences l) = Spec.firstOccurrences (l ++ [x]).
Proof.
  induction l as [|y l IH]; simpl.
  - reflexivity.
  - rewrite <- IH. unfold StringSet.add at 1. simpl.
    destruct (String.eqb_spec x y) as [-> | Hneq]; simpl.
    + rewrite filter_add_same. reflexivity.
    + rewrite (has_filter_other _ _ _ Hneq).
      unfold StringSet.add.
      destruct (StringSet.has (Spec.firstOccurrences l) x); [reflexivity|].
      rewrite filter_app. simpl.
      destruct (String.eqb_spec x y); [contradiction|reflexivity].
Qed.

Lemma addRecommendations_firstOccurrences
  (issues : list AccessibilityIssue) (l : list string) :
  AccessibilityChecker.addRecommendations issues (Spec.firstOccurrences l)
  = Spec.firstOccurrences (l ++ map Issue.recommendation issues).
Proof.
  revert l. unfold AccessibilityChecker.addRecommendations.
  induction issues as [|i issues IH]; intros l; simpl.
  - rewrite app_nil_r. reflexivity.
  - rewrite add_firstOccurrences, IH, <- app_assoc. reflexivity.
Qed.

Lemma firstOccurrences_In (l : list string) (x : string) :
  In x (Spec.firstOccurrences l) <-> In x l.
Proof.
  induction l as [|y l IH]; simpl; [tauto|].
  rewrite filter_In, IH.
  destruct (String.eqb_spec x y) as [-> | Hneq]; simpl.
  - split; [intros [H|[H _]]; auto | intros _; left; reflexivity].
  - split; [intros [H|[H _]]; auto | intros [H|H]; auto].
Qed.

Lemma firstOccurrences_NoDup (l : list string) :
  NoDup (Spec.firstOccurrences l).
Proof.
  induction l as [|y l IH]; simpl; constructor.
  - rewrite filter_In. intros [_ H]. rewrite String.eqb_refl in H.
    discriminate H.
  - apply NoDup_filter. exact IH.
Qed.

Lemma filter_nonempty_existsb {A : Type} (p : A -> bool) (l : list A) :
  (0 <? List.length (filter p l)) = existsb p l.
Proof.
  induction l as [|a l IH]; simpl; [reflexivity|].
  destruct (p a); simpl; [reflexivity | exact IH].
Qed.

Lemma filter_map_length {A B : Type} (f : A -> B) (p : B -> bool)
  (l : list A) :
  List.length (filter (fun a => p (f a)) l)
  = List.length (filter p (map f l)).
Proof.
  induction l as [|a l IH]; simpl; [reflexivity|].
  destruct (p (f a)); simpl; rewrite IH; reflexivity.
Qed.

Lemma existsb_map_fun {A B : Type} (f : A -> B) (p : B -> bool)
  (l : list A) :
  existsb p (map f l) = existsb (fun a => p (f a)) l.
Proof.
  induction l as [|a l IH]; simpl; [reflexivity|].
  rewrite IH. reflexivity.
Qed.

Lemma generateEnhancedSuggestions_firstOccurrences
  (issues : list AccessibilityIssue) (imageAnalyses : list ImageEntry.t) :
  AccessibilityChecker.generateEnhancedSuggestions issues imageAnalyses
  = Spec.firstOccurrences
      (map Issue.recommendation issues
         ++ Spec.generalSuggestions issues imageAnalyses).
Proof.
  unfold AccessibilityChecker.generateEnhancedSuggestions,
    Spec.generalSuggestions, StringSet.toArray.
  change StringSet.empty with (Spec.firstOccurrences []).
  rewrite addRecommendations_firstOccurrences. simpl app at 1.
  rewrite !filter_nonempty_existsb.
  rewrite (filter_map_length ImageEntry.analysis decorative).
  rewrite !existsb_map_fun.
  destruct (AccessibilityChecker.hasType issues IssueType.alt_text);
    destruct (existsb (fun a => decorative (ImageEntry.analysis a))
                imageAnalyses);
    destruct (AccessibilityChecker.hasType issues IssueType.contrast);
    destruct (AccessibilityChecker.hasType issues IssueType.heading);
    destruct (existsb
                (fun a => hasText (accessibility (ImageEntry.analysis a)))
                imageAnalyses);
    destruct (existsb
                (fun a =>
                   needsLongDescription
                     (accessibility (ImageEntry.analysis a)))
                imageAnalyses);
    rewrite ?add_firstOccurrences, <- ?app_assoc, ?app_nil_r;
    reflexivity.
Qed.

(** C8.  The suggestions contain the recommendation of every issue as it
    is, contain no string twice, and list their elements in the order of
    first insertion: they are the sequence of the insertions (the
    recommendations in the order of the issues, then the general
    suggestions) with every repetition dropped. *)
Theorem suggestions_deduplicated :
  forall (issues : list AccessibilityIssue)
         (imageAnalyses : list ImageEntry.t),
    let s :=
      AccessibilityChecker.generateEnhancedSuggestions issues imageAnalyses in
    (forall issue, In issue issues -> In (Issue.recommendation issue) s)
    /\ NoDup s
    /\ s = Spec.firstOccurrences
             (map Issue.recommendation issues
                ++ Spec.generalSuggestions issues imageAnalyses).
Proof.
  intros issues imageAnalyses s. subst s.
  rewrite generateEnhancedSuggestions_firstOccurrences.
  split; [|split].
  - intros issue Hin. apply firstOccurrences_In, in_or_app. left.
    apply in_map. exact Hin.
  - apply firstOccurrences_NoDup.
  - reflexivity.
Qed.

(** C8 on two contrast issues, which carry the same recommendation. *)
Lemma suggestions_deduplicated_witness :
  let issues :=
    [AccessibilityChecker.contrastIssue 0;
     AccessibilityChecker.contrastIssue 1] in
  In (Issue.recommendation (AccessibilityChecker.contrastIssue 1))
    (AccessibilityChecker.generateEnhancedSuggestions issues [])
  /\ AccessibilityChecker.generateEnhancedSuggestions issues []
     = ["Verify color contrast meets WCAG AA standards (4.5:1 ratio)";
        AccessibilityChecker.contrastAdvice].
Proof.
  intros issues.
  destruct (suggestions_deduplicated issues []) as (Hin & _ & Heq).
  split.
  - apply Hin. right. left. reflexivity.
  - rewrite Heq. reflexivity.
Defined.

(* ================================================================== *)
(** ** The image checks of the validator *)
(* ================================================================== *)

Lemma truthy_length (a : string) :
  negb (JS.truthy a) = (String.length a =? 0).
Proof. destruct a; reflexivity. Qed.

Lemma forEachFrom_length_le {A B : Type} (f : nat -> A -> list B)
  (xs : list A) (i : nat) :
  (forall j x, List.length (f j x) <= 1) ->
  List.length (forEachFrom f i xs) <= List.length xs.
Proof.
  intros Hone. revert i.
  induction xs as [|x xs IH]; intros i; simpl; [lia|].
  rewrite length_app.
  pose proof (Hone i x). pose proof (IH (S i)). lia.
Qed.

Lemma validateImage_cases (index : nat) (image : Image) :
  WCAGValidator.validateImage index image
  = let element := Spec.imageElement index image in
    if Spec.altMissing image then [WCAGValidator.missingAlt element]
    else if Spec.altOver125 image then [WCAGValidator.altTooLong element]
    else if Spec.altGenericTerm image then [WCAGValidator.altGeneric element]
    else [].
Proof.
  unfold WCAGValidator.validateImage, Spec.altMissing, Spec.altOver125,
    Spec.altGenericTerm, Spec.imageElement.
  destruct (alt image) as [a|]; [|reflexivity].
  rewrite truthy_length. reflexivity.
Qed.

Lemma validateImage_length (index : nat) (image : Image) :
  List.length (WCAGValidator.validateImage index image) <= 1.
Proof.
  rewrite validateImage_cases. simpl.
  destruct (Spec.altMissing image); [simpl; lia|].
  destruct (Spec.altOver125 image); [simpl; lia|].
  destruct (Spec.altGenericTerm image); simpl; lia.
Qed.

(** C9.  The image checks emit at most one result for an image.  A missing
    or empty alt text gives the missing-alt result alone; otherwise an alt
    text over 125 characters gives the too-long result alone; otherwise a
    generic alt text gives the generic result alone; otherwise nothing.  So
    the results for a list of images are never more than the images. *)
Theorem validateImage_at_most_one :
  forall (index : nat) (image : Image),
    let element := Spec.imageElement index image in
    let results := WCAGValidator.validateImage index image in
    List.length results <= 1
    /\ (Spec.altMissing image = true ->
        results = [WCAGValidator.missingAlt element])
    /\ (Spec.altMissing image = false -> Spec.altOver125 image = true ->
        results = [WCAGValidator.altTooLong element])
    /\ (Spec.altMissing image = false -> Spec.altOver125 image = false ->
        Spec.altGenericTerm image = true ->
        results = [WCAGValidator.altGeneric element])
    /\ (Spec.altMissing image = false -> Spec.altOver125 image = false ->
        Spec.altGenericTerm image = false ->
        results = [])
    /\ (forall images,
           WCAGValidator.validateImages images
           = forEach WCAGValidator.validateImage images
           /\ List.length (WCAGValidator.validateImages images)
              <= List.length images).
Proof.
  intros index image element results. subst results element.
  split; [apply validateImage_length|].
  rewrite validateImage_cases. simpl.
  split; [intros ->; reflexivity|].
  split; [intros -> ->; reflexivity|].
  split; [intros -> -> ->; reflexivity|].
  split; [intros -> -> ->; reflexivity|].
  intros images. split; [reflexivity|].
  apply forEachFrom_length_le. apply validateImage_length.
Qed.

(** C9 on four images: no alt text; an alt text of 130 characters that is
    also generic; a generic alt text; a descriptive alt text. *)
Lemma validateImage_at_most_one_witness :
  let long := "photo " +++ JS.str (repeat "x"%char 124) in
  let imageOf a :=
    {| src := "a.jpg"; alt := a; data := None; mimeType := None |} in
  map message (WCAGValidator.validateImage 0 (imageOf None))
  = ["Image is missing alt text"]
  /\ map message (WCAGValidator.validateImage 0 (imageOf (Some long)))
     = ["Alt text is too long (over 125 characters)"]
  /\ map message (WCAGValidator.validateImage 0 (imageOf (Some "Logo")))
     = ["Alt text appears to be generic or non-descriptive"]
  /\ WCAGValidator.validateImage 0 (imageOf (Some "A red bicycle")) = [].
Proof.
  intros long imageOf.
  split; [|split; [|split]].
  - destruct (validateImage_at_most_one 0 (imageOf None))
      as (_ & H & _).
    rewrite (H eq_refl). reflexivity.
  - destruct (validateImage_at_most_one 0 (imageOf (Some long)))
      as (_ & _ & H & _).
    rewrite (H eq_refl eq_refl). reflexivity.
  - destruct (validateImage_at_most_one 0 (imageOf (Some "Logo")))
      as (_ & _ & _ & H & _).
    rewrite (H eq_refl eq_refl eq_refl). reflexivity.
  - destruct (validateImage_at_most_one 0 (imageOf (Some "A red bicycle")))
      as (_ & _ & _ & _ & H & _).
    exact (H eq_refl eq_refl eq_refl).
Defined.

(* ================================================================== *)
(** ** Images without inline data *)
(* ================================================================== *)

Lemma hasImageData_lacking (image : Image) :
  data image = None \/ mimeType image = None ->
  AccessibilityChecker.hasImageData image = false.
Proof.
  unfold AccessibilityChecker.hasImageData.
  intros [H | H]; rewrite H; simpl; [reflexivity | apply andb_false_r].
Qed.

Section NoData.
Context {World : Type} {JP : JSONPackage}.
Variable client : GeminiClient World.

(** An image that fails the test [image.data && image.mimeType] is skipped:
    no call, no entry, no issue. *)
Lemma analyzeEntry_skipped content index image w :
  AccessibilityChecker.hasImageData image = false ->
  AccessibilityChecker.analyzeEntry client content index image w
  = ([], [], w).
Proof.
  unfold AccessibilityChecker.hasImageData,
    AccessibilityChecker.analyzeEntry.
  destruct (data image) as [d|]; [|reflexivity].
  destruct (mimeType image) as [m|]; [|reflexivity].
  simpl. intros ->. reflexivity.
Qed.

(** Every entry of [imageAnalyses] is for an image that passes the test,
    and the entries follow the order of the image list. *)
Lemma analyzeImagesFrom_sources content images i w :
  map ImageEntry.src
    (fst (fst (AccessibilityChecker.analyzeImagesFrom client content i
                 images w)))
  = map src (filter AccessibilityChecker.hasImageData images).
Proof.
  revert i w.
  induction images as [|image rest IH]; intros i w; simpl; [reflexivity|].
  destruct (AccessibilityChecker.hasImageData image) eqn:Hdata.
  - unfold AccessibilityChecker.analyzeEntry.
    unfold AccessibilityChecker.hasImageData in Hdata.
    destruct (data image) as [d|]; [|discriminate Hdata].
    destruct (mimeType image) as [m|];
      [|simpl in Hdata; rewrite andb_false_r in Hdata; discriminate Hdata].
    simpl in Hdata. rewrite Hdata.
    destruct (ImageAnalyzer.analyzeImage client d m
                (AccessibilityChecker.extractImageContext content (src image))
                w) as [a w1].
    specialize (IH (S i) w1).
    destruct (AccessibilityChecker.analyzeImagesFrom client content (S i)
                rest w1) as [[e2 i2] w2].
    simpl in *. rewrite IH. reflexivity.
  - rewrite (analyzeEntry_skipped content i image w Hdata).
    specialize (IH (S i) w).
    destruct (AccessibilityChecker.analyzeImagesFrom client content (S i)
                rest w) as [[e2 i2] w2].
    simpl in *. exact IH.
Qed.

End NoData.

(** C10.  An image whose descriptor lacks [data] or lacks [mimeType] gets
    no AI analysis: the loop makes no call for it and adds neither an entry
    to [imageAnalyses] nor an issue, so in a report the entries and the AI
    image issues are those of the images before it followed by those of the
    images after it, and the sources of the entries are those of the images
    that carry both fields.  The validator's image checks still apply: the
    results for the image stand at its place in the validator's output and
    are the ones of the same descriptor without the two fields. *)
Theorem image_without_data_not_analyzed :
  forall (World : Type) (CP : ColorPackage) (JP : JSONPackage)
         (client : GeminiClient World) content pre image post w,
    data image = None \/ mimeType image = None ->
    let index := List.length pre in
    let images := Some (pre ++ image :: post) in
    let r :=
      fst (AccessibilityChecker.checkContent client content images w) in
    let preRun :=
      AccessibilityChecker.analyzeImagesFrom client content 0 pre w in
    let postRun :=
      AccessibilityChecker.analyzeImagesFrom client content (S index) post
        (snd preRun) in
    AccessibilityChecker.analyzeEntry client content index image (snd preRun)
    = ([], [], snd preRun)
    /\ Report.imageAnalyses r = fst (fst preRun) ++ fst (fst postRun)
    /\ AccessibilityChecker.aiImageIssues client content images w
       = snd (fst preRun) ++ snd (fst postRun)
    /\ map ImageEntry.src (Report.imageAnalyses r)
       = map src
           (filter AccessibilityChecker.hasImageData (pre ++ post))
    /\ WCAGValidator.validateImages (pre ++ image :: post)
       = WCAGValidator.validateImages pre
           ++ WCAGValidator.validateImage index image
           ++ forEachFrom WCAGValidator.validateImage (S index) post
    /\ WCAGValidator.validateImage index image
       = WCAGValidator.validateImage index (Spec.withoutData image)
    /\ (exists rest,
           Report.issues r
           = AccessibilityChecker.convertResults
               (WCAGValidator.validateImages pre
                  ++ WCAGValidator.validateImage index image)
               ++ rest).
Proof.
  intros World CP JP client content pre image post w Hlack
    index images r preRun postRun.
  pose proof (hasImageData_lacking image Hlack) as Hskip.
  assert (Hloop :
    AccessibilityChecker.analyzeImages client content images w
    = (fst (fst preRun) ++ fst (fst postRun),
       snd (fst preRun) ++ snd (fst postRun), snd postRun)).
  { unfold images, AccessibilityChecker.analyzeImages.
    rewrite analyzeImagesFrom_app. fold preRun.
    destruct preRun as [[e1 i1] w1] eqn:Hpre. simpl.
    rewrite (analyzeEntry_skipped client content (List.length pre) image w1
               Hskip).
    subst postRun. simpl. fold index.
    destruct (AccessibilityChecker.analyzeImagesFrom client content
                (S index) post w1) as [[e2 i2] w2].
    reflexivity. }
  split; [apply analyzeEntry_skipped; exact Hskip|].
  split; [unfold r; rewrite checkContent_imageAnalyses, Hloop; reflexivity|].
  split; [unfold AccessibilityChecker.aiImageIssues; rewrite Hloop;
          reflexivity|].
  split.
  { unfold r. rewrite checkContent_imageAnalyses.
    unfold images, AccessibilityChecker.analyzeImages.
    rewrite analyzeImagesFrom_sources, !filter_app. simpl.
    rewrite Hskip. reflexivity. }
  split.
  { unfold WCAGValidator.validateImages, forEach.
    rewrite forEachFrom_app. simpl.
    replace (List.length pre + 1) with (S index) by (subst index; lia).
    reflexivity. }
  split; [reflexivity|].
  assert (Hsplit :
    WCAGValidator.validateContent content (pre ++ image :: post)
    = (WCAGValidator.validateImages pre
         ++ WCAGValidator.validateImage index image)
        ++ (forEachFrom WCAGValidator.validateImage (S index) post
              ++ WCAGValidator.validateHeadings content
              ++ WCAGValidator.validateColorContrast content
              ++ WCAGValidator.validateSemanticStructure content
              ++ WCAGValidator.validateARIA content)).
  { unfold WCAGValidator.validateContent, WCAGValidator.validateImages,
      forEach.
    rewrite forEachFrom_app. simpl.
    replace (List.length pre + 1) with (S index) by (subst index; lia).
    fold index. rewrite <- !app_assoc. reflexivity. }
  unfold r. rewrite checkContent_issues.
  unfold AccessibilityChecker.ruleIssues, images,
    AccessibilityChecker.convertResults, forEach.
  rewrite Hsplit, forEachFrom_app, <- app_assoc.
  eexists. reflexivity.
Qed.

(** C10 on three images of which the second has neither data nor alt
    text: the provider is asked about the first and the third only, and the
    validator still reports the missing alt text of the second. *)
Lemma image_without_data_not_analyzed_witness :
  let client := Fixtures.scriptedClient (Rejected "unavailable") in
  let content := "<h1>Title</h1>" in
  let a := Fixtures.inline "a.jpg" (Some "A red bicycle against a wall") in
  let b := Fixtures.bare "b.jpg" in
  let c := Fixtures.inline "c.jpg" (Some "Sales by quarter") in
  let w := [Resolved "hasText: true"; Resolved "needsLongDescription: true"] in
  let r := Fixtures.checkContent client content (Some ([a] ++ b :: [c])) w in
  data b = None
  /\ map ImageEntry.src (Report.imageAnalyses r) = ["a.jpg"; "c.jpg"]
  /\ map Issue.id
       (@AccessibilityChecker.aiImageIssues _ Fixtures.emptyObjectJSON
          client content (Some ([a] ++ b :: [c])) w)
     = ["text-in-image-0"; "complex-image-2"]
  /\ map message (WCAGValidator.validateImages ([a] ++ b :: [c]))
     = ["Image is missing alt text"].
Proof.
  intros client content a b c w r.
  destruct
    (image_without_data_not_analyzed _ Fixtures.blackAndWhite
       Fixtures.emptyObjectJSON client content [a] b [c] w
       (or_introl eq_refl))
    as (_ & _ & Hissues & Hsources & Hrules & _).
  split; [reflexivity|].
  split; [unfold r, Fixtures.checkContent; rewrite Hsources; reflexivity|].
  split; [rewrite Hissues; reflexivity|].
  rewrite Hrules. reflexivity.
Defined.

(* ================================================================== *)
(** ** More on the score *)
(* ================================================================== *)

Lemma deduction_app (a b : list ValidationResult) :
  Spec.deduction (a ++ b) = (Spec.deduction a + Spec.deduction b)%Z.
Proof.
  induction a as [|r a IH]; simpl; [reflexivity|]. rewrite IH. lia.
Qed.

Lemma deduction_permutation (a b : list ValidationResult) :
  Permutation a b -> Spec.deduction a = Spec.deduction b.
Proof.
  induction 1 as [| r a b _ IH | r1 r2 a | a b c _ IH1 _ IH2]; simpl.
  - reflexivity.
  - rewrite IH. reflexivity.
  - lia.
  - rewrite IH1. exact IH2.
Qed.

(** X1.  The score does not depend on the order of the results: two lists
    that are permutations of each other have the same score. *)
Theorem calculateScore_permutation :
  forall a b : list ValidationResult,
    Permutation a b ->
    WCAGValidator.calculateScore a = WCAGValidator.calculateScore b.
Proof.
  intros a b Hperm.
  rewrite !calculateScore_deduction, (deduction_permutation a b Hperm).
  reflexivity.
Qed.

(** X1 on a high, a passed and a low result, rotated. *)
Lemma calculateScore_permutation_witness :
  let ok :=
    {| ruleId := "1.1.1"; passed := true; severity := high; element := None;
       message := "fine"; suggestion := "none"; autoFixable := false |} in
  WCAGValidator.calculateScore
    [Fixtures.failure high; ok; Fixtures.failure low]
  = WCAGValidator.calculateScore
      [ok; Fixtures.failure low; Fixtures.failure high].
Proof.
  intros ok.
  apply calculateScore_permutation.
  apply (Permutation_cons_app [ok; Fixtures.failure low] []
           (Fixtures.failure high)).
  simpl. apply Permutation_refl.
Defined.

(** X2.  More results never raise the score; results with [passed = true]
    leave it as it is; and once the weights of the failed results add up to
    100 the score is 0, and stays 0 whatever is added. *)
Theorem calculateScore_monotone :
  forall a b : list ValidationResult,
    (WCAGValidator.calculateScore (a ++ b)
     <= WCAGValidator.calculateScore a)%Z
    /\ (forallb passed b = true ->
        WCAGValidator.calculateScore (a ++ b)
        = WCAGValidator.calculateScore a)
    /\ ((100 <= Spec.deduction a)%Z ->
        WCAGValidator.calculateScore (a ++ b) = 0%Z).
Proof.
  intros a b.
  rewrite !calculateScore_deduction, deduction_app.
  pose proof (deduction_nonneg a). pose proof (deduction_nonneg b).
  split; [lia|]. split; [|lia].
  intros Hpassed.
  assert (Hb : Spec.deduction b = 0%Z).
  { clear -Hpassed. induction b as [|r b IH]; [reflexivity|].
    simpl in *. apply andb_prop in Hpassed. destruct Hpassed as [-> Hb].
    rewrite (IH Hb). reflexivity. }
  rewrite Hb. f_equal. lia.
Qed.

(** X2 on seven high failures followed by a low one. *)
Lemma calculateScore_monotone_witness :
  (100 <= Spec.deduction (repeat (Fixtures.failure high) 7))%Z
  /\ WCAGValidator.calculateScore
       (repeat (Fixtures.failure high) 7 ++ [Fixtures.failure low]) = 0%Z.
Proof.
  split; [vm_compute; discriminate|].
  destruct (calculateScore_monotone (repeat (Fixtures.failure high) 7)
              [Fixtures.failure low]) as (_ & _ & Hzero).
  apply Hzero. vm_compute. discriminate.
Defined.

(* ================================================================== *)
(** ** What the validator emits *)
(* ================================================================== *)

Lemma Forall_forEachFrom {A B : Type} (P : B -> Prop)
  (f : nat -> A -> list B) :
  (forall i x, Forall P (f i x)) ->
  forall xs i, Forall P (forEachFrom f i xs).
Proof.
  intros Hf. induction xs as [|x xs IH]; intros i; simpl.
  - constructor.
  - apply Forall_app. split; [apply Hf | apply IH].
Qed.

Lemma Forall_flat_map_all {A B : Type} (P : B -> Prop) (f : A -> list B) :
  (forall x, Forall P (f x)) ->
  forall xs, Forall P (flat_map f xs).
Proof.
  intros Hf. induction xs as [|x xs IH]; simpl.
  - constructor.
  - apply Forall_app. split; [apply Hf | exact IH].
Qed.

Lemma validateImages_results (images : list Image) :
  Forall (Facts.failedUnder "1.1.1") (WCAGValidator.validateImages images).
Proof.
  apply Forall_forEachFrom. intros i image.
  rewrite validateImage_cases. simpl.
  destruct (Spec.altMissing image); [repeat constructor|].
  destruct (Spec.altOver125 image); [repeat constructor|].
  destruct (Spec.altGenericTerm image); repeat constructor.
Qed.

Lemma checkHierarchyFrom_results (rest : list WCAGValidator.Heading) :
  forall i previous,
    Forall (Facts.failedUnder "1.3.1")
      (WCAGValidator.checkHierarchyFrom i previous rest).
Proof.
  induction rest as [|current rest IH]; intros i previous; simpl.
  - constructor.
  - apply Forall_app. split; [|apply IH].
    destruct (_ <? _); repeat constructor.
Qed.

Lemma validateHeadings_results (content : string) :
  Forall (fun r => passed r = false
                   /\ (ruleId r = "2.4.6" \/ ruleId r = "1.3.1"))
    (WCAGValidator.validateHeadings content).
Proof.
  unfold WCAGValidator.validateHeadings.
  repeat (apply Forall_app; split).
  - unfold WCAGValidator.checkH1.
    destruct (_ =? 0); [repeat constructor; auto|].
    destruct (1 <? _); repeat constructor; auto.
  - unfold WCAGValidator.checkHierarchy.
    destruct (WCAGValidator.extractHeadings content) as [|h0 rest];
      [constructor|].
    eapply Forall_impl; [|apply checkHierarchyFrom_results].
    intros r [Hp Hr]. auto.
  - apply Forall_forEachFrom. intros i h.
    unfold WCAGValidator.checkHeadingText.
    destruct (_ || _); [repeat constructor; auto|].
    destruct (_ <? 3); repeat constructor; auto.
Qed.

Lemma validateColorContrast_results `{ColorPackage} (content : string) :
  Forall (Facts.failedUnder "1.4.3") (WCAGValidator.validateColorContrast content).
Proof.
  apply Forall_flat_map_all. intros m.
  unfold WCAGValidator.checkStyle.
  destruct (RegExp.exec _ WCAGValidator.colorDeclRegex _); [|constructor].
  destruct (RegExp.exec _ WCAGValidator.bgColorDeclRegex _); [|constructor].
  destruct (Color _); [|repeat constructor].
  destruct (Color _); [|repeat constructor].
  destruct (Qlt_bool _ _); repeat constructor.
Qed.

Lemma validateSemanticStructure_results (content : string) :
  Forall (Facts.failedUnder "1.3.1")
    (WCAGValidator.validateSemanticStructure content).
Proof.
  unfold WCAGValidator.validateSemanticStructure.
  apply Forall_app. split; apply Forall_flat_map_all; intros m.
  - unfold WCAGValidator.checkList. destruct (_ =? 0); repeat constructor.
  - unfold WCAGValidator.checkTable. destruct (negb _); repeat constructor.
Qed.

Lemma validateARIA_results (content : string) :
  Forall (Facts.failedUnder "4.1.2") (WCAGValidator.validateARIA content).
Proof.
  unfold WCAGValidator.validateARIA.
  apply Forall_app. split; apply Forall_flat_map_all; intros m.
  - unfold WCAGValidator.checkInteractive.
    apply Forall_app. split.
    + destruct (_ && _); [|constructor].
      destruct (RegExp.exec _ _ _); [|repeat constructor].
      destruct (negb _); repeat constructor.
    + destruct (_ && _); repeat constructor.
  - unfold WCAGValidator.checkAriaAttribute.
    destruct (negb _); repeat constructor.
Qed.

Lemma validateContent_results `{ColorPackage} content images :
  Forall (fun r => passed r = false /\ In (ruleId r) Facts.ruleIds)
    (WCAGValidator.validateContent content images).
Proof.
  unfold WCAGValidator.validateContent.
  apply Forall_app. split.
  { eapply Forall_impl; [|apply validateImages_results].
    intros r [Hp ->]. split; [exact Hp | simpl; auto]. }
  apply Forall_app. split.
  { eapply Forall_impl; [|apply validateHeadings_results].
    intros r [Hp [-> | ->]]; (split; [exact Hp | simpl; auto 6]). }
  apply Forall_app. split.
  { eapply Forall_impl; [|apply validateColorContrast_results].
    intros r [Hp ->]. split; [exact Hp | simpl; auto]. }
  apply Forall_app. split.
  { eapply Forall_impl; [|apply validateSemanticStructure_results].
    intros r [Hp ->]. split; [exact Hp | simpl; auto]. }
  eapply Forall_impl; [|apply validateARIA_results].
  intros r [Hp ->]. split; [exact Hp | simpl; auto 6].
Qed.

Lemma deduction_all_failed (results : list ValidationResult) :
  Forall (fun r => passed r = false) results ->
  Spec.deduction results
  = fold_right Z.add 0%Z (map (fun r => Spec.weight (severity r)) results).
Proof.
  induction 1 as [|r results Hr _ IH]; simpl; [reflexivity|].
  rewrite Hr, IH. reflexivity.
Qed.

Lemma convertResults_length (results : list ValidationResult) :
  Forall (fun r => passed r = false) results ->
  forall i,
    List.length (forEachFrom AccessibilityChecker.convertResult i results)
    = List.length results.
Proof.
  induction 1 as [|r results Hr _ IH]; intros i; simpl; [reflexivity|].
  unfold AccessibilityChecker.convertResult at 1. rewrite Hr. simpl.
  rewrite IH. reflexivity.
Qed.

(** X3.  Every result [validateContent] emits has [passed = false].  So
    [checkContent] turns each result into one issue (the rule issues are as
    many as the results), and the score is 100 minus the weights of all the
    results, clamped at 0. *)
Theorem validateContent_all_failed :
  forall (CP : ColorPackage) content (images : option (list Image)),
    let results :=
      WCAGValidator.validateContent content
        (match images with Some l => l | None => [] end) in
    Forall (fun r => passed r = false) results
    /\ List.length (AccessibilityChecker.ruleIssues content images)
       = List.length results
    /\ WCAGValidator.calculateScore results
       = Z.max 0
           (100 - fold_right Z.add 0%Z
                    (map (fun r => Spec.weight (severity r)) results)).
Proof.
  intros CP content images results.
  assert (Hfailed : Forall (fun r => passed r = false) results).
  { eapply Forall_impl; [|apply validateContent_results].
    intros r [Hp _]. exact Hp. }
  split; [exact Hfailed|]. split.
  - apply convertResults_length. exact Hfailed.
  - rewrite calculateScore_deduction, (deduction_all_failed _ Hfailed).
    reflexivity.
Qed.

(** X4.  Each check of the validator emits results under its own rule:
    images under 1.1.1, headings under 2.4.6 or (for a skipped level) 1.3.1,
    contrast under 1.4.3, semantic structure under 1.3.1, ARIA under 4.1.2.
    So the rule id of every result is one of the five that
    [mapWCAGRuleToType] maps, and its default is never taken. *)
Theorem validator_rule_ids :
  forall (CP : ColorPackage) content (images : list Image),
    Forall (fun r => ruleId r = "1.1.1") (WCAGValidator.validateImages images)
    /\ Forall (fun r => ruleId r = "2.4.6" \/ ruleId r = "1.3.1")
         (WCAGValidator.validateHeadings content)
    /\ Forall (fun r => ruleId r = "1.4.3")
         (WCAGValidator.validateColorContrast content)
    /\ Forall (fun r => ruleId r = "1.3.1")
         (WCAGValidator.validateSemanticStructure content)
    /\ Forall (fun r => ruleId r = "4.1.2") (WCAGValidator.validateARIA content)
    /\ Forall (fun r => In (ruleId r) Facts.ruleIds)
         (WCAGValidator.validateContent content images).
Proof.
  intros CP content images.
  repeat split.
  - eapply Forall_impl; [|apply validateImages_results]. intros r [_ H]; exact H.
  - eapply Forall_impl; [|apply validateHeadings_results].
    intros r [_ H]; exact H.
  - eapply Forall_impl; [|apply validateColorContrast_results].
    intros r [_ H]; exact H.
  - eapply Forall_impl; [|apply validateSemanticStructure_results].
    intros r [_ H]; exact H.
  - eapply Forall_impl; [|apply validateARIA_results]. intros r [_ H]; exact H.
  - eapply Forall_impl; [|apply validateContent_results].
    intros r [_ H]; exact H.
Qed.

(* ================================================================== *)
(** ** The identifiers of the issues *)
(* ================================================================== *)

Lemma ofNat_inj (n m : nat) : JS.ofNat n = JS.ofNat m -> n = m.
Proof.
  unfold JS.ofNat. intros H.
  apply (f_equal NilEmpty.uint_of_string) in H.
  rewrite !NilEmpty.usu in H. injection H as H.
  rewrite <- (Unsigned.of_to n), <- (Unsigned.of_to m), H. reflexivity.
Qed.

Lemma string_of_uint_noHyphen (d : Decimal.uint) :
  Facts.hasHyphen (NilEmpty.string_of_uint d) = false.
Proof.
  induction d; simpl; try reflexivity; exact IHd.
Qed.

Lemma ofNat_noHyphen (n : nat) : Facts.hasHyphen (JS.ofNat n) = false.
Proof. apply string_of_uint_noHyphen. Qed.

Lemma hasHyphen_middle (a b : string) :
  Facts.hasHyphen (a +++ String "-"%char b) = true.
Proof.
  induction a as [|c a IH]; simpl; [reflexivity|].
  unfold Facts.hasHyphen in *. simpl. rewrite IH. apply orb_true_r.
Qed.

(** A prefix, a hyphen and a number: both can be read back. *)
Lemma tagged_inj (p1 : string) :
  forall p2 d1 d2,
    Facts.hasHyphen d1 = false -> Facts.hasHyphen d2 = false ->
    p1 +++ "-" +++ d1 = p2 +++ "-" +++ d2 ->
    p1 = p2 /\ d1 = d2.
Proof.
  induction p1 as [|c p1 IH]; intros [|c2 p2] d1 d2 H1 H2 Heq; simpl in Heq.
  - injection Heq as ->. split; reflexivity.
  - injection Heq as <- ->. rewrite hasHyphen_middle in H1. discriminate H1.
  - injection Heq as -> <-. rewrite hasHyphen_middle in H2. discriminate H2.
  - injection Heq as -> Heq.
    destruct (IH p2 d1 d2 H1 H2 Heq) as [-> ->]. split; reflexivity.
Qed.

Lemma render_injective : Injective Facts.render.
Proof.
  intros [p1 n1] [p2 n2] Heq. unfold Facts.render in Heq. simpl in Heq.
  apply tagged_inj in Heq; try apply ofNat_noHyphen.
  destruct Heq as [-> Hn]. apply ofNat_inj in Hn. subst. reflexivity.
Qed.

Lemma block_nil (lo hi i : nat) : Facts.block lo hi i [].
Proof. exists []. repeat split; constructor. Qed.

Lemma block_one (lo hi i : nat) (x : AccessibilityIssue) (p : string) :
  Issue.id x = p +++ "-" +++ JS.ofNat i ->
  lo <= Facts.family p <= hi ->
  Facts.block lo hi i [x].
Proof.
  intros Hid Hfam. exists [(p, i)]. simpl. rewrite Hid.
  split; [reflexivity|]. split.
  - constructor; [intros [] | constructor].
  - constructor; [split; [exact Hfam | reflexivity] | constructor].
Qed.

(** Two blocks of the same index whose families do not meet. *)
Lemma block_app (lo mid hi i : nat) (a b : list AccessibilityIssue) :
  lo <= S mid <= S hi ->
  Facts.block lo mid i a -> Facts.block (S mid) hi i b ->
  Facts.block lo hi i (a ++ b).
Proof.
  intros Hmid (ka & Ha & Na & Fa) (kb & Hb & Nb & Fb).
  exists (ka ++ kb). rewrite !map_app, Ha, Hb.
  split; [reflexivity|]. split.
  - apply NoDup_app; [exact Na | exact Nb |].
    intros k Hina Hinb.
    rewrite Forall_forall in Fa, Fb.
    pose proof (Fa k Hina). pose proof (Fb k Hinb). lia.
  - apply Forall_app. split.
    + eapply Forall_impl; [|exact Fa]. simpl. intros k [H1 H2]. lia.
    + eapply Forall_impl; [|exact Fb]. simpl. intros k [H1 H2]. lia.
Qed.

(** A block for the index [i] followed by a segment from [S i] on. *)
Lemma segment_cons (lo hi i : nat) (a b : list AccessibilityIssue) :
  Facts.block lo hi i a -> Facts.segment lo hi (S i) b ->
  Facts.segment lo hi i (a ++ b).
Proof.
  intros (ka & Ha & Na & Fa) (kb & Hb & Nb & Fb).
  exists (ka ++ kb). rewrite !map_app, Ha, Hb.
  split; [reflexivity|]. split.
  - apply NoDup_app; [exact Na | exact Nb |].
    intros k Hina Hinb.
    rewrite Forall_forall in Fa, Fb.
    pose proof (Fa k Hina). pose proof (Fb k Hinb). lia.
  - apply Forall_app. split.
    + eapply Forall_impl; [|exact Fa]. simpl. intros k [H1 H2]. lia.
    + eapply Forall_impl; [|exact Fb]. simpl. intros k [H1 H2]. lia.
Qed.

Lemma segment_nil (lo hi i : nat) : Facts.segment lo hi i [].
Proof. exists []. repeat split; constructor. Qed.

Lemma segment_weaken (lo hi i j : nat) (l : list AccessibilityIssue) :
  j <= i -> Facts.segment lo hi i l -> Facts.segment lo hi j l.
Proof.
  intros Hji (ks & Hk & Nk & Fk). exists ks.
  split; [exact Hk|]. split; [exact Nk|].
  eapply Forall_impl; [|exact Fk]. simpl. intros k [H1 H2]. lia.
Qed.

(** Two segments whose families do not meet. *)
Lemma segment_app (lo mid hi i j : nat) (a b : list AccessibilityIssue) :
  lo <= S mid <= S hi ->
  Facts.segment lo mid i a -> Facts.segment (S mid) hi j b ->
  Facts.segment lo hi 0 (a ++ b).
Proof.
  intros Hmid (ka & Ha & Na & Fa) (kb & Hb & Nb & Fb).
  exists (ka ++ kb). rewrite !map_app, Ha, Hb.
  split; [reflexivity|]. split.
  - apply NoDup_app; [exact Na | exact Nb |].
    intros k Hina Hinb.
    rewrite Forall_forall in Fa, Fb.
    pose proof (Fa k Hina). pose proof (Fb k Hinb). lia.
  - apply Forall_app. split.
    + eapply Forall_impl; [|exact Fa]. simpl. intros k [H1 H2]. lia.
    + eapply Forall_impl; [|exact Fb]. simpl. intros k [H1 H2]. lia.
Qed.

Lemma segment_NoDup (lo hi i : nat) (l : list AccessibilityIssue) :
  Facts.segment lo hi i l -> NoDup (map Issue.id l).
Proof.
  intros (ks & Hk & Nk & _). rewrite Hk.
  apply Injective_map_NoDup; [exact render_injective | exact Nk].
Qed.

Lemma forEachFrom_segment {A : Type} (lo hi : nat)
  (f : nat -> A -> list AccessibilityIssue) :
  (forall j x, Facts.block lo hi j (f j x)) ->
  forall xs i, Facts.segment lo hi i (forEachFrom f i xs).
Proof.
  intros Hf. induction xs as [|x xs IH]; intros i; simpl.
  - apply segment_nil.
  - apply segment_cons; [apply Hf | apply IH].
Qed.

Lemma family_wcag (x : string) : Facts.family ("wcag-" +++ x) = 0.
Proof. unfold Facts.family. simpl. destruct x; reflexivity. Qed.

Lemma convertResult_block (j : nat) (r : ValidationResult) :
  Facts.block 0 0 j (AccessibilityChecker.convertResult j r).
Proof.
  unfold AccessibilityChecker.convertResult.
  destruct (negb (passed r)); [|apply block_nil].
  apply (block_one 0 0 j _ ("wcag-" +++ ruleId r)); [reflexivity|].
  rewrite family_wcag. lia.
Qed.

Lemma imageIssues_block content (index : nat) (image : Image)
  (analysis : ImageAnalysis) :
  Facts.block 1 3 index
    (AccessibilityChecker.imageIssues content index image analysis).
Proof.
  unfold AccessibilityChecker.imageIssues.
  apply (block_app 1 1 3); [lia | |apply (block_app 2 2 3); [lia | |]].
  - destruct (_ && _); [|apply block_nil].
    apply (block_one 1 1 index _ "ai-alt-text"); [reflexivity|].
    split; apply Nat.eq_le_incl; reflexivity.
  - destruct (_ && _); [|apply block_nil].
    apply (block_one 2 2 index _ "text-in-image"); [reflexivity|].
    split; apply Nat.eq_le_incl; reflexivity.
  - destruct (needsLongDescription _); [|apply block_nil].
    apply (block_one 3 3 index _ "complex-image"); [reflexivity|].
    split; apply Nat.eq_le_incl; reflexivity.
Qed.

Lemma analyzeEntry_block {World : Type} {JP : JSONPackage}
  (client : GeminiClient World) content index image w :
  Facts.block 1 3 index
    (snd (fst (AccessibilityChecker.analyzeEntry client content index
                 image w))).
Proof.
  unfold AccessibilityChecker.analyzeEntry.
  destruct (data image) as [d|]; [|apply block_nil].
  destruct (mimeType image) as [m|]; [|apply block_nil].
  destruct (_ && _); [|apply block_nil].
  destruct (ImageAnalyzer.analyzeImage client d m _ w) as [a w'].
  apply imageIssues_block.
Qed.

Lemma analyzeImagesFrom_segment {World : Type} {JP : JSONPackage}
  (client : GeminiClient World) content images :
  forall i w,
    Facts.segment 1 3 i
      (snd (fst (AccessibilityChecker.analyzeImagesFrom client content i
                   images w))).
Proof.
  induction images as [|image rest IH]; intros i w; simpl.
  - apply segment_nil.
  - pose proof (analyzeEntry_block client content i image w) as Hblock.
    destruct (AccessibilityChecker.analyzeEntry client content i image w)
      as [[e1 i1] w1].
    specialize (IH (S i) w1).
    destruct (AccessibilityChecker.analyzeImagesFrom client content (S i)
                rest w1) as [[e2 i2] w2].
    simpl in *. apply segment_cons; assumption.
Qed.

Lemma headingSkipsFrom_segment (rest : list WCAGValidator.Heading) :
  forall i previous,
    Facts.segment 4 4 i
      (AccessibilityChecker.headingSkipsFrom i previous rest).
Proof.
  induction rest as [|current rest IH]; intros i previous; simpl.
  - apply segment_nil.
  - apply segment_cons; [|apply IH].
    destruct (_ <? _); [|apply block_nil].
    apply (block_one 4 4 i _ "heading-skip"); [reflexivity|].
    split; apply Nat.eq_le_incl; reflexivity.
Qed.

Lemma headingEmpty_block (j : nat) (h : WCAGValidator.Heading) :
  Facts.block 5 5 j (AccessibilityChecker.headingEmpty j h).
Proof.
  unfold AccessibilityChecker.headingEmpty.
  destruct (_ || _); [|apply block_nil].
  apply (block_one 5 5 j _ "heading-empty"); [reflexivity|].
  split; apply Nat.eq_le_incl; reflexivity.
Qed.

Lemma checkHeadingStructure_segment (content : string) :
  Facts.segment 4 5 0 (AccessibilityChecker.checkHeadingStructure content).
Proof.
  unfold AccessibilityChecker.checkHeadingStructure.
  apply (segment_app 4 4 5 0 0); [lia | |].
  - unfold AccessibilityChecker.headingSkips.
    destruct (WCAGValidator.extractHeadings content) as [|h0 rest].
    + apply segment_nil.
    + apply (segment_weaken 4 4 1 0); [lia|].
      apply headingSkipsFrom_segment.
  - apply forEachFrom_segment. exact headingEmpty_block.
Qed.

Lemma contrastIssuesFrom_segment `{ColorPackage}
  (ms : list RegExp.result) :
  forall index,
    Facts.segment 6 6 index
      (AccessibilityChecker.contrastIssuesFrom ms index).
Proof.
  induction ms as [|m ms IH]; intros index; simpl.
  - apply segment_nil.
  - destruct (Color _) as [c|]; [|apply IH].
    destruct (Qlt_bool _ _); [|apply IH].
    apply (segment_cons 6 6 index [_]); [|apply IH].
    apply (block_one 6 6 index _ "contrast"); [reflexivity|].
    split; apply Nat.eq_le_incl; reflexivity.
Qed.

Lemma convertGeminiIssue_block (j : nat) (issue : RawIssue.t) :
  Facts.block 7 7 j (AccessibilityChecker.convertGeminiIssue j issue).
Proof.
  apply (block_one 7 7 j _ "gemini"); [reflexivity|].
  split; apply Nat.eq_le_incl; reflexivity.
Qed.

Lemma analyzeContent_segment {World : Type} (client : GeminiClient World)
  content w :
  Facts.segment 7 7 0
    (fst (AccessibilityChecker.analyzeContent client content w)).
Proof.
  unfold AccessibilityChecker.analyzeContent.
  destruct (analyzeContentAccessibility client content w) as [[g|e] w'];
    [|apply segment_nil].
  destruct (success g); [|apply segment_nil].
  destruct (analysis g) as [a|]; [|apply segment_nil]. simpl.
  unfold AccessibilityChecker.convertGeminiAnalysisToIssues.
  destruct (issues a) as [raw|]; [|apply segment_nil].
  apply forEachFrom_segment. exact convertGeminiIssue_block.
Qed.

(** X5.  The identifiers of the issues of a report are pairwise distinct,
    whatever the content, the images and the answers of the provider. *)
Theorem issue_ids_unique :
  forall (World : Type) (CP : ColorPackage) (JP : JSONPackage)
         (client : GeminiClient World) content images w,
    NoDup
      (map Issue.id
         (Report.issues
            (fst (AccessibilityChecker.checkContent client content
                    images w)))).
Proof.
  intros World CP JP client content images w.
  rewrite checkContent_issues.
  apply (segment_NoDup 0 7 0).
  apply (segment_app 0 0 7 0 0); [lia | |].
  { apply forEachFrom_segment. exact convertResult_block. }
  apply (segment_app 1 3 7 0 0); [lia | |].
  { unfold AccessibilityChecker.aiImageIssues,
      AccessibilityChecker.analyzeImages.
    destruct images as [l|]; [|apply segment_nil].
    apply analyzeImagesFrom_segment. }
  apply (segment_app 4 5 7 0 0); [lia | |].
  { apply checkHeadingStructure_segment. }
  apply (segment_app 6 6 7 0 0); [lia | |].
  { apply contrastIssuesFrom_segment. }
  apply analyzeContent_segment.
Qed.

(* ================================================================== *)
(** ** Findings reported twice *)
(* ================================================================== *)

Lemma hierarchy_mirrors (rest : list WCAGValidator.Heading) :
  forall i previous,
    Forall2 Facts.mirrors
      (WCAGValidator.checkHierarchyFrom i previous rest)
      (AccessibilityChecker.headingSkipsFrom i previous rest).
Proof.
  induction rest as [|current rest IH]; intros i previous; simpl.
  - constructor.
  - destruct (_ <? _); simpl; [constructor|]; try apply IH.
    repeat split.
Qed.

Lemma emptyHeadings_mirror (hs : list WCAGValidator.Heading) :
  forall i,
    Forall2 Facts.mirrors
      (filter Facts.isEmptyHeadingResult
         (forEachFrom WCAGValidator.checkHeadingText i hs))
      (forEachFrom AccessibilityChecker.headingEmpty i hs).
Proof.
  induction hs as [|h hs IH]; intros i; simpl.
  - constructor.
  - rewrite filter_app.
    unfold WCAGValidator.checkHeadingText at 1,
      AccessibilityChecker.headingEmpty at 1.
    destruct (_ || _); simpl.
    + constructor; [repeat split | apply IH].
    + destruct (_ <? 3); simpl; apply IH.
Qed.

(** X6.  The checker's own heading check repeats what the validator has
    found: for every content its issues correspond one for one, in order,
    with the validator's results for skipped levels followed by its results
    for empty headings (same element, severity and auto-fixability), and
    all of those results are in the validator's output.  So each skipped
    level and each empty heading is in the report twice. *)
Theorem heading_findings_reported_twice :
  forall content : string,
    let hs := WCAGValidator.extractHeadings content in
    let found :=
      WCAGValidator.checkHierarchy hs
        ++ filter Facts.isEmptyHeadingResult
             (forEach WCAGValidator.checkHeadingText hs) in
    Forall2 Facts.mirrors found
      (AccessibilityChecker.checkHeadingStructure content)
    /\ (forall r, In r found ->
                  In r (WCAGValidator.validateHeadings content))
    /\ List.length (AccessibilityChecker.checkHeadingStructure content)
       = List.length found.
Proof.
  intros content hs found.
  assert (Hmirror :
    Forall2 Facts.mirrors found
      (AccessibilityChecker.checkHeadingStructure content)).
  { unfold found, AccessibilityChecker.checkHeadingStructure. fold hs.
    apply Forall2_app.
    - unfold WCAGValidator.checkHierarchy, AccessibilityChecker.headingSkips.
      destruct hs as [|h0 rest]; [constructor | apply hierarchy_mirrors].
    - apply emptyHeadings_mirror. }
  split; [exact Hmirror|]. split.
  - intros r Hin. unfold found in Hin.
    unfold WCAGValidator.validateHeadings. fold hs.
    apply in_app_or in Hin. apply in_or_app. right. apply in_or_app.
    destruct Hin as [Hin | Hin]; [left; exact Hin|].
    right. apply filter_In in Hin. exact (proj1 Hin).
  - symmetry. exact (Forall2_length Hmirror).
Qed.

(** X6 on a document that goes from H1 to H3 and has an empty heading:
    both findings are in the output of the validator and, once more, in the
    checker's own heading issues. *)
Lemma heading_findings_reported_twice_witness :
  let content := "<h1>Title</h1><h3></h3>" in
  let found :=
    WCAGValidator.checkHierarchy (WCAGValidator.extractHeadings content)
      ++ filter Facts.isEmptyHeadingResult
           (forEach WCAGValidator.checkHeadingText
              (WCAGValidator.extractHeadings content)) in
  map message found
  = ["Heading level skips from H1 to H3"; "Heading is empty"]
  /\ Forall (fun r => In r (WCAGValidator.validateHeadings content)) found
  /\ map Issue.description
       (AccessibilityChecker.checkHeadingStructure content)
     = ["Heading level skips from h1 to h3"; "Heading is empty"].
Proof.
  intros content found.
  destruct (heading_findings_reported_twice content) as (_ & Hin & _).
  split; [reflexivity|]. split; [|reflexivity].
  apply Forall_forall. exact Hin.
Defined.

(* ================================================================== *)
(** ** The entries of [imageAnalyses] and the provider *)
(* ================================================================== *)

Lemma imageIssues_bound content index image analysis :
  List.length (AccessibilityChecker.imageIssues content index image analysis)
  <= 3
  /\ Forall (fun i => Issue.type i = IssueType.alt_text)
       (AccessibilityChecker.imageIssues content index image analysis).
Proof.
  unfold AccessibilityChecker.imageIssues.
  destruct (_ && _); destruct (_ && _); destruct (needsLongDescription _);
    simpl; (split; [lia | repeat constructor]).
Qed.

Lemma analyzeImagesFrom_bound {World : Type} {JP : JSONPackage}
  (client : GeminiClient World) content images :
  forall i w,
    let run :=
      AccessibilityChecker.analyzeImagesFrom client content i images w in
    List.length (snd (fst run)) <= 3 * List.length (fst (fst run))
    /\ Forall (fun i => Issue.type i = IssueType.alt_text) (snd (fst run)).
Proof.
  induction images as [|image rest IH]; intros i w; simpl.
  - split; [lia | constructor].
  - unfold AccessibilityChecker.analyzeEntry.
    destruct (data image) as [d|]; [destruct (mimeType image) as [m|]|];
      [destruct (JS.truthy d && JS.truthy m)| |].
    + destruct (ImageAnalyzer.analyzeImage client d m _ w) as [a w1].
      specialize (IH (S i) w1).
      destruct (AccessibilityChecker.analyzeImagesFrom client content (S i)
                  rest w1) as [[e2 i2] w2].
      simpl in *.
      destruct (imageIssues_bound content i image a) as [Hlen Htype].
      destruct IH as [IHlen IHtype].
      rewrite length_app. split; [lia | apply Forall_app; split; assumption].
    + specialize (IH (S i) w).
      destruct (AccessibilityChecker.analyzeImagesFrom client content (S i)
                  rest w) as [[e2 i2] w2].
      exact IH.
    + specialize (IH (S i) w).
      destruct (AccessibilityChecker.analyzeImagesFrom client content (S i)
                  rest w) as [[e2 i2] w2].
      exact IH.
    + specialize (IH (S i) w).
      destruct (AccessibilityChecker.analyzeImagesFrom client content (S i)
                  rest w) as [[e2 i2] w2].
      exact IH.
Qed.

(** X7.  Whatever the provider answers, [imageAnalyses] has one entry for
    each image that carries both [data] and [mimeType], in the order of the
    image list and under its source; each entry gives rise to at most three
    AI issues, and every AI issue of an image has the type alt-text. *)
Theorem image_analyses_follow_images :
  forall (World : Type) (CP : ColorPackage) (JP : JSONPackage)
         (client : GeminiClient World) content images w,
    let r :=
      fst (AccessibilityChecker.checkContent client content images w) in
    let l := match images with Some l => l | None => [] end in
    map ImageEntry.src (Report.imageAnalyses r)
    = map src (filter AccessibilityChecker.hasImageData l)
    /\ List.length (AccessibilityChecker.aiImageIssues client content images w)
       <= 3 * List.length (Report.imageAnalyses r)
    /\ Forall (fun i => Issue.type i = IssueType.alt_text)
         (AccessibilityChecker.aiImageIssues client content images w).
Proof.
  intros World CP JP client content images w r l. unfold r.
  rewrite checkContent_imageAnalyses.
  unfold AccessibilityChecker.aiImageIssues,
    AccessibilityChecker.analyzeImages.
  destruct images as [images|]; simpl.
  - split; [apply analyzeImagesFrom_sources|].
    apply (analyzeImagesFrom_bound client content images 0 w).
  - split; [reflexivity|]. split; [lia | constructor].
Qed.

Lemma analyzeImagesFrom_outage {World : Type} {JP : JSONPackage}
  (client : GeminiClient World) content images :
  Facts.visionDown client ->
  forall i w,
    let run :=
      AccessibilityChecker.analyzeImagesFrom client content i images w in
    fst (fst run)
    = map Facts.fallbackEntry
        (filter AccessibilityChecker.hasImageData images)
    /\ snd (fst run) = forEachFrom Facts.outageIssues i images.
Proof.
  intros Hdown.
  induction images as [|image rest IH]; intros i w; simpl.
  - split; reflexivity.
  - unfold Facts.outageIssues at 1.
    destruct (AccessibilityChecker.hasImageData image) eqn:Hdata.
    + unfold AccessibilityChecker.hasImageData in Hdata.
      destruct (data image) as [d|] eqn:Hd; [|discriminate Hdata].
      destruct (mimeType image) as [m|] eqn:Hm;
        [|simpl in Hdata; rewrite andb_false_r in Hdata; discriminate Hdata].
      simpl in Hdata. apply andb_prop in Hdata. destruct Hdata as [Htd Htm].
      destruct (Hdown
                  (ImageAnalyzer.buildAnalysisPrompt
                     (AccessibilityChecker.extractImageContext content
                        (src image))) d m w) as (msg & w1 & Hcall).
      rewrite (analyzeEntry_rejected client content i image d m msg w w1
                 Hd Hm Htd Htm Hcall).
      specialize (IH (S i) w1).
      destruct (AccessibilityChecker.analyzeImagesFrom client content (S i)
                  rest w1) as [[e2 i2] w2].
      simpl in *. destruct IH as [-> ->].
      split; [reflexivity|].
      unfold AccessibilityChecker.imageIssues. simpl.
      destruct (negb (JS.truthyOpt (alt image))); reflexivity.
    + rewrite (analyzeEntry_skipped client content i image w Hdata).
      specialize (IH (S i) w).
      destruct (AccessibilityChecker.analyzeImagesFrom client content (S i)
                  rest w) as [[e2 i2] w2].
      simpl in *. exact IH.
Qed.

(** X8.  When every call of the vision model rejects, the report still has
    an entry for each image with inline data, holding the placeholder
    analysis, and the AI issues of the images are exactly one
    [ai-alt-text] issue for each image that has inline data and no alt
    text, with the placeholder as the suggested alt text. *)
Theorem provider_outage :
  forall (World : Type) (CP : ColorPackage) (JP : JSONPackage)
         (client : GeminiClient World) content images w,
    Facts.visionDown client ->
    let r :=
      fst (AccessibilityChecker.checkContent client content (Some images) w) in
    Report.imageAnalyses r
    = map Facts.fallbackEntry
        (filter AccessibilityChecker.hasImageData images)
    /\ AccessibilityChecker.aiImageIssues client content (Some images) w
       = forEach Facts.outageIssues images.
Proof.
  intros World CP JP client content images w Hdown r. unfold r.
  rewrite checkContent_imageAnalyses.
  unfold AccessibilityChecker.aiImageIssues,
    AccessibilityChecker.analyzeImages.
  apply (analyzeImagesFrom_outage client content images Hdown 0 w).
Qed.

(** X8 with the mock client of the tests, on an image with inline data and
    no alt text, one with inline data and an alt text, and one without
    data. *)
Lemma provider_outage_witness :
  let images :=
    [Fixtures.inline "a.jpg" None;
     Fixtures.inline "b.jpg" (Some "A red bicycle against a wall");
     Fixtures.bare "c.jpg"] in
  Facts.visionDown Fixtures.mockGeminiClient
  /\ map Issue.id
       (@AccessibilityChecker.aiImageIssues unit Fixtures.emptyObjectJSON
          Fixtures.mockGeminiClient "<h1>Title</h1>" (Some images) tt)
     = ["ai-alt-text-0"]
  /\ map ImageEntry.src
       (Report.imageAnalyses
          (Fixtures.checkContent Fixtures.mockGeminiClient "<h1>Title</h1>"
             (Some images) tt))
     = ["a.jpg"; "b.jpg"].
Proof.
  intros images.
  assert (Hdown : Facts.visionDown Fixtures.mockGeminiClient).
  { intros prompt d m w. exists "TypeError", w. reflexivity. }
  destruct (provider_outage unit Fixtures.blackAndWhite
              Fixtures.emptyObjectJSON Fixtures.mockGeminiClient
              "<h1>Title</h1>" images tt Hdown) as [Hentries Hissues].
  split; [exact Hdown|]. split.
  - rewrite Hissues. reflexivity.
  - unfold Fixtures.checkContent. rewrite Hentries. reflexivity.
Defined.

(* ================================================================== *)
(** ** The content analysis through the client of the application *)
(* ================================================================== *)

(** X9.  With the client the application constructs, the content analysis
    never rejects, and it adds issues to a report only when the text model
    resolved with a text that holds a JSON object which [JSON.parse]
    accepts: a rejected call, a reply without an object and an object that
    does not parse all add nothing, and a parsed object adds the issues
    converted from its [issues] array. *)
Theorem content_analysis_of_client :
  forall (World : Type) (JP : JSONPackage)
         (textModel : string -> World -> Outcome string * World)
         (vision : string -> string -> string -> World
                   -> Outcome string * World)
         content w,
    let client := Gemini.client textModel vision in
    let call := textModel (Gemini.accessibilityPrompt content) w in
    (exists r,
        analyzeContentAccessibility client content w = (Resolved r, snd call))
    /\ (forall message,
           fst call = Rejected message ->
           AccessibilityChecker.analyzeContent client content w
           = ([], snd call))
    /\ (forall text,
           fst call = Resolved text ->
           RegExp.exec RegExp.flags_none Gemini.jsonRegex text = None ->
           AccessibilityChecker.analyzeContent client content w
           = ([], snd call))
    /\ (forall text m,
           fst call = Resolved text ->
           RegExp.exec RegExp.flags_none Gemini.jsonRegex text = Some m ->
           AccessibilityChecker.analyzeContent client content w
           = (match parseContentAnalysis (RegExp.whole m) with
              | Some a =>
                  AccessibilityChecker.convertGeminiAnalysisToIssues a
              | None => []
              end, snd call)).
Proof.
  intros World JP textModel vision content w client call.
  unfold AccessibilityChecker.analyzeContent, client. simpl.
  unfold Gemini.analyze. fold call.
  destruct call as [[text | message] w']; simpl.
  - split; [eexists; reflexivity|].
    split; [intros ? H; discriminate H|].
    unfold Gemini.parseAccessibilityAnalysis.
    split.
    + intros t Ht Hnone. injection Ht as <-. rewrite Hnone. reflexivity.
    + intros t m Ht Hsome. injection Ht as <-. rewrite Hsome.
      destruct (parseContentAnalysis (RegExp.whole m)); reflexivity.
  - split; [eexists; reflexivity|].
    split; [reflexivity|].
    split; intros; discriminate.
Qed.

(** X9 with a text model that rejects, and with one whose reply holds no
    JSON object. *)
Lemma content_analysis_of_client_witness :
  let vision := fun (_ _ _ : string) (w : unit) => (Rejected "down", w) in
  let down := fun (_ : string) (w : unit) => (Rejected "quota", w) in
  let prose :=
    fun (_ : string) (w : unit) => (Resolved "Looks accessible.", w) in
  @AccessibilityChecker.analyzeContent unit
    (@Gemini.client unit Fixtures.emptyObjectJSON down vision)
    "<h1>Title</h1>" tt = ([], tt)
  /\ @AccessibilityChecker.analyzeContent unit
       (@Gemini.client unit Fixtures.emptyObjectJSON prose vision)
       "<h1>Title</h1>" tt = ([], tt).
Proof.
  intros vision down prose. split.
  - destruct (content_analysis_of_client unit Fixtures.emptyObjectJSON
                down vision "<h1>Title</h1>" tt) as (_ & H & _).
    exact (H "quota" eq_refl).
  - destruct (content_analysis_of_client unit Fixtures.emptyObjectJSON
                prose vision "<h1>Title</h1>" tt) as (_ & _ & H & _).
    exact (H "Looks accessible." eq_refl eq_refl).
Defined.

(* ================================================================== *)
(** ** More on the suggestions *)
(* ================================================================== *)

Lemma firstOccurrences_length (l : list string) :
  List.length (Spec.firstOccurrences l) <= List.length l.
Proof.
  induction l as [|x l IH]; simpl; [lia|].
  pose proof (filter_length_le
                (fun y => negb (String.eqb y x)) (Spec.firstOccurrences l)).
  lia.
Qed.

Lemma generalSuggestions_length issues imageAnalyses :
  List.length (Spec.generalSuggestions issues imageAnalyses) <= 6.
Proof.
  unfold Spec.generalSuggestions.
  repeat match goal with
         | |- context [if ?c then _ else _] => destruct c
         end; simpl; lia.
Qed.

(** X10.  The suggestions are at most six more than the issues.  They hold
    the general advice for alt texts, for contrast and for headings
    whenever an issue of that type is among the issues, the advice on text
    in images whenever an analysis found text, and the advice on complex
    images whenever an analysis asks for a long description. *)
Theorem suggestions_bounded :
  forall (issues : list AccessibilityIssue)
         (imageAnalyses : list ImageEntry.t),
    let s :=
      AccessibilityChecker.generateEnhancedSuggestions issues imageAnalyses in
    List.length s <= List.length issues + 6
    /\ (AccessibilityChecker.hasType issues IssueType.alt_text = true ->
        In AccessibilityChecker.altTextAdvice s)
    /\ (AccessibilityChecker.hasType issues IssueType.contrast = true ->
        In AccessibilityChecker.contrastAdvice s)
    /\ (AccessibilityChecker.hasType issues IssueType.heading = true ->
        In AccessibilityChecker.headingAdvice s)
    /\ (existsb (fun e => hasText (accessibility (ImageEntry.analysis e)))
          imageAnalyses = true ->
        In AccessibilityChecker.textInImagesAdvice s)
    /\ (existsb
          (fun e =>
             needsLongDescription (accessibility (ImageEntry.analysis e)))
          imageAnalyses = true ->
        In AccessibilityChecker.complexImagesAdvice s).
Proof.
  intros issues imageAnalyses s. subst s.
  rewrite generateEnhancedSuggestions_firstOccurrences.
  split.
  { pose proof (firstOccurrences_length
                  (map Issue.recommendation issues
                     ++ Spec.generalSuggestions issues imageAnalyses)) as H.
    rewrite length_app, length_map in H.
    pose proof (generalSuggestions_length issues imageAnalyses). lia. }
  unfold Spec.generalSuggestions. rewrite !existsb_map_fun.
  repeat split; intros ->; apply firstOccurrences_In, in_or_app; right.
  - apply in_or_app. left. left. reflexivity.
  - apply in_or_app. right. apply in_or_app. left. left. reflexivity.
  - apply in_or_app. right. apply in_or_app. right. apply in_or_app.
    left. left. reflexivity.
  - apply in_or_app. right. apply in_or_app. right. apply in_or_app.
    right. apply in_or_app. left. left. reflexivity.
  - apply in_or_app. right. apply in_or_app. right. apply in_or_app.
    right. apply in_or_app. right. left. reflexivity.
Qed.

(** X10 on one contrast issue and no image analysis. *)
Lemma suggestions_bounded_witness :
  AccessibilityChecker.hasType [AccessibilityChecker.contrastIssue 0]
    IssueType.contrast = true
  /\ In AccessibilityChecker.contrastAdvice
       (AccessibilityChecker.generateEnhancedSuggestions
          [AccessibilityChecker.contrastIssue 0] []).
Proof.
  split; [reflexivity|].
  destruct (suggestions_bounded [AccessibilityChecker.contrastIssue 0] [])
    as (_ & _ & H & _).
  apply H. reflexivity.
Defined.

(* ================================================================== *)
(** ** What an analysis always holds *)
(* ================================================================== *)

Lemma orElse_truthy (o : option string) (d : string) :
  JS.truthy d = true -> JS.truthy (JS.orElse o d) = true.
Proof.
  intros Hd. unfold JS.orElse.
  destruct o as [s|]; [|exact Hd].
  destruct (JS.truthy s) eqn:Hs; [exact Hs | exact Hd].
Qed.

Lemma parseAnalysisResponse_truthy `{JSONPackage} (responseText : string) :
  let a := ImageAnalyzer.parseAnalysisResponse responseText in
  JS.truthy (altText a) = true
  /\ JS.truthy (confidence a) = true
  /\ JS.truthy (description a) = true
  /\ JS.truthy (context a) = true.
Proof.
  unfold ImageAnalyzer.parseAnalysisResponse.
  destruct (RegExp.exec _ _ _) as [m|].
  - destruct (parseImageAnalysis _) as [parsed|].
    + simpl. repeat split; apply orElse_truthy; reflexivity.
    + simpl. repeat split.
  - simpl. repeat split; apply orElse_truthy; reflexivity.
Qed.

(** X11.  When the call of the vision model rejects, when it answers plain
    text or text that does not parse, and when it answers a JSON object
    whose fields have the types [ImageAnalysis] declares, the analysis
    [analyzeImage] returns has a non-empty alt text, confidence,
    description and context: each of them falls back to a fixed non-empty
    text.  (An object with a truthy value that is not a string in one of
    these fields is outside [Parsed.t] and outside this statement.) *)
Theorem analysis_fields_nonempty :
  forall (World : Type) (JP : JSONPackage) (client : GeminiClient World)
         imageData mime context0 w,
    let a :=
      fst (ImageAnalyzer.analyzeImage client imageData mime context0 w) in
    JS.truthy (altText a) = true
    /\ JS.truthy (confidence a) = true
    /\ JS.truthy (description a) = true
    /\ JS.truthy (context a) = true.
Proof.
  intros World JP client imageData mime context0 w.
  unfold ImageAnalyzer.analyzeImage.
  destruct (visionModel client _ imageData mime w) as [[text | e] w'].
  - apply parseAnalysisResponse_truthy.
  - simpl. repeat split.
Qed.

(* ================================================================== *)
(** ** The other operations of the image analyzer *)
(* ================================================================== *)

Lemma substring_length (n m : nat) (s : string) :
  String.length (String.substring n m s) <= m.
Proof.
  revert n m.
  induction s as [|c s IH]; intros n m.
  - destruct n, m; simpl; lia.
  - destruct n as [|n].
    + destruct m as [|m]; simpl; [lia|].
      pose proof (IH 0 m). lia.
    + simpl. apply IH.
Qed.

Lemma cleanAltText_length (altText0 : string) :
  String.length (ImageAnalyzerOps.cleanAltText altText0) <= 125.
Proof.
  unfold ImageAnalyzerOps.cleanAltText, JS.substring.
  apply substring_length.
Qed.

(** X12.  The alt text [generateContextualAltText] returns is at most 125
    characters long, whatever the vision model answers; when the call
    rejects it is the fixed text [Image description not available]. *)
Theorem contextual_alt_text_bounded :
  forall (World : Type) (client : GeminiClient World)
         imageData mime surrounding imageContext w,
    let call :=
      visionModel client
        (ImageAnalyzerOps.buildContextualPrompt surrounding imageContext)
        imageData mime w in
    let result :=
      ImageAnalyzerOps.generateContextualAltText client imageData mime
        surrounding imageContext w in
    String.length (fst result) <= 125
    /\ snd result = snd call
    /\ (forall message,
           fst call = Rejected message ->
           fst result = "Image description not available")
    /\ (forall text,
           fst call = Resolved text ->
           fst result = ImageAnalyzerOps.cleanAltText text).
Proof.
  intros World client imageData mime surrounding imageContext w call result.
  unfold result, ImageAnalyzerOps.generateContextualAltText. fold call.
  destruct call as [[text | message] w']; simpl.
  - split; [apply cleanAltText_length|]. split; [reflexivity|].
    split; [intros ? H; discriminate H|].
    intros t Ht. injection Ht as <-. reflexivity.
  - split; [lia|]. split; [reflexivity|].
    split; [reflexivity | intros ? H; discriminate H].
Qed.

(** X12 on a reply in quotes, with the prefix and a final period, and on a
    rejected call. *)
Lemma contextual_alt_text_bounded_witness :
  let reply :=
    JS.dq +++ "Alt text: A red bicycle against a wall." +++ JS.dq in
  fst (ImageAnalyzerOps.generateContextualAltText
         (Fixtures.scriptedClient (Rejected "unavailable"))
         "iVBORw0KGgo=" "image/png" "Bikes for hire"
         ImageAnalyzerOps.informative [Resolved reply])
  = "A red bicycle against a wall"
  /\ fst (ImageAnalyzerOps.generateContextualAltText
            Fixtures.mockGeminiClient "iVBORw0KGgo=" "image/png"
            "Bikes for hire" ImageAnalyzerOps.informative tt)
     = "Image description not available".
Proof.
  intros reply. split.
  - destruct (contextual_alt_text_bounded _
                (Fixtures.scriptedClient (Rejected "unavailable"))
                "iVBORw0KGgo=" "image/png" "Bikes for hire"
                ImageAnalyzerOps.informative [Resolved reply])
      as (_ & _ & _ & H).
    rewrite (H reply eq_refl). reflexivity.
  - destruct (contextual_alt_text_bounded _ Fixtures.mockGeminiClient
                "iVBORw0KGgo=" "image/png" "Bikes for hire"
                ImageAnalyzerOps.informative tt) as (_ & _ & H & _).
    exact (H "TypeError" eq_refl).
Defined.

(** X13.  Neither [detectTextInImage] nor [isImageDecorative] lets a
    rejected call through: the first returns no text with confidence 0, the
    second returns false.  A detection without text never carries
    extracted text, and its confidence is 90 (the provider answered
    NO_TEXT_FOUND) or 0 (the call failed); a detection with text always
    carries the extracted text. *)
Theorem analyzer_operations_fall_back :
  forall (World : Type) (client : GeminiClient World)
         imageData mime context0 w,
    let detection :=
      fst (ImageAnalyzerOps.detectTextInImage client imageData mime w) in
    (forall message w',
        visionModel client ImageAnalyzerOps.textDetectionPrompt
          imageData mime w = (Rejected message, w') ->
        ImageAnalyzerOps.detectTextInImage client imageData mime w
        = ({| ImageAnalyzerOps.TextDetection.hasText := false;
              ImageAnalyzerOps.TextDetection.extractedText := None;
              ImageAnalyzerOps.TextDetection.confidence := 0 |}, w'))
    /\ (forall message w',
           visionModel client (ImageAnalyzerOps.decorativePrompt context0)
             imageData mime w = (Rejected message, w') ->
           ImageAnalyzerOps.isImageDecorative client imageData mime
             context0 w = (false, w'))
    /\ (ImageAnalyzerOps.TextDetection.hasText detection = false ->
        ImageAnalyzerOps.TextDetection.extractedText detection = None
        /\ (ImageAnalyzerOps.TextDetection.confidence detection = 90
            \/ ImageAnalyzerOps.TextDetection.confidence detection = 0))
    /\ (ImageAnalyzerOps.TextDetection.hasText detection = true ->
        ImageAnalyzerOps.TextDetection.extractedText detection <> None).
Proof.
  intros World client imageData mime context0 w detection.
  split; [|split].
  - intros message w' Hcall.
    unfold ImageAnalyzerOps.detectTextInImage. rewrite Hcall. reflexivity.
  - intros message w' Hcall.
    unfold ImageAnalyzerOps.isImageDecorative. rewrite Hcall. reflexivity.
  - unfold detection, ImageAnalyzerOps.detectTextInImage.
    destruct (visionModel client _ imageData mime w) as [[text | e] w'].
    + destruct (JS.includes text "NO_TEXT_FOUND"); simpl.
      * split; [intros _; split; [reflexivity | left; reflexivity]|].
        intros H; discriminate H.
      * split; [intros H; discriminate H | intros _ H; discriminate H].
    + simpl. split; [intros _; split; [reflexivity | right; reflexivity]|].
      intros H; discriminate H.
Qed.

(** X13 with the mock client of the tests, and with a reply that names a
    confidence. *)
Lemma analyzer_operations_fall_back_witness :
  ImageAnalyzerOps.detectTextInImage Fixtures.mockGeminiClient
    "iVBORw0KGgo=" "image/png" tt
  = ({| ImageAnalyzerOps.TextDetection.hasText := false;
        ImageAnalyzerOps.TextDetection.extractedText := None;
        ImageAnalyzerOps.TextDetection.confidence := 0 |}, tt)
  /\ ImageAnalyzerOps.isImageDecorative Fixtures.mockGeminiClient
       "iVBORw0KGgo=" "image/png" "Bikes for hire" tt = (false, tt)
  /\ fst (ImageAnalyzerOps.detectTextInImage
            (Fixtures.scriptedClient (Rejected "unavailable"))
            "iVBORw0KGgo=" "image/png" [Resolved "SALE Confidence: 80"])
     = {| ImageAnalyzerOps.TextDetection.hasText := true;
          ImageAnalyzerOps.TextDetection.extractedText := Some "SALE";
          ImageAnalyzerOps.TextDetection.confidence := 80 |}.
Proof.
  destruct (analyzer_operations_fall_back unit Fixtures.mockGeminiClient
              "iVBORw0KGgo=" "image/png" "Bikes for hire" tt)
    as (Hdetect & Hdecorative & _).
  split; [exact (Hdetect "TypeError" tt eq_refl)|].
  split; [exact (Hdecorative "TypeError" tt eq_refl)|].
  reflexivity.
Defined.

(* ================================================================== *)
(** ** Alt text and content suggestions of the client *)
(* ================================================================== *)

(** X14.  [generateAltText] of the checker over the client of the
    application never rejects and never returns [undefined]: it returns the
    trimmed reply of the vision model, or the fixed text
    [Image description not available] when the call rejects.  Over any
    client it returns the alt text of a successful result and the fixed
    text for an unsuccessful one. *)
Theorem checker_alt_text :
  forall (World : Type)
         (vision : string -> string -> string -> World
                   -> Outcome string * World)
         imageData mime w,
    let call := vision GeminiAltText.altTextPrompt imageData mime w in
    GeminiAltText.checkerGenerateAltText
      (GeminiAltText.generateAltText vision) imageData mime w
    = (Some match fst call with
            | Resolved text => JS.trim text
            | Rejected _ => "Image description not available"
            end, snd call)
    /\ (forall (method : string -> string -> World
                         -> Outcome GeminiAltText.AltTextResult * World)
               result w',
           method imageData mime w = (Resolved result, w') ->
           GeminiAltText.checkerGenerateAltText method imageData mime w
           = (if GeminiAltText.ok result
              then GeminiAltText.generated result
              else Some "Image description not available", w')).
Proof.
  intros World vision imageData mime w call. split.
  - unfold GeminiAltText.checkerGenerateAltText,
      GeminiAltText.generateAltText. fold call.
    destruct call as [[text | e] w']; reflexivity.
  - intros method result w' Hcall.
    unfold GeminiAltText.checkerGenerateAltText. rewrite Hcall.
    destruct (GeminiAltText.ok result); reflexivity.
Qed.

(** X14 on the two mocked results of tests/accessibility-checker.test.tsx. *)
Lemma checker_alt_text_witness :
  let sunset :=
    {| GeminiAltText.ok := true;
       GeminiAltText.generated := Some "A beautiful sunset over mountains";
       GeminiAltText.certainty := None;
       GeminiAltText.failure := None;
       GeminiAltText.fallback := None |} in
  let failed :=
    {| GeminiAltText.ok := false;
       GeminiAltText.generated := None;
       GeminiAltText.certainty := None;
       GeminiAltText.failure := Some "API Error";
       GeminiAltText.fallback := None |} in
  fst (GeminiAltText.checkerGenerateAltText
         (fun _ _ (w : unit) => (Resolved sunset, w))
         "image-data" "image/jpeg" tt)
  = Some "A beautiful sunset over mountains"
  /\ fst (GeminiAltText.checkerGenerateAltText
            (fun _ _ (w : unit) => (Resolved failed, w))
            "image-data" "image/jpeg" tt)
     = Some "Image description not available".
Proof.
  intros sunset failed.
  pose (vision := fun (_ _ _ : string) (w : unit) =>
                    (@Rejected string "down", w)).
  destruct (checker_alt_text unit vision "image-data" "image/jpeg" tt)
    as [_ H].
  split.
  - rewrite (H (fun _ _ w => (Resolved sunset, w)) sunset tt eq_refl).
    reflexivity.
  - rewrite (H (fun _ _ w => (Resolved failed, w)) failed tt eq_refl).
    reflexivity.
Defined.

Lemma suggestion_ids (lines : list string) :
  forall i,
    map GeminiAltText.Suggestion.id
      (forEachFrom GeminiAltText.suggestionOf i lines)
    = map (fun j => "suggestion-" +++ JS.ofNat j)
        (seq i (List.length lines)).
Proof.
  induction lines as [|line lines IH]; intros i; simpl; [reflexivity|].
  rewrite IH. reflexivity.
Qed.

Lemma suggestion_contents (lines : list string) :
  forall i,
    map GeminiAltText.Suggestion.content
      (forEachFrom GeminiAltText.suggestionOf i lines)
    = map JS.trim lines.
Proof.
  induction lines as [|line lines IH]; intros i; simpl; [reflexivity|].
  rewrite IH. reflexivity.
Qed.

(** X15.  The suggestions parsed from a generated text are the trimmed
    non-blank lines of the text, in order: none has an empty content, and
    their identifiers are pairwise distinct. *)
Theorem content_suggestions_wellformed :
  forall text : string,
    let suggestions := GeminiAltText.parseContentSuggestions text in
    map GeminiAltText.Suggestion.content suggestions
    = map JS.trim
        (filter (fun line => JS.truthy (JS.trim line)) (JS.splitLines text))
    /\ Forall
         (fun s => JS.truthy (GeminiAltText.Suggestion.content s) = true)
         suggestions
    /\ NoDup (map GeminiAltText.Suggestion.id suggestions).
Proof.
  intros text suggestions. unfold suggestions,
    GeminiAltText.parseContentSuggestions, forEach.
  split; [apply suggestion_contents|]. split.
  - apply Forall_forall. intros s Hin.
    apply (in_map GeminiAltText.Suggestion.content) in Hin.
    rewrite suggestion_contents in Hin.
    apply in_map_iff in Hin. destruct Hin as (line & <- & Hline).
    apply filter_In in Hline. exact (proj2 Hline).
  - rewrite suggestion_ids.
    apply Injective_map_NoDup; [|apply seq_NoDup].
    intros a b Heq. simpl in Heq.
    apply ofNat_inj. congruence.
Qed.

(* ================================================================== *)
(** ** The keyword score of the client *)
(* ================================================================== *)

Lemma countOccurrences_zero (keyword : string) :
  keyword <> EmptyString ->
  forall s fuel,
    String.length s < fuel ->
    (Gemini.countOccurrences fuel keyword s = 0
     <-> JS.includes s keyword = false).
Proof.
  intros Hkw. unfold JS.includes.
  induction s as [|c s IH]; intros fuel Hfuel;
    (destruct fuel as [|fuel]; [simpl in Hfuel; lia|]).
  - destruct keyword; [contradiction Hkw; reflexivity|].
    simpl. split; reflexivity.
  - cbn [Gemini.countOccurrences JS.includesChars String.length].
    destruct (String.prefix keyword (String c s)); simpl.
    + split; intros H; discriminate H.
    + apply IH. simpl in Hfuel. lia.
Qed.

Lemma str_length (l : list ascii) :
  String.length (JS.str l) = List.length l.
Proof.
  induction l as [|c l IH]; simpl; [reflexivity | rewrite IH; reflexivity].
Qed.

Lemma toLowerCase_length (s : string) :
  String.length (JS.toLowerCase s) = String.length s.
Proof.
  unfold JS.toLowerCase.
  rewrite str_length, length_map. apply chars_length.
Qed.

(** X16.  The score [calculateAccessibilityScore] derives from the text of
    an analysis is a multiple of 10 between 0 and 100, and it is 100
    exactly when none of the five keywords (error, missing, invalid, poor,
    fail) occurs in the text, whatever the case of its letters. *)
Theorem keyword_score_bounds :
  forall text : string,
    let score := Gemini.calculateAccessibilityScore text in
    (0 <= score <= 100)%Z
    /\ (exists k : nat, k <= 10 /\ score = (10 * Z.of_nat k)%Z)
    /\ (score = 100%Z
        <-> forall keyword,
              In keyword Gemini.issueKeywords ->
              JS.includes (JS.toLowerCase text) keyword = false).
Proof.
  intros text score.
  unfold score, Gemini.calculateAccessibilityScore, Gemini.issueKeywords.
  cbn [fold_left].
  set (fuel := S (String.length text)).
  set (lower := JS.toLowerCase text).
  assert (Hfuel : String.length lower < fuel).
  { unfold lower, fuel. rewrite toLowerCase_length. lia. }
  pose proof (countOccurrences_zero "error" ltac:(discriminate) lower fuel
                Hfuel) as H1.
  pose proof (countOccurrences_zero "missing" ltac:(discriminate) lower fuel
                Hfuel) as H2.
  pose proof (countOccurrences_zero "invalid" ltac:(discriminate) lower fuel
                Hfuel) as H3.
  pose proof (countOccurrences_zero "poor" ltac:(discriminate) lower fuel
                Hfuel) as H4.
  pose proof (countOccurrences_zero "fail" ltac:(discriminate) lower fuel
                Hfuel) as H5.
  set (c1 := Gemini.countOccurrences fuel "error" lower) in *.
  set (c2 := Gemini.countOccurrences fuel "missing" lower) in *.
  set (c3 := Gemini.countOccurrences fuel "invalid" lower) in *.
  set (c4 := Gemini.countOccurrences fuel "poor" lower) in *.
  set (c5 := Gemini.countOccurrences fuel "fail" lower) in *.
  split; [lia|]. split.
  - exists (10 - (0 + c1 + c2 + c3 + c4 + c5)). split; lia.
  - split.
    + intros Hscore keyword Hin.
      assert (c1 = 0 /\ c2 = 0 /\ c3 = 0 /\ c4 = 0 /\ c5 = 0)
        as (E1 & E2 & E3 & E4 & E5) by lia.
      simpl in Hin.
      destruct Hin as [<- | [<- | [<- | [<- | [<- | []]]]]].
      * apply H1, E1.
      * apply H2, E2.
      * apply H3, E3.
      * apply H4, E4.
      * apply H5, E5.
    + intros Hnone.
      assert (E1 : c1 = 0) by (apply H1, Hnone; simpl; auto).
      assert (E2 : c2 = 0) by (apply H2, Hnone; simpl; auto).
      assert (E3 : c3 = 0) by (apply H3, Hnone; simpl; auto).
      assert (E4 : c4 = 0) by (apply H4, Hnone; simpl; auto 6).
      assert (E5 : c5 = 0) by (apply H5, Hnone; simpl; auto 6).
      rewrite E1, E2, E3, E4, E5. reflexivity.
Qed.

(** X16 on a text without any of the keywords, which scores 100, and on a
    text with two of them. *)
Lemma keyword_score_bounds_witness :
  Gemini.calculateAccessibilityScore "All images are described." = 100%Z
  /\ Gemini.calculateAccessibilityScore "Missing alt text; POOR contrast"
     = 80%Z.
Proof.
  split; [|reflexivity].
  apply (proj2 (proj2 (keyword_score_bounds "All images are described."))).
  intros keyword Hin. simpl in Hin.
  destruct Hin as [<- | [<- | [<- | [<- | [<- | []]]]]]; reflexivity.
Defined.

(* ================================================================== *)
(** ** Captures *)
(* ================================================================== *)

Section Captures.
Import RegExp.

Lemma starLoop_same_caps
  (body : list ascii -> caps -> cont -> option (list ascii * caps))
  (greedy : bool) (k : cont) :
  (forall s c k' res,
      body s c k' = Some res ->
      exists s1, suffixOf s1 s /\ k' s1 c = Some res) ->
  forall n s c res,
    starLoop body greedy k n s c = Some res ->
    exists s1, suffixOf s1 s /\ k s1 c = Some res.
Proof.
  intros Hbody.
  induction n as [|n IHn]; intros s c res Hloop; simpl in Hloop.
  - exists s. split; [apply suffixOf_refl | exact Hloop].
  - assert (Hiter : forall x,
      body s c
        (fun s' c' =>
           if List.length s' <? List.length s
           then starLoop body greedy k n s' c' else None) = Some x ->
      exists s1, suffixOf s1 s /\ k s1 c = Some x).
    { intros x Hx. apply Hbody in Hx. destruct Hx as (s1 & Hs1 & Hx).
      destruct (List.length s1 <? List.length s); [|discriminate].
      apply IHn in Hx. destruct Hx as (s2 & Hs2 & Hk).
      exists s2. split; [eapply suffixOf_trans; eassumption | exact Hk]. }
    destruct greedy.
    + destruct (body s c _) as [x|] eqn:Hit.
      * injection Hloop as ->. apply Hiter. reflexivity.
      * exists s. split; [apply suffixOf_refl | exact Hloop].
    + destruct (k s c) as [x|] eqn:Hk.
      * exists s. split; [apply suffixOf_refl|]. rewrite Hk. exact Hloop.
      * apply Hiter. exact Hloop.
Qed.

(** A pattern without groups hands the captures on as they are. *)
Lemma run_same_caps (f : flags) (r : re) :
  Facts.groupFree r = true ->
  forall s c k res,
    run f r s c k = Some res ->
    exists s1, suffixOf s1 s /\ k s1 c = Some res.
Proof.
  induction r as [ | a | | neg items | r1 IH1 r2 IH2 | r1 IH1 r2 IH2
                 | greedy r1 IH1 | n r1 IH1 | n ];
    intros Hfree s c k res Hrun; simpl in Hfree; try discriminate Hfree;
    simpl in Hrun.
  - exists s. split; [apply suffixOf_refl | exact Hrun].
  - destruct s as [|x s']; [discriminate|].
    destruct (charEq f a x); [|discriminate].
    exists s'. split; [apply suffixOf_tail | exact Hrun].
  - destruct s as [|x s']; [discriminate|].
    destruct (dotAll f || negb (isLineTerminator x)); [|discriminate].
    exists s'. split; [apply suffixOf_tail | exact Hrun].
  - destruct s as [|x s']; [discriminate|].
    destruct (Bool.eqb (inItems f x items) (negb neg)); [|discriminate].
    exists s'. split; [apply suffixOf_tail | exact Hrun].
  - apply andb_prop in Hfree. destruct Hfree as [H1 H2].
    apply (IH1 H1) in Hrun. destruct Hrun as (s1 & Hs1 & Hrun).
    apply (IH2 H2) in Hrun. destruct Hrun as (s2 & Hs2 & Hk).
    exists s2. split; [eapply suffixOf_trans; eassumption | exact Hk].
  - apply andb_prop in Hfree. destruct Hfree as [H1 H2].
    destruct (run f r1 s c k) as [x|] eqn:Hleft.
    + apply (IH1 H1 s c k). rewrite Hleft. exact Hrun.
    + apply (IH2 H2 s c k). exact Hrun.
  - apply (starLoop_same_caps (run f r1) greedy k (IH1 Hfree)) in Hrun.
    exact Hrun.
  - destruct (capture n c) as [w|].
    + destruct (prefixEq f w s); [|discriminate].
      exists (skipn (List.length w) s).
      split; [apply suffixOf_skipn | exact Hrun].
    + exists s. split; [apply suffixOf_refl | exact Hrun].
Qed.

Lemma starLoop_keeps_group
  (body : list ascii -> caps -> cont -> option (list ascii * caps))
  (greedy : bool) (k : cont) (g : nat) :
  (forall s c k' res,
      body s c k' = Some res ->
      exists s1 c1,
        suffixOf s1 s /\ capture g c1 = capture g c /\ k' s1 c1 = Some res) ->
  forall n s c res,
    starLoop body greedy k n s c = Some res ->
    exists s1 c1,
      suffixOf s1 s /\ capture g c1 = capture g c /\ k s1 c1 = Some res.
Proof.
  intros Hbody.
  induction n as [|n IHn]; intros s c res Hloop; simpl in Hloop.
  - exists s, c. split; [apply suffixOf_refl | split; [reflexivity|exact Hloop]].
  - assert (Hiter : forall x,
      body s c
        (fun s' c' =>
           if List.length s' <? List.length s
           then starLoop body greedy k n s' c' else None) = Some x ->
      exists s1 c1,
        suffixOf s1 s /\ capture g c1 = capture g c /\ k s1 c1 = Some x).
    { intros x Hx. apply Hbody in Hx.
      destruct Hx as (s1 & c1 & Hs1 & Hc1 & Hx).
      destruct (List.length s1 <? List.length s); [|discriminate].
      apply IHn in Hx. destruct Hx as (s2 & c2 & Hs2 & Hc2 & Hk).
      exists s2, c2. split; [eapply suffixOf_trans; eassumption|].
      split; [congruence | exact Hk]. }
    destruct greedy.
    + destruct (body s c _) as [x|] eqn:Hit.
      * injection Hloop as ->. apply Hiter. reflexivity.
      * exists s, c.
        split; [apply suffixOf_refl | split; [reflexivity|exact Hloop]].
    + destruct (k s c) as [x|] eqn:Hk.
      * exists s, c. split; [apply suffixOf_refl|].
        split; [reflexivity|]. rewrite Hk. exact Hloop.
      * apply Hiter. exact Hloop.
Qed.

(** A pattern without the group [g] hands the capture of [g] on. *)
Lemma run_keeps_group (f : flags) (g : nat) (r : re) :
  Facts.noGroup g r = true ->
  forall s c k res,
    run f r s c k = Some res ->
    exists s1 c1,
      suffixOf s1 s /\ capture g c1 = capture g c /\ k s1 c1 = Some res.
Proof.
  induction r as [ | a | | neg items | r1 IH1 r2 IH2 | r1 IH1 r2 IH2
                 | greedy r1 IH1 | n r1 IH1 | n ];
    intros Hno s c k res Hrun; simpl in Hno; simpl in Hrun.
  - exists s, c. split; [apply suffixOf_refl | split; [reflexivity|exact Hrun]].
  - destruct s as [|x s']; [discriminate|].
    destruct (charEq f a x); [|discriminate].
    exists s', c. split; [apply suffixOf_tail | split; [reflexivity|exact Hrun]].
  - destruct s as [|x s']; [discriminate|].
    destruct (dotAll f || negb (isLineTerminator x)); [|discriminate].
    exists s', c. split; [apply suffixOf_tail | split; [reflexivity|exact Hrun]].
  - destruct s as [|x s']; [discriminate|].
    destruct (Bool.eqb (inItems f x items) (negb neg)); [|discriminate].
    exists s', c. split; [apply suffixOf_tail | split; [reflexivity|exact Hrun]].
  - apply andb_prop in Hno. destruct Hno as [H1 H2].
    apply (IH1 H1) in Hrun. destruct Hrun as (s1 & c1 & Hs1 & Hc1 & Hrun).
    apply (IH2 H2) in Hrun. destruct Hrun as (s2 & c2 & Hs2 & Hc2 & Hk).
    exists s2, c2. split; [eapply suffixOf_trans; eassumption|].
    split; [congruence | exact Hk].
  - apply andb_prop in Hno. destruct Hno as [H1 H2].
    destruct (run f r1 s c k) as [x|] eqn:Hleft.
    + apply (IH1 H1 s c k). rewrite Hleft. exact Hrun.
    + apply (IH2 H2 s c k). exact Hrun.
  - apply (starLoop_keeps_group (run f r1) greedy k g (IH1 Hno)) in Hrun.
    exact Hrun.
  - apply andb_prop in Hno. destruct Hno as [Hn H1].
    apply (IH1 H1) in Hrun. destruct Hrun as (s1 & c1 & Hs1 & Hc1 & Hk).
    exists s1, ((n, firstn (List.length s - List.length s1) s) :: c1).
    split; [exact Hs1|]. split; [|exact Hk].
    simpl. destruct (Nat.eqb n g); [discriminate Hn | exact Hc1].
  - destruct (capture n c) as [w|].
    + destruct (prefixEq f w s); [|discriminate].
      exists (skipn (List.length w) s), c.
      split; [apply suffixOf_skipn | split; [reflexivity|exact Hrun]].
    + exists s, c.
      split; [apply suffixOf_refl | split; [reflexivity|exact Hrun]].
Qed.

(** A match found by a search is a run of the pattern somewhere in the
    input. *)
Lemma execAt_run (f : flags) (r : re) :
  forall s pos m,
    execAt f r s pos = Some m ->
    exists s0,
      suffixOf s0 s /\ run f r s0 [] Facts.done = Some (rest m, groups m).
Proof.
  induction s as [|x s IH]; intros pos m Hexec; simpl in Hexec.
  - destruct (run f r [] [] (fun s' c => Some (s', c))) as [[s' c]|] eqn:Hrun;
      [|discriminate].
    injection Hexec as <-. exists []. split; [apply suffixOf_refl|].
    exact Hrun.
  - destruct (run f r (x :: s) [] (fun s' c => Some (s', c)))
      as [[s' c]|] eqn:Hrun.
    + injection Hexec as <-. exists (x :: s).
      split; [apply suffixOf_refl | exact Hrun].
    + apply IH in Hexec. destruct Hexec as (s0 & Hs0 & H0).
      exists s0. split; [|exact H0].
      eapply suffixOf_trans; [exact Hs0 | apply suffixOf_tail].
Qed.

Lemma execAllAux_run (f : flags) (r : re) :
  forall fuel s pos m,
    In m (execAllAux fuel f r s pos) ->
    exists s0, run f r s0 [] Facts.done = Some (rest m, groups m).
Proof.
  induction fuel as [|fuel IH]; intros s pos m Hin; simpl in Hin;
    [contradiction|].
  destruct (execAt f r s pos) as [m0|] eqn:Hexec; [|contradiction].
  destruct Hin as [<- | Hin].
  - apply execAt_run in Hexec. destruct Hexec as (s0 & _ & H0).
    exists s0. exact H0.
  - apply IH in Hin. exact Hin.
Qed.

End Captures.

(* ================================================================== *)
(** ** The headings the patterns find *)
(* ================================================================== *)

Lemma digit16_code (x : ascii) :
  RegExp.inItems RegExp.flags_i x [RegExp.IRange "1"%char "6"%char] = true ->
  49 <= JS.code x <= 54.
Proof.
  destruct x as [b0 b1 b2 b3 b4 b5 b6 b7].
  destruct b0, b1, b2, b3, b4, b5, b6, b7; vm_compute;
    intros H; try discriminate H; split; repeat constructor.
Qed.

Lemma headingRegex_level (s0 : list ascii) (res : list ascii * RegExp.caps) :
  RegExp.run RegExp.flags_i WCAGValidator.headingRegex s0 [] Facts.done
  = Some res ->
  exists x,
    RegExp.capture 1 (snd res) = Some [x] /\ 49 <= JS.code x <= 54.
Proof.
  unfold WCAGValidator.headingRegex.
  remember (RegExp.seq
              [RegExp.Star true (RegExp.notOf ">"%char);
               RegExp.Char ">"%char;
               RegExp.Group 2 (RegExp.Star false RegExp.Dot);
               RegExp.word "</h";
               WCAGValidator.digit16;
               RegExp.Char ">"%char]) as tail eqn:Htail.
  change (RegExp.seq
            [RegExp.word "<h"; RegExp.Group 1 WCAGValidator.digit16;
             RegExp.Star true (RegExp.notOf ">"%char);
             RegExp.Char ">"%char;
             RegExp.Group 2 (RegExp.Star false RegExp.Dot);
             RegExp.word "</h";
             WCAGValidator.digit16;
             RegExp.Char ">"%char])
    with (RegExp.Seq (RegExp.Seq (RegExp.Char "<"%char) (RegExp.Char "h"%char))
            (RegExp.Seq (RegExp.Group 1 WCAGValidator.digit16)
               (RegExp.seq
                  [RegExp.Star true (RegExp.notOf ">"%char);
                   RegExp.Char ">"%char;
                   RegExp.Group 2 (RegExp.Star false RegExp.Dot);
                   RegExp.word "</h";
                   WCAGValidator.digit16;
                   RegExp.Char ">"%char]))).
  rewrite <- Htail.
  intros Hrun. cbn [RegExp.run WCAGValidator.digit16] in Hrun.
  destruct s0 as [|a s0]; [discriminate|].
  destruct (RegExp.charEq RegExp.flags_i "<" a); [|discriminate].
  destruct s0 as [|b s0]; [discriminate|].
  destruct (RegExp.charEq RegExp.flags_i "h" b); [|discriminate].
  destruct s0 as [|x s1]; [discriminate|].
  destruct (RegExp.inItems RegExp.flags_i x
              [RegExp.IRange "1"%char "6"%char]) eqn:Hx;
    [|discriminate].
  cbn [negb Bool.eqb] in Hrun.
  apply (run_keeps_group RegExp.flags_i 1 tail) in Hrun;
    [|subst tail; reflexivity].
  destruct Hrun as (s2 & c2 & _ & Hcap & Hdone).
  unfold Facts.done in Hdone. injection Hdone as <-.
  exists x. split; [|apply digit16_code; exact Hx].
  cbn [snd]. rewrite Hcap.
  replace (List.length (x :: s1) - List.length s1) with 1
    by (cbn [List.length]; lia).
  reflexivity.
Qed.

Lemma headingsFrom_In (ms : list RegExp.result) :
  forall i h,
    In h (WCAGValidator.headingsFrom ms i) ->
    exists m,
      In m ms
      /\ WCAGValidator.level h = WCAGValidator.parseInt (RegExp.group 1 m).
Proof.
  induction ms as [|m ms IH]; intros i h Hin; simpl in Hin; [contradiction|].
  destruct Hin as [<- | Hin].
  - exists m. split; [left; reflexivity | reflexivity].
  - apply IH in Hin. destruct Hin as (m' & Hin & Hlevel).
    exists m'. split; [right; exact Hin | exact Hlevel].
Qed.

Lemma headingsFrom_index (ms : list RegExp.result) :
  forall i,
    map WCAGValidator.index (WCAGValidator.headingsFrom ms i)
    = seq i (List.length ms).
Proof.
  induction ms as [|m ms IH]; intros i; simpl; [reflexivity|].
  rewrite IH. reflexivity.
Qed.

(** X17.  Every heading the validator and the checker extract from a
    content has a level between 1 and 6, and the headings are numbered from
    0 in the order of the document. *)
Theorem extracted_heading_levels :
  forall content : string,
    let hs := WCAGValidator.extractHeadings content in
    Forall (fun h => 1 <= WCAGValidator.level h <= 6) hs
    /\ map WCAGValidator.index hs = seq 0 (List.length hs).
Proof.
  intros content hs. unfold hs, WCAGValidator.extractHeadings. split.
  - apply Forall_forall. intros h Hin.
    apply headingsFrom_In in Hin. destruct Hin as (m & Hin & ->).
    apply execAllAux_run in Hin. destruct Hin as (s0 & Hrun).
    apply headingRegex_level in Hrun.
    destruct Hrun as (x & Hcap & Hcode). simpl in Hcap.
    unfold RegExp.group. rewrite Hcap.
    unfold WCAGValidator.parseInt. simpl. lia.
  - rewrite headingsFrom_index. f_equal.
    pose proof (f_equal (@List.length nat)
                  (headingsFrom_index
                     (RegExp.execAll RegExp.flags_i
                        WCAGValidator.headingRegex content) 0)) as Hlen.
    rewrite length_map, length_seq in Hlen. symmetry. exact Hlen.
Qed.

(* ================================================================== *)
(** ** The images the command-line tool extracts *)
(* ================================================================== *)

Section ExtractImages.
Import RegExp.

Lemma run_seq (f : flags) (r1 r2 : re) s c k :
  run f (Seq r1 r2) s c k = run f r1 s c (fun s' c' => run f r2 s' c' k).
Proof. reflexivity. Qed.

Lemma run_seq_keeps_group (f : flags) (g : nat) (r1 r2 : re) s c k res :
  Facts.noGroup g r1 = true ->
  run f (Seq r1 r2) s c k = Some res ->
  exists s1 c1,
    suffixOf s1 s /\ capture g c1 = capture g c
    /\ run f r2 s1 c1 k = Some res.
Proof.
  intros Hno Hrun. rewrite run_seq in Hrun.
  apply (run_keeps_group f g r1 Hno) in Hrun. exact Hrun.
Qed.

Lemma notGt_test (x : ascii) :
  Bool.eqb (inItems flags_i x [IChar ">"%char]) (negb true)
  = negb (Ascii.eqb x ">"%char).
Proof.
  destruct x as [b0 b1 b2 b3 b4 b5 b6 b7].
  destruct b0, b1, b2, b3, b4, b5, b6, b7; reflexivity.
Qed.

Lemma charEq_gt (x : ascii) :
  charEq flags_i ">"%char x = Ascii.eqb x ">"%char.
Proof.
  destruct x as [b0 b1 b2 b3 b4 b5 b6 b7].
  destruct b0, b1, b2, b3, b4, b5, b6, b7; reflexivity.
Qed.

Lemma imgTail_unfold s c k :
  run flags_i CLI.imgTail s c k
  = starLoop (run flags_i (notOf ">"%char)) true
      (fun s' c' => run flags_i Facts.afterStar s' c' k) (List.length s) s c.
Proof. reflexivity. Qed.

Lemma suffixOf_In (x : ascii) (s' s : list ascii) :
  suffixOf s' s -> In x s' -> In x s.
Proof. intros [p ->] Hin. apply in_or_app. right. exact Hin. Qed.

(** One step of the greedy [[^>]*]. *)
Lemma star_notGt_step (k : cont) n x s c :
  starLoop (run flags_i (notOf ">"%char)) true k (S n) (x :: s) c
  = if Ascii.eqb x ">"%char then k (x :: s) c
    else match starLoop (run flags_i (notOf ">"%char)) true k n s c with
         | Some r => Some r
         | None => k (x :: s) c
         end.
Proof.
  cbn [starLoop].
  change (run flags_i (notOf ">"%char) (x :: s) c)
    with (fun k' : cont =>
            if Bool.eqb (inItems flags_i x [IChar ">"%char]) (negb true)
            then k' s c else None).
  cbv beta. rewrite notGt_test.
  destruct (Ascii.eqb x ">"%char); cbn [negb]; [reflexivity|].
  assert (Hlt : (List.length s <? List.length (x :: s)) = true)
    by (apply Nat.ltb_lt; simpl; lia).
  rewrite Hlt. reflexivity.
Qed.

(** The end of the pattern needs a [>] in what is left of the input. *)
Lemma afterStar_needs_gt s c res :
  run flags_i Facts.afterStar s c Facts.done = Some res -> In ">"%char s.
Proof.
  unfold Facts.afterStar. intros Hrun.
  rewrite run_seq in Hrun.
  apply run_continues in Hrun. destruct Hrun as (s1 & c1 & Hs1 & Hrun).
  rewrite run_seq in Hrun.
  apply run_continues in Hrun. destruct Hrun as (s2 & c2 & Hs2 & Hrun).
  cbn [run] in Hrun.
  destruct s2 as [|x s2]; [discriminate|].
  rewrite charEq_gt in Hrun.
  destruct (Ascii.eqb_spec x ">"%char) as [-> | _]; [|discriminate].
  apply (suffixOf_In _ s1 s Hs1), (suffixOf_In _ (">"%char :: s2) s1 Hs2).
  left. reflexivity.
Qed.

(** At a [>] the end of the pattern matches at once, without the group. *)
Lemma afterStar_at_gt s c :
  run flags_i Facts.afterStar (">"%char :: s) c Facts.done = Some (s, c).
Proof. reflexivity. Qed.

(** The greedy star goes on to the first [>] whenever there is one. *)
Lemma star_reaches_gt :
  forall n s c,
    List.length s <= n -> In ">"%char s ->
    starLoop (run flags_i (notOf ">"%char)) true Facts.next n s c <> None.
Proof.
  induction n as [|n IHn]; intros s c Hlen Hin.
  - destruct s; [contradiction Hin | simpl in Hlen; lia].
  - destruct s as [|x s]; [contradiction Hin|].
    rewrite star_notGt_step.
    destruct (Ascii.eqb_spec x ">"%char) as [-> | Hx].
    + unfold Facts.next. rewrite afterStar_at_gt. discriminate.
    + assert (Hrest : In ">"%char s).
      { destruct Hin as [Heq | Hin]; [contradiction Hx; exact Heq|].
        exact Hin. }
      simpl in Hlen.
      pose proof (IHn s c ltac:(lia) Hrest) as Hsome.
      destruct (starLoop (run flags_i (notOf ">"%char)) true Facts.next n s c);
        [discriminate | contradiction Hsome; reflexivity].
Qed.

(** So the optional group for the alt attribute is never entered. *)
Lemma star_same_caps :
  forall n s c res,
    List.length s <= n ->
    starLoop (run flags_i (notOf ">"%char)) true Facts.next n s c = Some res ->
    snd res = c.
Proof.
  induction n as [|n IHn]; intros s c res Hlen Hloop.
  - destruct s; [|simpl in Hlen; lia].
    simpl in Hloop. unfold Facts.next in Hloop.
    apply afterStar_needs_gt in Hloop. contradiction Hloop.
  - destruct s as [|x s].
    + simpl in Hloop. unfold Facts.next in Hloop.
      apply afterStar_needs_gt in Hloop. contradiction Hloop.
    + rewrite star_notGt_step in Hloop.
      destruct (Ascii.eqb_spec x ">"%char) as [-> | Hx].
      * unfold Facts.next in Hloop. rewrite afterStar_at_gt in Hloop.
        injection Hloop as <-. reflexivity.
      * simpl in Hlen.
        destruct (starLoop (run flags_i (notOf ">"%char)) true Facts.next n s c)
          as [r|] eqn:Hrest.
        -- injection Hloop as <-. apply (IHn s c r); [lia | exact Hrest].
        -- unfold Facts.next in Hloop.
           apply afterStar_needs_gt in Hloop.
           destruct Hloop as [Heq | Hin];
             [contradiction Hx; exact Heq|].
           contradiction (star_reaches_gt n s c ltac:(lia) Hin).
Qed.

Lemma imgRegex_no_alt (s0 : list ascii) (res : list ascii * caps) :
  run flags_i CLI.imgRegex s0 [] Facts.done = Some res ->
  capture 2 (snd res) = None.
Proof.
  unfold CLI.imgRegex. cbn [seq]. intros Hrun.
  apply run_seq_keeps_group with (g := 2) in Hrun; [|reflexivity].
  destruct Hrun as (s1 & c1 & _ & H1 & Hrun).
  apply run_seq_keeps_group with (g := 2) in Hrun; [|reflexivity].
  destruct Hrun as (s2 & c2 & _ & H2 & Hrun).
  apply run_seq_keeps_group with (g := 2) in Hrun; [|reflexivity].
  destruct Hrun as (s3 & c3 & _ & H3 & Hrun).
  apply run_seq_keeps_group with (g := 2) in Hrun; [|reflexivity].
  destruct Hrun as (s4 & c4 & _ & H4 & Hrun).
  apply run_seq_keeps_group with (g := 2) in Hrun; [|reflexivity].
  destruct Hrun as (s5 & c5 & _ & H5 & Hrun).
  apply run_seq_keeps_group with (g := 2) in Hrun; [|reflexivity].
  destruct Hrun as (s6 & c6 & _ & H6 & Hrun).
  rewrite imgTail_unfold in Hrun.
  apply star_same_caps in Hrun; [|apply Nat.le_refl].
  rewrite Hrun. rewrite H6, H5, H4, H3, H2, H1. reflexivity.
Qed.

End ExtractImages.

Lemma extractImages_alt (content : string) :
  Forall (fun image => alt image = Some EmptyString)
    (CLI.extractImages content).
Proof.
  apply Forall_forall. intros image Hin.
  unfold CLI.extractImages in Hin. apply in_map_iff in Hin.
  destruct Hin as (m & <- & Hin).
  apply execAllAux_run in Hin. destruct Hin as (s0 & Hrun).
  apply imgRegex_no_alt in Hrun. simpl in Hrun.
  unfold CLI.imageOf, RegExp.group. simpl. rewrite Hrun. reflexivity.
Qed.

Lemma validateImages_without_alt (images : list Image) :
  Forall (fun image => alt image = Some EmptyString) images ->
  forall i,
    map message (forEachFrom WCAGValidator.validateImage i images)
    = repeat "Image is missing alt text" (List.length images).
Proof.
  induction 1 as [|image images Halt _ IH]; intros i; simpl;
    [reflexivity|].
  unfold WCAGValidator.validateImage at 1. rewrite Halt. simpl.
  rewrite IH. reflexivity.
Qed.

(** X18.  [extractImages] of the command-line tool never reads an alt
    attribute: the [[^>]*] before the optional group takes the rest of the
    tag, so every descriptor it returns has the empty alt text, whatever
    the markup says.  The validator therefore reports each extracted image
    as missing its alt text. *)
Theorem cli_images_have_no_alt :
  forall content : string,
    let images := CLI.extractImages content in
    Forall (fun image => alt image = Some EmptyString) images
    /\ map message (WCAGValidator.validateImages images)
       = repeat "Image is missing alt text" (List.length images).
Proof.
  intros content images.
  split; [apply extractImages_alt|].
  apply validateImages_without_alt, extractImages_alt.
Qed.

(* ================================================================== *)
(** ** The colour declarations of a style attribute *)
(* ================================================================== *)

Section Declarations.
Import RegExp.

(** A literal in front of a pattern reads its characters one by one. *)
Lemma run_lit_seq (f : flags) (r : re) :
  forall (l s : list ascii) c k res,
    run f (Seq (lit l) r) s c k = Some res ->
    exists p tl,
      s = p ++ tl
      /\ Forall2 (fun a x => charEq f a x = true) l p
      /\ run f r tl c k = Some res.
Proof.
  induction l as [|a l IH]; intros s c k res Hrun.
  - exists [], s. split; [reflexivity|]. split; [constructor | exact Hrun].
  - assert (Hstep :
      run f (Seq (lit (a :: l)) r) s c k
      = match s with
        | x :: s' =>
            if charEq f a x then run f (Seq (lit l) r) s' c k else None
        | [] => None
        end) by (destruct l; reflexivity).
    rewrite Hstep in Hrun.
    destruct s as [|x s]; [discriminate|].
    destruct (charEq f a x) eqn:Hx; [|discriminate].
    apply IH in Hrun. destruct Hrun as (p & tl & -> & Hp & Hrun).
    exists (x :: p), tl. split; [reflexivity|].
    split; [constructor; assumption | exact Hrun].
Qed.

Lemma run_lit_seq_intro (f : flags) (r : re) :
  forall (l p : list ascii),
    Forall2 (fun a x => charEq f a x = true) l p ->
    forall tl c k,
      run f (Seq (lit l) r) (p ++ tl) c k = run f r tl c k.
Proof.
  induction 1 as [|a x l p Hx _ IH]; intros tl c k; [reflexivity|].
  assert (Hstep :
    run f (Seq (lit (a :: l)) r) ((x :: p) ++ tl) c k
    = if charEq f a x then run f (Seq (lit l) r) (p ++ tl) c k else None)
    by (destruct l; reflexivity).
  rewrite Hstep, Hx. apply IH.
Qed.

(** Where [background-color:] and a value are read, [color:] and the same
    value are read eleven characters further. *)
Lemma bgColorDecl_run_colorDecl s c k res :
  run flags_i WCAGValidator.bgColorDeclRegex s c k = Some res ->
  exists p tl,
    s = p ++ tl /\ List.length p = 11
    /\ run flags_i WCAGValidator.colorDeclRegex tl c k = Some res.
Proof.
  intros Hrun.
  change WCAGValidator.bgColorDeclRegex
    with (Seq (lit (JS.chars "background-" ++ JS.chars "color:"))
            (Seq (Star true space) (Group 1 (plus (notOf ";"%char)))))
    in Hrun.
  apply run_lit_seq in Hrun. destruct Hrun as (p & tl & -> & Hp & Hrun).
  apply Forall2_app_inv_l in Hp.
  destruct Hp as (p1 & p2 & Hp1 & Hp2 & ->).
  exists p1, (p2 ++ tl). split; [symmetry; apply app_assoc|]. split.
  - apply Forall2_length in Hp1. rewrite <- Hp1. reflexivity.
  - change WCAGValidator.colorDeclRegex
      with (Seq (lit (JS.chars "color:"))
              (Seq (Star true space) (Group 1 (plus (notOf ";"%char))))).
    rewrite (run_lit_seq_intro _ _ _ _ Hp2). exact Hrun.
Qed.

(** A search finds a match no later than any place where the pattern
    matches. *)
Lemma execAt_finds (f : flags) (r : re) :
  forall (p s0 : list ascii) pos res,
    run f r s0 [] Facts.done = Some res ->
    exists m,
      execAt f r (p ++ s0) pos = Some m /\ index m <= pos + List.length p.
Proof.
  unfold Facts.done.
  induction p as [|x p IH]; intros s0 pos [s' c'] Hrun.
  - cbn [app]. destruct s0 as [|y s0]; cbn [execAt]; rewrite Hrun;
      eexists; (split; [reflexivity | simpl; lia]).
  - cbn [app execAt].
    destruct (run f r (x :: p ++ s0) [] (fun s'0 c => Some (s'0, c)))
      as [[s1 c1]|].
    + eexists. split; [reflexivity | simpl; lia].
    + destruct (IH s0 (S pos) _ Hrun) as (m & Hm & Hle).
      exists m. split; [exact Hm | simpl; lia].
Qed.

(** The match of a search is a match of the pattern at its index. *)
Lemma execAt_at (f : flags) (r : re) :
  forall s pos m,
    execAt f r s pos = Some m ->
    pos <= index m
    /\ run f r (skipn (index m - pos) s) [] Facts.done
       = Some (rest m, groups m).
Proof.
  unfold Facts.done.
  induction s as [|x s IH]; intros pos m Hexec; cbn [execAt] in Hexec.
  - destruct (run f r [] [] (fun s' c => Some (s', c))) as [[s' c]|] eqn:Hrun;
      [|discriminate].
    injection Hexec as <-. cbn [index rest groups].
    split; [lia|]. rewrite Nat.sub_diag. exact Hrun.
  - destruct (run f r (x :: s) [] (fun s' c => Some (s', c)))
      as [[s' c]|] eqn:Hrun.
    + injection Hexec as <-. cbn [index rest groups].
      split; [lia|]. rewrite Nat.sub_diag. exact Hrun.
    + apply IH in Hexec. destruct Hexec as [Hle Hat].
      split; [lia|].
      replace (index m - pos) with (S (index m - S pos)) by lia.
      exact Hat.
Qed.

End Declarations.

(** X19.  In the contrast check of the validator, a style that declares a
    [background-color] always counts as declaring a [color] too, because
    [color:] is found inside [background-color:].  When that is the first
    [color:] of the style (as when no text colour is declared before it),
    the background colour is read as the text colour: the check compares
    the background with itself, or reports the value as unparsable. *)
Theorem background_color_read_as_text_color :
  forall (CP : ColorPackage) (m bm : RegExp.result),
    RegExp.exec RegExp.flags_i WCAGValidator.bgColorDeclRegex
      (RegExp.group 1 m) = Some bm ->
    exists cm,
      RegExp.exec RegExp.flags_i WCAGValidator.colorDeclRegex
        (RegExp.group 1 m) = Some cm
      /\ RegExp.index cm <= RegExp.index bm + 11
      /\ (RegExp.index cm = RegExp.index bm + 11 ->
          RegExp.group 1 cm = RegExp.group 1 bm
          /\ WCAGValidator.checkStyle m
             = match Color (JS.trim (RegExp.group 1 bm)) with
               | Some background =>
                   let ratio := contrast background background in
                   if Qlt_bool ratio (45 # 10)
                   then [WCAGValidator.lowContrast ratio] else []
               | None => [WCAGValidator.unparsableColor]
               end).
Proof.
  intros CP m bm Hbg.
  pose proof Hbg as Hat. unfold RegExp.exec in Hat.
  apply execAt_at in Hat. destruct Hat as [_ Hat].
  rewrite Nat.sub_0_r in Hat.
  apply bgColorDecl_run_colorDecl in Hat.
  destruct Hat as (p & tl & Hsplit & Hp & Hcolor).
  set (s := JS.chars (RegExp.group 1 m)) in *.
  assert (Hs : s = (firstn (RegExp.index bm) s ++ p) ++ tl).
  { rewrite <- app_assoc, <- Hsplit. symmetry. apply firstn_skipn. }
  destruct (execAt_finds RegExp.flags_i WCAGValidator.colorDeclRegex
              (firstn (RegExp.index bm) s ++ p) tl 0 _ Hcolor)
    as (cm & Hcm & Hle).
  rewrite <- Hs in Hcm.
  exists cm. split; [exact Hcm|]. split.
  { rewrite length_app, Hp in Hle.
    pose proof (firstn_le_length (RegExp.index bm) s). simpl in Hle. lia. }
  intros Hindex.
  assert (Hgroups : RegExp.groups cm = RegExp.groups bm).
  { pose proof (execAt_at _ _ _ _ _ Hcm) as [_ Hat].
    rewrite Nat.sub_0_r, Hindex in Hat.
    rewrite Nat.add_comm, <- skipn_skipn, Hsplit in Hat.
    rewrite skipn_app, Hp, Nat.sub_diag in Hat.
    rewrite skipn_all2 in Hat by lia. cbn [app skipn] in Hat.
    rewrite Hcolor in Hat. injection Hat as _ Hg. symmetry. exact Hg. }
  assert (Hgroup : RegExp.group 1 cm = RegExp.group 1 bm)
    by (unfold RegExp.group; rewrite Hgroups; reflexivity).
  split; [exact Hgroup|].
  unfold WCAGValidator.checkStyle.
  fold s in Hcm. unfold RegExp.exec. fold s.
  unfold RegExp.exec in Hbg. fold s in Hbg.
  rewrite Hcm, Hbg, Hgroup.
  destruct (Color (JS.trim (RegExp.group 1 bm))); reflexivity.
Qed.

(** X19 on the style [background-color: #fff], which declares no text
    colour: white is compared with itself and reported with the ratio 1. *)
Lemma background_color_read_as_text_color_witness :
  let m :=
    {| RegExp.index := 0; RegExp.text := [];
       RegExp.groups := [(1, JS.chars "background-color: #fff")];
       RegExp.rest := [] |} in
  let bm :=
    {| RegExp.index := 0;
       RegExp.text := JS.chars "background-color: #fff";
       RegExp.groups := [(1, JS.chars "#fff")];
       RegExp.rest := [] |} in
  RegExp.exec RegExp.flags_i WCAGValidator.bgColorDeclRegex
    (RegExp.group 1 m) = Some bm
  /\ map message (@WCAGValidator.checkStyle Fixtures.blackAndWhite m)
     = ["Color contrast ratio is 1.00:1 (minimum required: 4.5:1)"].
Proof.
  intros m bm.
  assert (Hbg : RegExp.exec RegExp.flags_i WCAGValidator.bgColorDeclRegex
                  (RegExp.group 1 m) = Some bm) by reflexivity.
  split; [exact Hbg|].
  destruct (background_color_read_as_text_color Fixtures.blackAndWhite
              m bm Hbg) as (cm & Hcm & _ & Hsame).
  assert (Hindex : RegExp.index cm = RegExp.index bm + 11).
  { vm_compute in Hcm. injection Hcm as <-. reflexivity. }
  destruct (Hsame Hindex) as [_ ->]. reflexivity.
Defined.

(* ================================================================== *)
(** ** The case of ARIA attributes *)
(* ================================================================== *)

Lemma validAttributes_lower_case :
  Forall (fun a => existsb JS.isUpper (JS.chars a) = false)
    WCAGValidator.validAttributes.
Proof. repeat constructor. Qed.

Lemma isValidARIAAttribute_lower_case (attribute : string) :
  WCAGValidator.isValidARIAAttribute attribute = true ->
  existsb JS.isUpper (JS.chars attribute) = false.
Proof.
  unfold WCAGValidator.isValidARIAAttribute, JS.arrayIncludes.
  intros Hin. apply existsb_exists in Hin. destruct Hin as (a & Hin & Heq).
  apply String.eqb_eq in Heq. subst a.
  exact (proj1 (Forall_forall _ _) validAttributes_lower_case _ Hin).
Qed.

(** X20.  [validateARIA] finds the attributes without regard to case (its
    pattern has the [i] flag) but compares their names as written with a
    list of lower-case names: an ARIA attribute written with an upper-case
    letter, even a valid one such as [ARIA-LABEL], is reported as
    invalid. *)
Theorem aria_attribute_case_sensitive :
  forall (content : string) (m : RegExp.result),
    In m (RegExp.execAll RegExp.flags_i WCAGValidator.ariaRegex content) ->
    existsb JS.isUpper (JS.chars (RegExp.group 1 m)) = true ->
    In (WCAGValidator.invalidAria (RegExp.group 1 m))
      (WCAGValidator.validateARIA content).
Proof.
  intros content m Hin Hupper.
  unfold WCAGValidator.validateARIA. apply in_or_app. right.
  apply in_flat_map. exists m. split; [exact Hin|].
  unfold WCAGValidator.checkAriaAttribute.
  destruct (WCAGValidator.isValidARIAAttribute (RegExp.group 1 m)) eqn:Hvalid.
  - apply isValidARIAAttribute_lower_case in Hvalid.
    rewrite Hvalid in Hupper. discriminate.
  - left. reflexivity.
Qed.

(** X20 on a button labelled with [ARIA-LABEL]: the label is accepted as
    the accessible name of the button, and reported as an invalid
    attribute. *)
Lemma aria_attribute_case_sensitive_witness :
  let content :=
    "<button ARIA-LABEL=" +++ JS.dq +++ "Close" +++ JS.dq +++ "></button>" in
  let m :=
    {| RegExp.index := 8;
       RegExp.text := JS.chars "ARIA-LABEL=";
       RegExp.groups := [(1, JS.chars "LABEL")];
       RegExp.rest :=
         JS.chars (JS.dq +++ "Close" +++ JS.dq +++ "></button>") |} in
  In m (RegExp.execAll RegExp.flags_i WCAGValidator.ariaRegex content)
  /\ In (WCAGValidator.invalidAria "LABEL")
       (WCAGValidator.validateARIA content)
  /\ map message (WCAGValidator.validateARIA content)
     = ["Invalid ARIA attribute: aria-LABEL"].
Proof.
  intros content m.
  assert (Hin : In m (RegExp.execAll RegExp.flags_i WCAGValidator.ariaRegex
                        content)) by (left; reflexivity).
  split; [exact Hin|]. split.
  - exact (aria_attribute_case_sensitive content m Hin eq_refl).
  - reflexivity.
Defined.
